(** * CloudFlare/cloudflare.py: a shallow embedding of the v4 API client

    The development follows the layout of the Python module:
    - [PyValues]: the Python values the client manipulates (configuration
      values, deserialised JSON, exceptions) and the handful of Python
      operators the code applies to them ([in], [o[k]], [o[0]], [str.join],
      [str.splitlines], [bytes.decode], ...);
    - [V4Base]: the class [CloudFlare._v4base] (headers, authentication,
      URL construction, the network call, response normalisation in [_raw],
      the success-field sanitisation and error raising of [_call]);
    - [Endpoints]: the five endpoint classes [_add_unused], [_add_no_auth],
      [_add_with_auth], [_add_with_auth_unwrapped], [_add_with_cert_auth];
    - [Client]: the constructor [CloudFlare.__init__];
    - [RefPython]: a reference instance of the Python built-ins that the
      module imports ([json.loads], [str()]), used to run the model on
      concrete responses;
    - [Demo], [Spec], [Samples]: sample clients and bodies, and the notions
      the properties are stated with;
    - [Basics], [AuthTheory], [ClientTheory], [UrlTheory], [PipelineTheory],
      [HeadersTheory], [EndpointsTheory]: the properties themselves.

    Text is represented by its UTF-8 encoding: a Python [str] is the
    [string] of its UTF-8 bytes, so that [bytes.decode('utf-8')] is the
    identity on well-formed input and raises [UnicodeDecodeError] otherwise.

    Calls that may reach the network return their outcome together with
    the list of requests handed to the transport, so that "fails before any
    network I/O" reads: the outcome is an exception and the list is
    unchanged. *)

From Stdlib Require Import ZArith Ascii List Bool Lia.
From stdpp Require Import base option list strings gmap pretty.

Local Open Scope Z_scope.
Local Set Warnings "-register-all".

(* ===================================================================== *)
(** * Python values *)
(* ===================================================================== *)

Module PyValues.

(** Values found in the configuration mapping and in request headers. *)
Inductive cfgval :=
| VNone
| VStr (s : string)
| VBool (b : bool)
| VInt (z : Z).

#[global] Instance cfgval_eq_dec : EqDecision cfgval.
Proof. solve_decision. Defined.

(** Python truthiness, as used by [if x:]. *)
Definition cfg_truthy (v : cfgval) : bool :=
  match v with
  | VNone => false
  | VStr s => negb (bool_decide (s = ""))
  | VBool b => b
  | VInt z => negb (z =? 0)
  end.

(** ['%s' % v]. *)
Definition percent_s (v : cfgval) : string :=
  match v with
  | VNone => "None"
  | VStr s => s
  | VBool true => "True"
  | VBool false => "False"
  | VInt z => pretty z
  end.

(** Objects obtained from a response body.  [PySelf] stands for a reference
    to the response dictionary itself: [_call] stores the dictionary inside
    its own ['errors'] list ([r = response_data;
    response_data['errors'].append(r)]), which makes the object cyclic. *)
Inductive pyobj :=
| PyNone
| PyBool (b : bool)
| PyInt (z : Z)
| PyFloat (literal : string)
| PyStr (s : string)
| PyList (l : list pyobj)
| PyDict (d : list (string * pyobj))
| PySelf.

(** Exceptions that can leave the client. *)
Inductive exn :=
| CloudFlareAPIError (code : pyobj) (message : pyobj) (error_chain : option pyobj)
| CloudFlareInternalError (code : Z) (message : string)
| HTTPError (status : Z)
| TransportRaised (name : string)
| TypeError
| KeyError (key : string)
| IndexError
| UnicodeDecodeError.

(** The two API errors most of the code raises: integer code, text message. *)
Definition api_error (code : Z) (message : string) : exn :=
  CloudFlareAPIError (PyInt code) (PyStr message) None.

(** ** Results: a raised exception or a value *)

Definition res (A : Type) : Type := exn + A.

Definition ok {A} (a : A) : res A := inr a.
Definition raise {A} (e : exn) : res A := inl e.

Definition rbind {A B} (m : res A) (k : A -> res B) : res B :=
  match m with
  | inl e => inl e
  | inr a => k a
  end.

(** [try: x = m  except: x = d] *)
Definition try_or {A} (m : res A) (d : A) : A :=
  match m with
  | inl _ => d
  | inr a => a
  end.

(** ** Strings *)

Definition str_eqb (a b : string) : bool := bool_decide (a = b).

Fixpoint str_contains (needle hay : string) : bool :=
  String.prefix needle hay ||
  match hay with
  | EmptyString => false
  | String _ rest => str_contains needle rest
  end.

Fixpoint join (sep : string) (l : list string) : string :=
  match l with
  | [] => ""
  | [x] => x
  | x :: rest => x +:+ sep +:+ join sep rest
  end.

Definition byte_val (c : ascii) : N := N_of_ascii c.

(** A UTF-8 continuation byte, [10xxxxxx]. *)
Definition is_cont (c : ascii) : bool :=
  let b := byte_val c in (128 <=? b)%N && (b <=? 191)%N.

(** The characters (code points) of a text, each as its own string. *)
Fixpoint chars_go (cur : string) (s : string) : list string :=
  match s with
  | EmptyString => match cur with EmptyString => [] | _ => [cur] end
  | String c rest =>
      if is_cont c then chars_go (cur +:+ String c "") rest
      else match cur with
           | EmptyString => chars_go (String c "") rest
           | _ => cur :: chars_go (String c "") rest
           end
  end.

Definition chars (s : string) : list string := chars_go "" s.

(** *** [bytes.decode('utf-8')] *)

(** Decoder state: continuation bytes still expected, and the range the
    next one must lie in (this is what excludes overlong forms, surrogates
    and code points above U+10FFFF). *)
Definition utf8_state : Type := nat * N * N.

Definition utf8_step (st : utf8_state) (c : ascii) : option utf8_state :=
  let b := byte_val c in
  match st with
  | (O, _, _) =>
      if (b <? 128)%N then Some (O, 128, 191)%N
      else if (b <? 194)%N then None
      else if (b <? 224)%N then Some (1%nat, 128, 191)%N
      else if (b =? 224)%N then Some (2%nat, 160, 191)%N
      else if (b =? 237)%N then Some (2%nat, 128, 159)%N
      else if (b <? 240)%N then Some (2%nat, 128, 191)%N
      else if (b =? 240)%N then Some (3%nat, 144, 191)%N
      else if (b <? 244)%N then Some (3%nat, 128, 191)%N
      else if (b =? 244)%N then Some (3%nat, 128, 143)%N
      else None
  | (S n, lo, hi) =>
      if (lo <=? b)%N && (b <=? hi)%N then Some (n, 128, 191)%N else None
  end.

Fixpoint utf8_run (st : utf8_state) (s : string) : bool :=
  match s with
  | EmptyString => match st with (O, _, _) => true | _ => false end
  | String c rest =>
      match utf8_step st c with
      | Some st' => utf8_run st' rest
      | None => false
      end
  end.

Definition utf8_valid (s : string) : bool := utf8_run (O, 128, 191)%N s.

Definition decode_utf8 (b : string) : res string :=
  if utf8_valid b then ok b else raise UnicodeDecodeError.

(** *** [str.splitlines()]
    Line boundaries: LF, CR, CRLF, VT, FF, FS, GS, RS, NEL (U+0085),
    LS (U+2028), PS (U+2029); a final unterminated empty line is dropped. *)
Fixpoint splitlines_go (cur : string) (s : string) : list string :=
  match s with
  | EmptyString => match cur with EmptyString => [] | _ => [cur] end
  | String c rest =>
      let b := byte_val c in
      if (b =? 13)%N then
        match rest with
        | String c1 rest1 =>
            if (byte_val c1 =? 10)%N then cur :: splitlines_go "" rest1
            else cur :: splitlines_go "" rest
        | EmptyString => cur :: splitlines_go "" rest
        end
      else if (b =? 10)%N || (b =? 11)%N || (b =? 12)%N
              || (b =? 28)%N || (b =? 29)%N || (b =? 30)%N then
        cur :: splitlines_go "" rest
      else
        match rest with
        | String c1 rest1 =>
            if (b =? 194)%N && (byte_val c1 =? 133)%N then
              cur :: splitlines_go "" rest1
            else
              match rest1 with
              | String c2 rest2 =>
                  if (b =? 226)%N && (byte_val c1 =? 128)%N
                     && ((byte_val c2 =? 168)%N || (byte_val c2 =? 169)%N)
                  then cur :: splitlines_go "" rest2
                  else splitlines_go (cur +:+ String c "") rest
              | EmptyString => splitlines_go (cur +:+ String c "") rest
              end
        | EmptyString => splitlines_go (cur +:+ String c "") rest
        end
  end.

Definition splitlines (s : string) : list string := splitlines_go "" s.

(** *** [str(b)] for a [bytes] object: its literal, [b'...'] *)

Definition hex_digit (n : N) : ascii :=
  if (n <? 10)%N then ascii_of_N (48 + n) else ascii_of_N (87 + n).

Definition squote : ascii := ascii_of_N 39.
Definition dquote : ascii := ascii_of_N 34.
Definition backslash : ascii := ascii_of_N 92.

Fixpoint has_char (c : ascii) (s : string) : bool :=
  match s with
  | EmptyString => false
  | String x rest => bool_decide (x = c) || has_char c rest
  end.

Definition repr_byte (quote c : ascii) : string :=
  let b := byte_val c in
  if bool_decide (c = quote) || bool_decide (c = backslash) then
    String backslash (String c "")
  else if (b =? 9)%N then String backslash "t"
  else if (b =? 10)%N then String backslash "n"
  else if (b =? 13)%N then String backslash "r"
  else if (b <? 32)%N || (127 <=? b)%N then
    String backslash
      (String "x" (String (hex_digit (b / 16)) (String (hex_digit (b mod 16)) "")))
  else String c "".

Fixpoint repr_bytes_body (quote : ascii) (s : string) : string :=
  match s with
  | EmptyString => ""
  | String c rest => repr_byte quote c +:+ repr_bytes_body quote rest
  end.

Definition bytes_repr (b : string) : string :=
  let quote :=
    if has_char squote b && negb (has_char dquote b) then dquote else squote in
  String "b" (String quote (repr_bytes_body quote b +:+ String quote "")).

(** ** Operators on response objects *)

Definition is_none (o : pyobj) : bool :=
  match o with PyNone => true | _ => false end.

(** [o is False] *)
Definition is_False (o : pyobj) : bool :=
  match o with PyBool false => true | _ => false end.

Definition is_dict (o : pyobj) : bool :=
  match o with PyDict _ => true | _ => false end.

Definition is_the_str (k : string) (o : pyobj) : bool :=
  match o with PyStr s => str_eqb k s | _ => false end.

Fixpoint dict_get (k : string) (d : list (string * pyobj)) : option pyobj :=
  match d with
  | [] => None
  | (k', v) :: rest => if str_eqb k k' then Some v else dict_get k rest
  end.

Definition dict_has (k : string) (d : list (string * pyobj)) : bool :=
  match dict_get k d with Some _ => true | None => false end.

(** [d[k] = v]: an existing key keeps its position, a new one goes last. *)
Fixpoint dict_set (k : string) (v : pyobj) (d : list (string * pyobj))
  : list (string * pyobj) :=
  match d with
  | [] => [(k, v)]
  | (k', v') :: rest =>
      if str_eqb k k' then (k', v) :: rest else (k', v') :: dict_set k v rest
  end.

(** [k in o] for a [str] k: key of a dict, element of a list, substring of
    a str; other objects are not iterable. *)
Definition py_in (k : string) (o : pyobj) : res bool :=
  match o with
  | PyDict d => ok (dict_has k d)
  | PyList l => ok (existsb (is_the_str k) l)
  | PyStr s => ok (str_contains k s)
  | _ => raise TypeError
  end.

(** [o[k]] for a [str] k. *)
Definition py_getitem (o : pyobj) (k : string) : res pyobj :=
  match o with
  | PyDict d =>
      match dict_get k d with
      | Some v => ok v
      | None => raise (KeyError k)
      end
  | _ => raise TypeError
  end.

(** [o[0]] *)
Definition py_getitem0 (o : pyobj) : res pyobj :=
  match o with
  | PyList (x :: _) => ok x
  | PyList [] => raise IndexError
  | PyStr s =>
      match chars s with
      | c :: _ => ok (PyStr c)
      | [] => raise IndexError
      end
  | PyDict _ => raise (KeyError "0")
  | _ => raise TypeError
  end.

(** [o[k] = v] for a [str] k. *)
Definition py_setitem (o : pyobj) (k : string) (v : pyobj) : res pyobj :=
  match o with
  | PyDict d => ok (PyDict (dict_set k v d))
  | _ => raise TypeError
  end.

Definition as_str (o : pyobj) : option string :=
  match o with PyStr s => Some s | _ => None end.

(** [for x in o] *)
Definition py_iter (o : pyobj) : res (list pyobj) :=
  match o with
  | PyList l => ok l
  | PyDict d => ok (map (fun kv => PyStr (fst kv)) d)
  | PyStr s => ok (map PyStr (chars s))
  | _ => raise TypeError
  end.

(** [sep.join(o)] *)
Definition py_join (sep : string) (o : pyobj) : res string :=
  rbind (py_iter o) (fun items =>
    match mapM as_str items with
    | Some strs => ok (join sep strs)
    | None => raise TypeError
    end).

(** [o + s] for a [str] s. *)
Definition py_add_str (o : pyobj) (s : string) : res string :=
  match o with
  | PyStr a => ok (a +:+ s)
  | _ => raise TypeError
  end.

(** The alias stored by [_call] in the errors list points back to the
    response dictionary. *)
Definition deref (root o : pyobj) : pyobj :=
  match o with PySelf => root | _ => o end.

(** ** Built-ins the module takes from Python
    [json_loads s = None] stands for [json.loads(s)] raising [ValueError];
    [py_str] is [str()] on a deserialised value. *)
Class Python := {
  json_loads : string -> option pyobj;
  py_str : pyobj -> string
}.

End PyValues.

(* ===================================================================== *)
(** * class CloudFlare._v4base *)
(* ===================================================================== *)

Module V4Base.
Import PyValues.

Definition BASE_URL : string := "https://api.cloudflare.com/client/v4".

(** requests_codes.ok *)
Definition codes_ok : Z := 200.

(** ** Requests and responses *)

(** A file object handed to [post(..., files=...)]. *)
Record pyfile := { file_name : string; file_bytes : string }.

(** The request body [data]: a script ([str]) or a mapping. *)
Inductive pydata :=
| DStr (s : string)
| DDict (d : list (string * pyobj)).

Inductive part :=
| PartFile (f : pyfile)
| PartValue (v : pyobj).

(** [files] as the transport receives it: the caller's mapping, or the
    tuple of [(field, (filename, payload))] built when data is merged in. *)
Inductive files_arg :=
| FilesDict (d : list (string * pyfile))
| FilesTuple (t : list (string * (option string * part))).

Record request := {
  req_method : string;
  req_url : string;
  req_headers : gmap string cfgval;
  req_params : option (list (string * string));
  req_data : option pydata;
  req_files : option files_arg
}.

(** [response.content] *)
Inductive content :=
| CBytes (b : string)
| CStr (s : string).

Record response := {
  content_type_header : option string;
  status_code : Z;
  resp_content : content
}.

(** What [self.network(...)] does: answer, raise a
    [requests.RequestException], or raise something else. *)
Inductive net_outcome :=
| Responded (r : response)
| RequestException (msg : string)
| OtherException (name : string).

Record v4base := {
  config : gmap string cfgval;
  api_email : cfgval;
  api_key : cfgval;
  api_token : cfgval;
  api_certtoken : cfgval;
  base_url : cfgval;
  raw : cfgval;
  use_sessions : cfgval;
  global_request_timeout : cfgval;
  max_request_retries : cfgval;
  profile : cfgval;
  network : request -> net_outcome;
  user_agent : string;
  logger : bool
}.

(** ** Calls that may reach the network
    A computation takes the requests sent so far and returns its outcome
    with the requests sent once it is over. *)
Definition M (A : Type) : Type := list request -> res A * list request.

Definition mret {A} (a : A) : M A := fun tr => (ok a, tr).
Definition mraise {A} (e : exn) : M A := fun tr => (raise e, tr).
Definition mlift {A} (r : res A) : M A := fun tr => (r, tr).
Definition mbind {A B} (m : M A) (k : A -> M B) : M B :=
  fun tr =>
    match m tr with
    | (inl e, tr') => (inl e, tr')
    | (inr a, tr') => k a tr'
    end.

(** [self.network(...)]: the one place a request leaves the client. *)
Definition send (self : v4base) (r : request) : M net_outcome :=
  fun tr => (ok (network self r), tr ++ [r]).

Declare Scope py_scope.
Delimit Scope py_scope with py.
Notation "x <- m ;; k" := (mbind m (fun x => k))
  (at level 100, m at next level, right associativity) : py_scope.
Notation "x <-? m ;; k" := (rbind m (fun x => k))
  (at level 100, m at next level, right associativity) : py_scope.
Local Open Scope py_scope.

(** ** Headers *)

Abbreviation headers_t := (gmap string cfgval).

Definition _add_headers (self : v4base) (headers : headers_t) : headers_t :=
  <["Content-Type" := VStr "application/json"]>
    (<["User-Agent" := VStr (user_agent self)]> headers).

(** [str.lower()] on ASCII text (method names are ASCII). *)
Definition lower_ascii (c : ascii) : ascii :=
  let n := byte_val c in
  if (65 <=? n)%N && (n <=? 90)%N then ascii_of_N (n + 32) else c.

Fixpoint lower (s : string) : string :=
  match s with
  | EmptyString => EmptyString
  | String c rest => String (lower_ascii c) (lower rest)
  end.

Definition is_None (v : cfgval) : bool :=
  match v with VNone => true | _ => false end.

(** [self.config[v] if v in self.config else generic] *)
Definition credential (self : v4base) (field method : string) (generic : cfgval)
  : cfgval :=
  match config self !! (field +:+ "." +:+ lower method) with
  | Some v => v
  | None => generic
  end.

Definition _add_auth_headers (self : v4base) (headers : headers_t) (method : string)
  : res headers_t :=
  let api_email := credential self "email" method (api_email self) in
  let api_key := credential self "key" method (api_key self) in
  let api_token := credential self "token" method (api_token self) in
  if is_None api_email && is_None api_key && is_None api_token then
    raise (api_error 0 "neither email/key or token defined")
  else if negb (is_None api_key) && negb (is_None api_token) then
    raise (api_error 0 "confused info - both key and token defined")
  else if negb (is_None api_email) && is_None api_key && is_None api_token then
    raise (api_error 0 "email defined however neither key or token defined")
  else if is_None api_email && negb (is_None api_token) then
    ok (<["Authorization" := VStr ("Bearer " +:+ percent_s api_token)]> headers)
  else if is_None api_email && negb (is_None api_key) then
    ok (<["Authorization" := VStr ("Bearer " +:+ percent_s api_key)]> headers)
  else if negb (is_None api_email) && negb (is_None api_key) then
    ok (<["X-Auth-Key" := api_key]> (<["X-Auth-Email" := api_email]> headers))
  else if negb (is_None api_email) && negb (is_None api_token) then
    ok (<["X-Auth-Key" := api_token]> (<["X-Auth-Email" := api_email]> headers))
  else
    raise (CloudFlareInternalError 0 "coding issue!").

Definition _add_certtoken_headers (self : v4base) (headers : headers_t)
  (method : string) : res headers_t :=
  let api_certtoken := credential self "certtoken" method (api_certtoken self) in
  if is_None api_certtoken then raise (api_error 0 "no cert token defined")
  else ok (<["X-Auth-User-Service-Key" := api_certtoken]> headers).

(** ** URL construction (first half of [_call_network]) *)

(** [l[i]] on a Python list. *)
Definition index {A} (l : list A) (i : nat) : res A :=
  match l !! i with
  | Some x => ok x
  | None => raise IndexError
  end.

(** [a + b] where [a] is a str: [b] must be a str too. *)
Definition cat (a : string) (b : option string) : res string :=
  match b with
  | Some s => ok (a +:+ s)
  | None => raise TypeError
  end.

(** Truthiness of an optional str ([if parts[2]:]). *)
Definition truthy (o : option string) : bool :=
  match o with
  | None | Some EmptyString => false
  | Some _ => true
  end.

Definition is_some {A} (o : option A) : bool :=
  match o with Some _ => true | None => false end.

(** [self.base_url + '/'] *)
Definition base_slash (self : v4base) : res string :=
  match base_url self with
  | VStr b => ok (b +:+ "/")
  | _ => raise TypeError
  end.

Definition build_url (self : v4base) (method : string)
  (parts identifiers : list (option string)) (data : option pydata) : res string :=
  p0 <-? index parts 0 ;;
  if negb (is_some p0) then
    raise (CloudFlareInternalError 0 "You must specify a method and endpoint")
  else
  p1 <-? index parts 1 ;;
  url <-?
    (if is_some p1 || (is_some data && str_eqb method "GET") then
       i0 <-? index identifiers 0 ;;
       if negb (is_some i0) then
         raise (api_error 0 "You must specify first identifier")
       else
         i1 <-? index identifiers 1 ;;
         u <-? base_slash self ;;
         u <-? cat u p0 ;;
         u <-? cat (u +:+ "/") i0 ;;
         u <-? cat (u +:+ "/") p1 ;;
         if negb (is_some i1) then ok u else cat (u +:+ "/") i1
     else
       i0 <-? index identifiers 0 ;;
       u <-? base_slash self ;;
       u <-? cat u p0 ;;
       if negb (is_some i0) then ok u else cat (u +:+ "/") i0) ;;
  p2 <-? index parts 2 ;;
  if truthy p2 then
    url <-? cat (url +:+ "/") p2 ;;
    i2 <-? index identifiers 2 ;;
    url <-? (if truthy i2 then cat (url +:+ "/") i2 else ok url) ;;
    p3 <-? index parts 3 ;;
    if truthy p3 then
      url <-? cat (url +:+ "/") p3 ;;
      i3 <-? index identifiers 3 ;;
      url <-? (if truthy i3 then cat (url +:+ "/") i3 else ok url) ;;
      p4 <-? index parts 4 ;;
      if truthy p4 then cat (url +:+ "/") p4 else ok url
    else ok url
  else ok url.

(** ** [_call_network] *)

Definition data_truthy (data : option pydata) : bool :=
  match data with
  | None | Some (DStr EmptyString) | Some (DDict []) => false
  | Some _ => true
  end.

Definition files_truthy (files : option (list (string * pyfile))) : bool :=
  match files with
  | None | Some [] => false
  | Some _ => true
  end.

(** [if files and data:] move data into files, to be sent as one multipart
    form; indexing a script with one of its characters raises. *)
Definition merge_files (files : option (list (string * pyfile)))
  (data : option pydata) : res (option files_arg * option pydata) :=
  if files_truthy files && data_truthy data then
    let new_files :=
      map (fun f => (fst f, (Some (file_name (snd f)), PartFile (snd f))))
          (default [] files) in
    match data with
    | Some (DDict d) =>
        ok (Some (FilesTuple
                    (new_files ++ map (fun kv => (fst kv, (None, PartValue (snd kv)))) d)),
            None)
    | _ => raise TypeError
    end
  else ok (FilesDict <$> files, data).

(** [response_type[0:response_type.rfind(c)]], when [c] occurs. *)
Fixpoint before_last (c : ascii) (s : string) : option string :=
  match s with
  | EmptyString => None
  | String x rest =>
      match before_last c rest with
      | Some p => Some (String x p)
      | None => if bool_decide (x = c) then Some "" else None
      end
  end.

Definition is_space (c : ascii) : bool :=
  let b := byte_val c in
  ((9 <=? b)%N && (b <=? 13)%N) || ((28 <=? b)%N && (b <=? 32)%N).

Fixpoint lstrip (s : string) : string :=
  match s with
  | String c rest => if is_space c then lstrip rest else s
  | EmptyString => EmptyString
  end.

Fixpoint rstrip (s : string) : string :=
  match s with
  | EmptyString => EmptyString
  | String c rest =>
      match rstrip rest with
      | EmptyString => if is_space c then EmptyString else String c ""
      | r => String c r
      end
  end.

(** [str.strip()] (ASCII white space; header values are ASCII). *)
Definition strip (s : string) : string := rstrip (lstrip s).

Definition response_type_of (r : response) : string :=
  match content_type_header r with
  | Some t =>
      let t := match before_last ";" t with Some p => p | None => t end in
      lower (strip t)
  | None => "application/octet-stream"
  end.

(** The method is always one of the literals the endpoint classes pass
    ('GET', 'PATCH', ...), so the [method is None] test never fires; a
    [response.content] is a [bytes] or [str] object, so the decoding of
    other content types at lines 244-245 never fires either. *)
Definition _call_network (self : v4base) (method : string) (headers : headers_t)
  (parts identifiers : list (option string))
  (params : option (list (string * string))) (data : option pydata)
  (files : option (list (string * pyfile))) : M (string * Z * content) :=
  url <- mlift (build_url self method parts identifiers data) ;;
  fd <- mlift (merge_files files data) ;;
  out <- send self {| req_method := method; req_url := url; req_headers := headers;
                      req_params := params; req_data := snd fd; req_files := fst fd |} ;;
  match out with
  | RequestException e => mraise (CloudFlareAPIError (PyInt 0) (PyStr e) None)
  | OtherException name => mraise (TransportRaised name)
  | Responded response =>
      let response_type := response_type_of response in
      let response_code := status_code response in
      let response_data := resp_content response in
      if (500 <=? response_code) && (response_code <=? 599) then
        (* response.raise_for_status() *)
        mraise (HTTPError response_code)
      else mret (response_type, response_code, response_data)
  end.

(** ** [_raw]: normalisation of the response *)

(** 200 ok: [{'success': True, 'result': r}]; 3xx and 4xx:
    [{'success': False, 'code': response_code, 'result': r}]. *)
Definition by_code (response_code : Z) (r : pyobj) : pyobj :=
  if response_code =? codes_ok then
    PyDict [("success", PyBool true); ("result", r)]
  else
    PyDict [("success", PyBool false); ("code", PyInt response_code); ("result", r)].

Definition is_bytes (c : content) : bool :=
  match c with CBytes _ => true | CStr _ => false end.

(** [if hasattr(response_data, 'decode'): response_data.decode('utf-8')] *)
Definition decoded (c : content) : res string :=
  match c with
  | CBytes b => decode_utf8 b
  | CStr s => ok s
  end.

(** [str(response_data)] *)
Definition str_of_content (c : content) : string :=
  match c with
  | CBytes b => bytes_repr b
  | CStr s => s
  end.

Definition dict_without_success (v : pyobj) : bool :=
  match v with
  | PyDict d => negb (dict_has "success" d)
  | _ => true
  end.

Section Normaliser.
Context `{Python}.

Definition normalise (response_type : string) (response_code : Z)
  (response_data : content) : res pyobj :=
  if str_eqb response_type "application/json" then
    text <-? decoded response_data ;;
    match json_loads text with
    | Some v =>
        ok (if is_dict v then v
            else PyDict [("success", PyBool true); ("result", v)])
    | None =>
        if str_eqb text "" then ok (by_code response_code PyNone)
        else
          match mapM json_loads (splitlines text) with
          | Some r => ok (PyList r)
          | None => raise (api_error 0 "JSON parse failed - report to Cloudflare.")
          end
    end
  else if str_eqb response_type "application/octet-stream" && is_bytes response_data then
    text <-? decoded response_data ;;
    match json_loads text with
    | Some v => ok (if dict_without_success v then by_code response_code v else v)
    | None => ok (by_code response_code (PyStr text))
    end
  else if str_eqb response_type "text/plain"
          || str_eqb response_type "application/octet-stream" then
    text <-? decoded response_data ;;
    match json_loads text with
    | Some v =>
        ok (if is_dict v then v
            else PyDict [("success", PyBool true); ("result", v)])
    | None => ok (by_code response_code (PyStr text))
    end
  else if str_eqb response_type "text/javascript"
          || str_eqb response_type "application/javascript" then
    ok (by_code response_code (PyStr (str_of_content response_data)))
  else if str_eqb response_type "text/html" then
    ok (by_code response_code (PyStr (str_of_content response_data)))
  else
    ok (by_code response_code (PyStr (str_of_content response_data))).

Definition _raw (self : v4base) (method : string) (headers : headers_t)
  (parts identifiers : list (option string))
  (params : option (list (string * string))) (data : option pydata)
  (files : option (list (string * pyfile))) : M pyobj :=
  r <- _call_network self method headers parts identifiers params data files ;;
  let '(response_type, response_code, response_data) := r in
  mlift (normalise response_type response_code response_data).

(** ** [_call]: sanitisation, error raising, unwrapping *)

(** [response_data['errors'][0][field]] *)
Definition first_error_field (errors : pyobj) (field : string) : res pyobj :=
  e <-? py_getitem0 errors ;; py_getitem e field.

(** Lines 446-484: "Sanatize the returned results - just in case API is
    messed up". *)
Definition sanitise (response_data : pyobj) : res pyobj :=
  has_success <-? py_in "success" response_data ;;
  if negb has_success then
    has_errors <-? py_in "errors" response_data ;;
    if has_errors then
      errors <-? py_getitem response_data "errors" ;;
      if is_none errors then
        (* Only happens on /graphql call *)
        py_setitem response_data "success" (PyBool true)
      else
        let message := try_or (first_error_field errors "message") (PyStr "") in
        let location :=
          try_or (v <-? first_error_field errors "location" ;; ok (py_str v)) "" in
        let path :=
          try_or (v <-? first_error_field errors "path" ;; py_join ">" v) "" in
        m <-? py_add_str message " - " ;;
        let text := m +:+ location +:+ " - " +:+ path in
        response_data <-?
          py_setitem response_data "errors"
            (PyList [PyDict [("code", PyInt 99999); ("message", PyStr text)]]) ;;
        py_setitem response_data "success" (PyBool false)
    else
      has_result <-? py_in "result" response_data ;;
      if negb has_result then
        (* Only happens on /certificates call: the errors list holds the
           response dictionary itself *)
        response_data <-? py_setitem response_data "errors" (PyList []) ;;
        response_data <-? py_setitem response_data "errors" (PyList [PySelf]) ;;
        py_setitem response_data "success" (PyBool false)
      else
        py_setitem response_data "success" (PyBool true)
  else ok response_data.

(** [for x in l: f(x)] *)
Fixpoint for_each {A} (f : A -> res unit) (l : list A) : res unit :=
  match l with
  | [] => ok tt
  | x :: rest => _ <-? f x ;; for_each f rest
  end.

(** Lines 486-514: [if response_data['success'] is False: raise ...]. *)
Definition raise_if_failed (self : v4base) (response_data : pyobj) : res unit :=
  success <-? py_getitem response_data "success" ;;
  if is_False success then
    has_errors <-? py_in "errors" response_data ;;
    errors <-?
      (if has_errors then
         e <-? py_getitem response_data "errors" ;;
         if negb (is_none e) then
           x <-? py_getitem0 e ;; ok (deref response_data x)
         else ok (PyDict [])
       else ok (PyDict [])) ;;
    has_code <-? py_in "code" errors ;;
    code <-? (if has_code then py_getitem errors "code" else ok (PyInt 99998)) ;;
    has_message <-? py_in "message" errors ;;
    message <-?
      (if has_message then py_getitem errors "message"
       else
         has_error <-? py_in "error" errors ;;
         if has_error then py_getitem errors "error" else ok (PyStr "")) ;;
    has_chain <-? py_in "error_chain" errors ;;
    if has_chain then
      error_chain <-? py_getitem errors "error_chain" ;;
      items <-? py_iter error_chain ;;
      _ <-? for_each
              (fun error =>
                 if logger self then
                   _ <-? py_getitem error "code" ;;
                   _ <-? py_getitem error "message" ;;
                   ok tt
                 else ok tt)
              items ;;
      raise (CloudFlareAPIError code message (Some error_chain))
    else
      raise (CloudFlareAPIError code message None)
  else ok tt.

(** Lines 516-535: the full envelope in raw mode, else the result alone. *)
Definition unwrap (self : v4base) (response_data : pyobj) : res pyobj :=
  if cfg_truthy (raw self) then
    let result :=
      [("result", try_or (py_getitem response_data "result") response_data)] in
    has_info <-? py_in "result_info" response_data ;;
    if has_info then
      info <-? py_getitem response_data "result_info" ;;
      ok (PyDict (dict_set "result_info" info result))
    else ok (PyDict result)
  else
    ok (try_or (py_getitem response_data "result") response_data).

Definition after_raw (self : v4base) (response_data : pyobj) : res pyobj :=
  response_data <-? sanitise response_data ;;
  _ <-? raise_if_failed self response_data ;;
  unwrap self response_data.

Definition _call (self : v4base) (method : string) (headers : headers_t)
  (parts identifiers : list (option string))
  (params : option (list (string * string))) (data : option pydata)
  (files : option (list (string * pyfile))) : M pyobj :=
  response_data <- _raw self method headers parts identifiers params data files ;;
  mlift (after_raw self response_data).

Definition _call_unwrapped (self : v4base) (method : string) (headers : headers_t)
  (parts identifiers : list (option string))
  (params : option (list (string * string))) (data : option pydata)
  (files : option (list (string * pyfile))) : M pyobj :=
  response_data <- _raw self method headers parts identifiers params data files ;;
  mret response_data.

(** ** The four entry points used by the endpoint classes *)

Definition is_script (data : option pydata) : bool :=
  match data with Some (DStr _) => true | _ => false end.

(** Content-Type as [do_auth] and [do_auth_unwrapped] leave it: a script
    body is announced as javascript; with files the header is set to
    multipart/form-data and then deleted again. *)
Definition content_type_for (data : option pydata)
  (files : option (list (string * pyfile))) (headers : headers_t) : headers_t :=
  let headers :=
    if is_script data then
      <["Content-Type" := VStr "application/javascript"]> headers
    else headers in
  if files_truthy files then
    delete "Content-Type" (<["Content-Type" := VStr "multipart/form-data"]> headers)
  else headers.

Definition do_no_auth (self : v4base) (method : string)
  (parts identifiers : list (option string))
  (params : option (list (string * string))) (data : option pydata)
  (files : option (list (string * pyfile))) : M pyobj :=
  let headers := _add_headers self ∅ in
  _call self method headers parts identifiers params data files.

Definition do_auth (self : v4base) (method : string)
  (parts identifiers : list (option string))
  (params : option (list (string * string))) (data : option pydata)
  (files : option (list (string * pyfile))) : M pyobj :=
  let headers := _add_headers self ∅ in
  headers <- mlift (_add_auth_headers self headers method) ;;
  let headers := content_type_for data files headers in
  _call self method headers parts identifiers params data files.

Definition do_auth_unwrapped (self : v4base) (method : string)
  (parts identifiers : list (option string))
  (params : option (list (string * string))) (data : option pydata)
  (files : option (list (string * pyfile))) : M pyobj :=
  let headers := _add_headers self ∅ in
  headers <- mlift (_add_auth_headers self headers method) ;;
  let headers := content_type_for data files headers in
  _call_unwrapped self method headers parts identifiers params data files.

Definition do_certauth (self : v4base) (method : string)
  (parts identifiers : list (option string))
  (params : option (list (string * string))) (data : option pydata)
  (files : option (list (string * pyfile))) : M pyobj :=
  let headers := _add_headers self ∅ in
  headers <- mlift (_add_certtoken_headers self headers method) ;;
  _call self method headers parts identifiers params data files.

End Normaliser.

End V4Base.

(* ===================================================================== *)
(** * The endpoint classes *)
(* ===================================================================== *)

Module Endpoints.
Import PyValues V4Base.
Local Open Scope py_scope.

(** The type tag given to [CloudFlare.add]. *)
Inductive policy :=
| VOID            (* _add_unused *)
| OPEN            (* _add_no_auth *)
| AUTH            (* _add_with_auth *)
| AUTH_UNWRAPPED  (* _add_with_auth_unwrapped *)
| CERT.           (* _add_with_cert_auth *)

Inductive verb := Get | Patch | Post | Put | Delete.

Definition verb_name (v : verb) : string :=
  match v with
  | Get => "get" | Patch => "patch" | Post => "post" | Put => "put"
  | Delete => "delete"
  end.

Definition verb_method (v : verb) : string :=
  match v with
  | Get => "GET" | Patch => "PATCH" | Post => "POST" | Put => "PUT"
  | Delete => "DELETE"
  end.

Record endpoint := {
  ep_policy : policy;
  _base : v4base;
  _parts : list (option string)
}.

(** [filter(None, parts)]: the parts that are neither None nor empty. *)
Fixpoint filter_none (parts : list (option string)) : list string :=
  match parts with
  | [] => []
  | Some (String c r) :: rest => String c r :: filter_none rest
  | _ :: rest => filter_none rest
  end.

(** [__str__] *)
Definition endpoint_str (e : endpoint) : string :=
  "[" +:+ ("/" +:+ join "/:id/" (filter_none (_parts e))) +:+ "]".

(** The path that [api_list] reports for the endpoint, [str(a)[1:-1]]. *)
Definition endpoint_path (e : endpoint) : string :=
  "/" +:+ join "/:id/" (filter_none (_parts e)).

Section Verbs.
Context `{Python}.

(** The arguments of a verb call; only [post] takes [files]. *)
Record call_args := {
  identifier1 : option string;
  identifier2 : option string;
  identifier3 : option string;
  identifier4 : option string;
  params : option (list (string * string));
  data : option pydata;
  files : option (list (string * pyfile))
}.

Definition identifiers_of (a : call_args) : list (option string) :=
  [identifier1 a; identifier2 a; identifier3 a; identifier4 a].

(** [files] reaches the base only through [post]. *)
Definition files_of (v : verb) (a : call_args)
  : option (list (string * pyfile)) :=
  match v with Post => files a | _ => None end.

(** [endpoint.<verb>(identifier1, ..., params, data, files)] *)
Definition invoke (e : endpoint) (v : verb) (a : call_args) : M pyobj :=
  match ep_policy e with
  | VOID => mraise (api_error 0 "not found")
  | OPEN =>
      match v with
      | Get =>
          do_no_auth (_base e) "GET" (_parts e) (identifiers_of a)
            (params a) (data a) None
      | _ =>
          mraise (api_error 0 (verb_name v +:+ "() call not available for this endpoint"))
      end
  | AUTH =>
      do_auth (_base e) (verb_method v) (_parts e) (identifiers_of a)
        (params a) (data a) (files_of v a)
  | AUTH_UNWRAPPED =>
      do_auth_unwrapped (_base e) (verb_method v) (_parts e) (identifiers_of a)
        (params a) (data a) (files_of v a)
  | CERT =>
      do_certauth (_base e) (verb_method v) (_parts e) (identifiers_of a)
        (params a) (data a) (files_of v a)
  end.

(** [__call__]: "This is the same as a get()". *)
Definition call (e : endpoint) (a : call_args) : M pyobj := invoke e Get a.

End Verbs.

End Endpoints.

(* ===================================================================== *)
(** * The client constructor *)
(* ===================================================================== *)

Module Client.
Import PyValues V4Base.
Local Open Scope py_scope.

(** Keyword arguments of [CloudFlare.__init__]; [None] is Python's None. *)
Record init_args := {
  arg_email : option string;
  arg_key : option string;
  arg_token : option string;
  arg_certtoken : option string;
  arg_debug : option bool;
  arg_raw : option bool;
  arg_use_sessions : option bool;
  arg_profile : option string;
  arg_base_url : option string;
  arg_global_request_timeout : option Z;
  arg_max_request_retries : option Z
}.

(** The defaults of the signature. *)
Definition default_args : init_args := {|
  arg_email := None; arg_key := None; arg_token := None; arg_certtoken := None;
  arg_debug := Some false; arg_raw := Some false; arg_use_sessions := Some true;
  arg_profile := None; arg_base_url := None;
  arg_global_request_timeout := Some 5; arg_max_request_retries := Some 5
|}.

(** [if x is not None: config[k] = x] *)
Definition override (k : string) (x : option cfgval) (config : gmap string cfgval)
  : gmap string cfgval :=
  match x with
  | Some v => <[k := v]> config
  | None => config
  end.

(** "class creation values override all configuration values" *)
Definition apply_args (a : init_args) (config : gmap string cfgval)
  : gmap string cfgval :=
  override "max_request_retries" (VInt <$> arg_max_request_retries a)
  (override "global_request_timeout" (VInt <$> arg_global_request_timeout a)
  (override "base_url" (VStr <$> arg_base_url a)
  (override "profile" (VStr <$> arg_profile a)
  (override "use_sessions" (VBool <$> arg_use_sessions a)
  (override "raw" (VBool <$> arg_raw a)
  (override "debug" (VBool <$> arg_debug a)
  (override "certtoken" (VStr <$> arg_certtoken a)
  (override "token" (VStr <$> arg_token a)
  (override "key" (VStr <$> arg_key a)
  (override "email" (VStr <$> arg_email a) config)))))))))).

(** [for x in config: if config[x] == '': config[x] = None] *)
Definition blank_to_none (v : cfgval) : cfgval :=
  match v with
  | VStr EmptyString => VNone
  | _ => v
  end.

Definition sanitise_config (config : gmap string cfgval) : gmap string cfgval :=
  blank_to_none <$> config.

(** [config[k] if k in config else d] *)
Definition get_or (config : gmap string cfgval) (k : string) (d : cfgval) : cfgval :=
  default d (config !! k).

(** [config[k]] *)
Definition get (config : gmap string cfgval) (k : string) : res cfgval :=
  match config !! k with
  | Some v => ok v
  | None => raise (KeyError k)
  end.

(** [_v4base.__init__]; the transport ([CFnetwork]) and the user agent
    string come from modules outside this file. *)
Definition v4base_init (transport : request -> net_outcome) (agent : string)
  (config : gmap string cfgval) : res v4base :=
  raw <-? get config "raw" ;;
  use_sessions <-? get config "use_sessions" ;;
  profile <-? get config "profile" ;;
  ok {| V4Base.config := config;
        api_email := get_or config "email" VNone;
        api_key := get_or config "key" VNone;
        api_token := get_or config "token" VNone;
        api_certtoken := get_or config "certtoken" VNone;
        base_url := get_or config "base_url" (VStr BASE_URL);
        V4Base.raw := raw;
        V4Base.use_sessions := use_sessions;
        global_request_timeout := get_or config "global_request_timeout" VNone;
        max_request_retries := get_or config "max_request_retries" VNone;
        V4Base.profile := profile;
        network := transport;
        user_agent := agent;
        logger := cfg_truthy (get_or config "debug" VNone) |}.

(** [CloudFlare.__init__], up to the creation of [self._base];
    [file_config] is what [read_configs(profile)] returned. *)
Definition CloudFlare_init (transport : request -> net_outcome) (agent : string)
  (file_config : gmap string cfgval) (a : init_args) : res v4base :=
  v4base_init transport agent (sanitise_config (apply_args a file_config)).

End Client.

(* ===================================================================== *)
(** * A reference instance of the Python built-ins *)
(* ===================================================================== *)

(** [json.loads] and [str()] belong to the Python library, not to this
    module; the theorems below hold for any instance of [Python].  This
    one follows the scanner of the [json] package and is used to run the
    model on concrete bodies.  It is exact on bodies without floating
    point numbers.  A number with a fraction or an exponent is kept by its
    literal, and [str] gives that literal back: this is Python's text only
    for a literal already written the way Python prints the float (1.5,
    but not 1e2, which Python prints as 100.0).  No sample run in this
    file parses such a number.  [repr] takes every non-ASCII character as
    printable. *)
Module RefPython.
Import PyValues.

Definition is_json_ws (c : ascii) : bool :=
  let b := byte_val c in (b =? 32)%N || (b =? 9)%N || (b =? 10)%N || (b =? 13)%N.

Fixpoint skip_ws (s : string) : string :=
  match s with
  | String c rest => if is_json_ws c then skip_ws rest else s
  | EmptyString => EmptyString
  end.

Definition is_digit (c : ascii) : bool :=
  let b := byte_val c in (48 <=? b)%N && (b <=? 57)%N.

Definition hex_val (c : ascii) : option N :=
  let b := byte_val c in
  if (48 <=? b)%N && (b <=? 57)%N then Some (b - 48)%N
  else if (97 <=? b)%N && (b <=? 102)%N then Some (b - 87)%N
  else if (65 <=? b)%N && (b <=? 70)%N then Some (b - 55)%N
  else None.

Definition hex4 (a b c d : ascii) : option N :=
  match hex_val a, hex_val b, hex_val c, hex_val d with
  | Some x, Some y, Some z, Some w => Some (((x * 16 + y) * 16 + z) * 16 + w)%N
  | _, _, _, _ => None
  end.

Definition byte_str (n : N) : string := String (ascii_of_N n) "".

(** UTF-8 encoding of a code point (a lone surrogate gets the three-byte
    form). *)
Definition utf8_encode (u : N) : string :=
  (if u <? 128 then byte_str u
   else if u <? 2048 then byte_str (192 + u / 64) +:+ byte_str (128 + u mod 64)
   else if u <? 65536 then
     byte_str (224 + u / 4096) +:+ byte_str (128 + (u / 64) mod 64)
     +:+ byte_str (128 + u mod 64)
   else
     byte_str (240 + u / 262144) +:+ byte_str (128 + (u / 4096) mod 64)
     +:+ byte_str (128 + (u / 64) mod 64) +:+ byte_str (128 + u mod 64))%N.

Definition simple_escape (c : ascii) : option string :=
  let b := byte_val c in
  if (b =? 34)%N || (b =? 92)%N || (b =? 47)%N then Some (String c "")
  else if (b =? 98)%N then Some (byte_str 8)
  else if (b =? 102)%N then Some (byte_str 12)
  else if (b =? 110)%N then Some (byte_str 10)
  else if (b =? 114)%N then Some (byte_str 13)
  else if (b =? 116)%N then Some (byte_str 9)
  else None.

(** The text after an opening quote, up to the closing one (strict mode:
    a raw control character is refused). *)
Fixpoint scan_string (acc : string) (s : string) : option (string * string) :=
  match s with
  | EmptyString => None
  | String c rest =>
      let b := byte_val c in
      if (b =? 34)%N then Some (acc, rest)
      else if (b <? 32)%N then None
      else if (b =? 92)%N then
        match rest with
        | String e rest1 =>
            if (byte_val e =? 117)%N then
              match rest1 with
              | String h1 (String h2 (String h3 (String h4 rest2))) =>
                  match hex4 h1 h2 h3 h4 with
                  | Some u =>
                      let single := scan_string (acc +:+ utf8_encode u) rest2 in
                      if (55296 <=? u)%N && (u <=? 56319)%N then
                        match rest2 with
                        | String b1 (String b2 (String l1 (String l2
                            (String l3 (String l4 rest3))))) =>
                            if (byte_val b1 =? 92)%N && (byte_val b2 =? 117)%N then
                              match hex4 l1 l2 l3 l4 with
                              | Some u2 =>
                                  if (56320 <=? u2)%N && (u2 <=? 57343)%N then
                                    scan_string
                                      (acc +:+ utf8_encode
                                         (65536 + (u - 55296) * 1024 + (u2 - 56320))%N)
                                      rest3
                                  else single
                              | None => None
                              end
                            else single
                        | _ => single
                        end
                      else single
                  | None => None
                  end
              | _ => None
              end
            else
              match simple_escape e with
              | Some t => scan_string (acc +:+ t) rest1
              | None => None
              end
        | EmptyString => None
        end
      else scan_string (acc +:+ String c "") rest
  end.

Fixpoint take_digits (s : string) : string * string :=
  match s with
  | String c rest =>
      if is_digit c then
        let '(d, r) := take_digits rest in (String c d, r)
      else (EmptyString, s)
  | EmptyString => (EmptyString, EmptyString)
  end.

Fixpoint digits_value (acc : Z) (s : string) : Z :=
  match s with
  | String c rest => digits_value (acc * 10 + Z.of_N (byte_val c - 48)) rest
  | EmptyString => acc
  end.

(** The integer part: an optional minus sign, then 0 or a run of digits
    that does not start with 0. *)
Definition scan_int (s : string) : option (bool * string * string) :=
  let '(neg, s1) :=
    match s with
    | String c rest => if (byte_val c =? 45)%N then (true, rest) else (false, s)
    | EmptyString => (false, s)
    end in
  match s1 with
  | String c rest =>
      if (byte_val c =? 48)%N then Some (neg, "0", rest)
      else if is_digit c then
        let '(d, r) := take_digits s1 in Some (neg, d, r)
      else None
  | EmptyString => None
  end.

(** The optional fraction: a dot and at least one digit. *)
Definition scan_frac (s : string) : string * string :=
  match s with
  | String c rest =>
      if (byte_val c =? 46)%N then
        match take_digits rest with
        | (EmptyString, _) => (EmptyString, s)
        | (d, r) => (String c d, r)
        end
      else (EmptyString, s)
  | EmptyString => (EmptyString, s)
  end.

(** The optional exponent: e or E, an optional sign, at least one digit. *)
Definition scan_exp (s : string) : string * string :=
  match s with
  | String c rest =>
      if (byte_val c =? 101)%N || (byte_val c =? 69)%N then
        let '(sign, rest1) :=
          match rest with
          | String g r =>
              if (byte_val g =? 45)%N || (byte_val g =? 43)%N
              then (String g "", r) else (EmptyString, rest)
          | EmptyString => (EmptyString, rest)
          end in
        match take_digits rest1 with
        | (EmptyString, _) => (EmptyString, s)
        | (d, r) => (String c (sign +:+ d), r)
        end
      else (EmptyString, s)
  | EmptyString => (EmptyString, s)
  end.

Definition scan_number (s : string) : option (pyobj * string) :=
  match scan_int s with
  | Some (neg, d, r) =>
      let '(frac, r1) := scan_frac r in
      let '(ex, r2) := scan_exp r1 in
      match frac, ex with
      | EmptyString, EmptyString =>
          Some (PyInt (if neg then - digits_value 0 d else digits_value 0 d), r2)
      | _, _ => Some (PyFloat ((if neg then "-" else "") +:+ d +:+ frac +:+ ex), r2)
      end
  | None => None
  end.

(** [s] starts with [lit]: what follows it. *)
Fixpoint strip_prefix (lit s : string) : option string :=
  match lit, s with
  | EmptyString, _ => Some s
  | String a l, String b r => if bool_decide (a = b) then strip_prefix l r else None
  | String _ _, EmptyString => None
  end.

Definition scan_constant (s : string) : option (pyobj * string) :=
  match strip_prefix "null" s with
  | Some r => Some (PyNone, r)
  | None =>
  match strip_prefix "true" s with
  | Some r => Some (PyBool true, r)
  | None =>
  match strip_prefix "false" s with
  | Some r => Some (PyBool false, r)
  | None =>
  match scan_number s with
  | Some x => Some x
  | None =>
  match strip_prefix "NaN" s with
  | Some r => Some (PyFloat "nan", r)
  | None =>
  match strip_prefix "Infinity" s with
  | Some r => Some (PyFloat "inf", r)
  | None =>
  match strip_prefix "-Infinity" s with
  | Some r => Some (PyFloat "-inf", r)
  | None => None
  end end end end end end end.

(** [scan_once], with the array and object loops; every recursive call
    has consumed at least one character, so the length of the text (plus
    two) is fuel enough. *)
Fixpoint scan_value (fuel : nat) (s : string) : option (pyobj * string) :=
  match fuel with
  | O => None
  | S fuel =>
      match s with
      | EmptyString => None
      | String c rest =>
          let b := byte_val c in
          if (b =? 34)%N then
            match scan_string "" rest with
            | Some (t, r) => Some (PyStr t, r)
            | None => None
            end
          else if (b =? 123)%N then
            match skip_ws rest with
            | String c1 r1 =>
                if (byte_val c1 =? 125)%N then Some (PyDict [], r1)
                else scan_members fuel [] (skip_ws rest)
            | EmptyString => None
            end
          else if (b =? 91)%N then
            match skip_ws rest with
            | String c1 r1 =>
                if (byte_val c1 =? 93)%N then Some (PyList [], r1)
                else scan_elements fuel [] (skip_ws rest)
            | EmptyString => None
            end
          else scan_constant s
      end
  end
with scan_elements (fuel : nat) (acc : list pyobj) (s : string)
  : option (pyobj * string) :=
  match fuel with
  | O => None
  | S fuel =>
      match scan_value fuel s with
      | Some (v, r) =>
          match skip_ws r with
          | String c r1 =>
              if (byte_val c =? 93)%N then Some (PyList (acc ++ [v]), r1)
              else if (byte_val c =? 44)%N then
                scan_elements fuel (acc ++ [v]) (skip_ws r1)
              else None
          | EmptyString => None
          end
      | None => None
      end
  end
with scan_members (fuel : nat) (acc : list (string * pyobj)) (s : string)
  : option (pyobj * string) :=
  match fuel with
  | O => None
  | S fuel =>
      match s with
      | String q rest =>
          if (byte_val q =? 34)%N then
            match scan_string "" rest with
            | Some (k, r) =>
                match skip_ws r with
                | String c r1 =>
                    if (byte_val c =? 58)%N then
                      match scan_value fuel (skip_ws r1) with
                      | Some (v, r2) =>
                          match skip_ws r2 with
                          | String c2 r3 =>
                              if (byte_val c2 =? 125)%N then
                                Some (PyDict (dict_set k v acc), r3)
                              else if (byte_val c2 =? 44)%N then
                                scan_members fuel (dict_set k v acc) (skip_ws r3)
                              else None
                          | EmptyString => None
                          end
                      | None => None
                      end
                    else None
                | EmptyString => None
                end
            | None => None
            end
          else None
      | EmptyString => None
      end
  end.

(** [json.loads(s)]: a leading byte-order mark is refused, and so is
    anything but white space after the value. *)
Definition loads (s : string) : option pyobj :=
  match strip_prefix (byte_str 239 +:+ byte_str 187 +:+ byte_str 191) s with
  | Some _ => None
  | None =>
      match scan_value (2 + String.length s) (skip_ws s) with
      | Some (v, r) =>
          match skip_ws r with
          | EmptyString => Some v
          | String _ _ => None
          end
      | None => None
      end
  end.

(** [repr(s)] for a str. *)
Definition repr_char (quote c : ascii) : string :=
  let b := byte_val c in
  if (128 <=? b)%N then String c "" else repr_byte quote c.

Fixpoint repr_str_body (quote : ascii) (s : string) : string :=
  match s with
  | EmptyString => ""
  | String c rest => repr_char quote c +:+ repr_str_body quote rest
  end.

Definition str_repr (s : string) : string :=
  let quote :=
    if has_char squote s && negb (has_char dquote s) then dquote else squote in
  String quote (repr_str_body quote s +:+ String quote "").

Fixpoint repr (o : pyobj) : string :=
  match o with
  | PyNone => "None"
  | PyBool true => "True"
  | PyBool false => "False"
  | PyInt z => pretty z
  | PyFloat literal => literal
  | PyStr s => str_repr s
  | PyList l => "[" +:+ join ", " (map repr l) +:+ "]"
  | PyDict d =>
      "{" +:+ join ", "
                (map (fun kv => match kv with
                                | (k, v) => str_repr k +:+ ": " +:+ repr v
                                end) d)
          +:+ "}"
  | PySelf => "{...}"
  end.

Definition str (o : pyobj) : string :=
  match o with
  | PyStr s => s
  | _ => repr o
  end.

#[global] Instance ref_python : Python := {|
  json_loads := loads;
  py_str := str
|}.

End RefPython.

(* ===================================================================== *)
(** * Sample clients and responses *)
(* ===================================================================== *)

Module Demo.
Import PyValues V4Base Endpoints Client.

Definition agent : string := "python-cloudflare/test".

(** The double quote and the line feed, to write bodies with. *)
Definition q : string := String dquote "".
Definition lf : string := String (ascii_of_N 10) "".

(** A client over [config] whose transport answers every request with
    [reply]. *)
Definition client (config : gmap string cfgval) (reply : net_outcome) : v4base := {|
  V4Base.config := config;
  api_email := get_or config "email" VNone;
  api_key := get_or config "key" VNone;
  api_token := get_or config "token" VNone;
  api_certtoken := get_or config "certtoken" VNone;
  base_url := VStr BASE_URL;
  V4Base.raw := VBool false;
  V4Base.use_sessions := VBool true;
  global_request_timeout := VInt 5;
  max_request_retries := VInt 5;
  V4Base.profile := VStr "Cloudflare";
  network := fun _ => reply;
  user_agent := agent;
  logger := false
|}.

Definition json_reply (status : Z) (body : string) : net_outcome :=
  Responded {| content_type_header := Some "application/json; charset=UTF-8";
               status_code := status;
               resp_content := CBytes body |}.

Definition typed_reply (ctype : string) (status : Z) (body : string) : net_outcome :=
  Responded {| content_type_header := Some ctype;
               status_code := status;
               resp_content := CBytes body |}.

Definition token_config : gmap string cfgval := {[ "token" := VStr "t0k3n" ]}.

(** [{"errors": null}] *)
Definition errors_null_body : string :=
  "{" +:+ q +:+ "errors" +:+ q +:+ ": null}".

(** [{"a":1}] and [{"a":2}] *)
Definition a1 : string := "{" +:+ q +:+ "a" +:+ q +:+ ":1}".
Definition a2 : string := "{" +:+ q +:+ "a" +:+ q +:+ ":2}".

Definition zones : list (option string) := [Some "zones"; None; None; None; None].

Definition no_ids : list (option string) := [None; None; None; None].

Definition no_args : call_args := {|
  identifier1 := None; identifier2 := None; identifier3 := None;
  identifier4 := None; params := None; data := None; files := None
|}.

End Demo.

(* ===================================================================== *)
(** * Notions used to state the properties *)
(* ===================================================================== *)

Module Spec.
Import PyValues V4Base Endpoints.


(** A segment or identifier that, when given, is not the empty string. *)
Definition nonblank (o : option string) : Prop := o <> Some "".


(** The request that [_call_network] hands to the transport. *)
Definition request_of (method : string) (headers : headers_t)
  (params : option (list (string * string))) (url : string)
  (fd : option files_arg * option pydata) : request :=
  {| req_method := method; req_url := url; req_headers := headers;
     req_params := params; req_data := snd fd; req_files := fst fd |}.

(** A verb is permitted on an endpoint when its class forwards the call
    to the base object instead of raising straight away. *)
Definition permits (p : policy) (v : verb) : bool :=
  match p, v with
  | VOID, _ => false
  | OPEN, Get => true
  | OPEN, _ => false
  | _, _ => true
  end.

(** The Content-Type header of a request, if any. *)
Definition content_type (r : request) : option cfgval :=
  req_headers r !! "Content-Type".

End Spec.

(* ===================================================================== *)
(** * More sample clients, endpoints and bodies *)
(* ===================================================================== *)

Module Samples.
Import PyValues V4Base Endpoints Client Spec Demo.

(** A configuration with a generic token and a token for PATCH calls. *)
Definition patch_config : gmap string cfgval :=
  {[ "token" := VStr "t0k3n"; "token.patch" := VStr "p4tch" ]}.




Definition dns_client : v4base := client token_config (json_reply 200 "{}").

Definition zones_url : string := "https://api.cloudflare.com/client/v4/zones".

Definition reply_503 : response :=
  {| content_type_header := Some "application/json; charset=UTF-8";
     status_code := 503;
     resp_content := CBytes errors_null_body |}.

Definition down_client : v4base := client token_config (Responded reply_503).

(** [{"errors":[{"message":"boom"}]}] *)
Definition boom_body : string :=
  "{" +:+ q +:+ "errors" +:+ q +:+ ":[{" +:+ q +:+ "message" +:+ q +:+ ":"
  +:+ q +:+ "boom" +:+ q +:+ "}]}".

Definition boom_sanitised : pyobj :=
  PyDict [("errors", PyList [PyDict [("code", PyInt 99999);
                                     ("message", PyStr "boom -  - ")]]);
          ("success", PyBool false)].

Definition ndjson_client : v4base :=
  client token_config (json_reply 200 (a1 +:+ lf +:+ a2)).

Definition empty_404_client : v4base := client token_config (json_reply 404 "").

Definition graphql_client : v4base :=
  client token_config (json_reply 400 errors_null_body).

Definition upload : option (list (string * pyfile)) :=
  Some [("file", {| file_name := "worker.wasm"; file_bytes := "abc" |})].

Definition script : option pydata :=
  Some (DStr "addEventListener('fetch', event => {})").

Definition workers : list (option string) :=
  [Some "accounts"; Some "workers/scripts"; None; None; None].

Definition worker_ids : list (option string) :=
  [Some "9a7806061c88ada1"; Some "hello"; None; None].

Definition worker_client : v4base := client token_config (json_reply 200 "{}").

(** The request sent when a script is uploaded. *)
Definition script_request : request :=
  match snd (do_auth worker_client "PUT" workers worker_ids None script None []) with
  | [r] => r
  | _ => request_of "" ∅ None "" (None, None)
  end.

Definition ips : endpoint := {|
  ep_policy := OPEN;
  _base := client ∅ (json_reply 200 "{}");
  _parts := [Some "ips"; None; None; None; None]
|}.

Definition unused : endpoint := {|
  ep_policy := VOID;
  _base := client ∅ (json_reply 200 "{}");
  _parts := [Some "zones"; Some "settings/sanitize"; None; None; None]
|}.



(** A client with an Origin CA key, for the endpoints of [do_certauth]. *)
Definition origin_ca_config : gmap string cfgval :=
  {[ "certtoken" := VStr "v1.0-e24fd090" ]}.

Definition origin_ca_client : v4base := client origin_ca_config (json_reply 200 "{}").

(** The request sent when a file goes through [do_certauth]. *)
Definition origin_ca_request : request :=
  match snd (do_certauth origin_ca_client "POST" workers worker_ids None None
               upload []) with
  | [r] => r
  | _ => request_of "" ∅ None "" (None, None)
  end.


End Samples.

(* ===================================================================== *)
(** * The endpoint tree: [CloudFlare.add] and [CloudFlare.api_list] *)
(* ===================================================================== *)

(** The client object and every endpoint object carry their children as
    attributes; [add] walks the tree with [getattr] and hangs a new endpoint
    object with [setattr].  A tree object is modelled by what it is and by
    the attributes that [setattr] gave it, in the order they were set.

    Attribute lookup is modelled for names that do not start with an
    underscore: on those, the only attributes an object has besides its
    children are the methods written in this file (the five verbs on an
    endpoint object; [add], [api_list], [api_from_web], [api_from_openapi]
    on the client).  A walk that has to look up a name starting with an
    underscore is reported as [Unmodelled]: its outcome depends on the
    attributes every Python object inherits. *)
Module Tree.
Import PyValues V4Base Endpoints.

(** [keyword.iskeyword], from Python's library. *)
Class Keywords := { iskeyword : string -> bool }.

(** What a tree object is: the client itself, or an endpoint object built
    by one of the five classes from the list of parts. *)
Inductive kind :=
| ClientObject
| EndpointObject (p : policy) (parts : list (option string)).

Inductive node :=
| Node (k : kind) (attrs : list (string * node)).

Definition node_kind (n : node) : kind := match n with Node k _ => k end.
Definition node_attrs (n : node) : list (string * node) :=
  match n with Node _ attrs => attrs end.

(** The client before any endpoint is added. *)
Definition empty_client : node := Node ClientObject [].

(** How a call to [add] ends when it does not return. *)
Inductive load_error :=
| Raised (e : exn)
| AttributeRaised
| Unmodelled.

Definition loaded (A : Type) : Type := load_error + A.

(** ** Strings *)

(** [s.split('/')] *)
Fixpoint split_go (cur : string) (s : string) : list string :=
  match s with
  | EmptyString => [cur]
  | String c rest =>
      if bool_decide (c = "/"%char) then cur :: split_go "" rest
      else split_go (cur +:+ String c "") rest
  end.

Definition split_slash (s : string) : list string := split_go "" s.

(** [s.replace('-', '_')] *)
Fixpoint dashes (s : string) : string :=
  match s with
  | EmptyString => EmptyString
  | String c rest =>
      String (if bool_decide (c = "-"%char) then "_"%char else c) (dashes rest)
  end.

Definition underscored (x : string) : bool :=
  match x with
  | String c _ => bool_decide (c = "_"%char)
  | EmptyString => false
  end.

(** ** Attributes *)

Definition verbs : list string := ["delete"; "get"; "patch"; "post"; "put"].

Definition client_methods : list string :=
  ["add"; "api_list"; "api_from_web"; "api_from_openapi"].

Definition mem (x : string) (l : list string) : bool := existsb (str_eqb x) l.

(** The methods of the object's class whose name has no leading
    underscore. *)
Definition methods (k : kind) : list string :=
  match k with
  | ClientObject => client_methods
  | EndpointObject _ _ => verbs
  end.

Fixpoint assoc (x : string) (attrs : list (string * node)) : option node :=
  match attrs with
  | [] => None
  | (y, n) :: rest => if str_eqb x y then Some n else assoc x rest
  end.

(** [setattr(obj, x, n)] on the attributes of [obj]. *)
Fixpoint set_attr (x : string) (n : node) (attrs : list (string * node))
  : list (string * node) :=
  match attrs with
  | [] => [(x, n)]
  | (y, m) :: rest =>
      if str_eqb x y then (y, n) :: rest else (y, m) :: set_attr x n rest
  end.

(** [getattr(obj, x)] for a name without leading underscore: a child, a
    bound method, or AttributeError. *)
Inductive attribute :=
| Child (n : node)
| Method
| Missing.

Definition getattr (obj : node) (x : string) : attribute :=
  match assoc x (node_attrs obj) with
  | Some n => Child n
  | None => if mem x (methods (node_kind obj)) then Method else Missing
  end.

(** ** [add] *)

(** [if p: a += p.split('/')] *)
Definition split_part (p : option string) : list string :=
  match p with
  | Some (String c r) => split_slash (String c r)
  | _ => []
  end.

Definition elements (parts : list (option string)) : list string :=
  concat (map split_part parts).

Definition missing_error (element : string) (a : list string) : load_error :=
  Raised (api_error 0 ("api load: element **" +:+ element
                       +:+ "** missing when adding path /" +:+ join "/" a)).

Definition duplicate_error (a : list string) (name : string) : load_error :=
  Raised (api_error 0 ("api load: duplicate name found: "
                       +:+ join "/" (removelast a) +:+ "/**" +:+ name +:+ "**")).

(** The class chosen by the type tag [t]. *)
Definition policy_of_tag (t : string) : option policy :=
  if str_eqb t "VOID" then Some VOID
  else if str_eqb t "OPEN" then Some OPEN
  else if str_eqb t "AUTH" then Some AUTH
  else if str_eqb t "AUTH_UNWRAPPED" then Some AUTH_UNWRAPPED
  else if str_eqb t "CERT" then Some CERT
  else None.

Section Add.
Context `{Keywords}.

(** The attribute name an endpoint called [name] is stored under. *)
Definition attr_name (name : string) : string :=
  if iskeyword name then name +:+ "_" else dashes name.

(** The walk has reached a bound method: every further name without
    leading underscore is missing on it, and nothing can be hung on it. *)
Definition on_method (a : list string) (rest : list string) (name : string)
  (t : string) : load_error :=
  match rest with
  | element :: rest' =>
      if underscored (dashes element) then Unmodelled
      else missing_error element a
  | [] =>
      if underscored (attr_name name) then Unmodelled
      else match policy_of_tag t with
           | Some _ => AttributeRaised
           | None => Raised (api_error 0 "api load type mismatch")
           end
  end.

(** The end of the walk, on the object [branch]: the name must be new,
    the tag must be known, and the new endpoint object is hung on. *)
Definition attach (a : list string) (name : string) (t : string)
  (parts : list (option string)) (branch : node) : loaded node :=
  let x := attr_name name in
  if underscored x then inl Unmodelled
  else
    match getattr branch x with
    | Child _ | Method => inl (duplicate_error a name)
    | Missing =>
        match policy_of_tag t with
        | Some p =>
            inr (Node (node_kind branch)
                   (set_attr x (Node (EndpointObject p parts) []) (node_attrs branch)))
        | None => inl (Raised (api_error 0 "api load type mismatch"))
        end
    end.

(** The loop over [a[0:-1]] followed by the rest of [add], returning the
    object [branch] started from with the new endpoint in place. *)
Fixpoint walk (a : list string) (rest : list string) (name : string) (t : string)
  (parts : list (option string)) (branch : node) : loaded node :=
  match rest with
  | [] => attach a name t parts branch
  | element :: rest' =>
      let x := dashes element in
      if underscored x then inl Unmodelled
      else
        match getattr branch x with
        | Child c =>
            match walk a rest' name t parts c with
            | inr c' =>
                inr (Node (node_kind branch) (set_attr x c' (node_attrs branch)))
            | inl e => inl e
            end
        | Method => inl (on_method a rest' name t)
        | Missing => inl (missing_error element a)
        end
  end.

(** [self.add(t, p1, p2, p3, p4, p5)] *)
Definition add (t : string) (p1 p2 p3 p4 p5 : option string) (self : node)
  : loaded node :=
  let parts := [p1; p2; p3; p4; p5] in
  let a := elements parts in
  match a with
  | [] => inl (Raised IndexError)
  | _ => walk a (removelast a) (List.last a "") t parts self
  end.

(** The attribute names [add] walks through and stores under, for the
    path elements [a]. *)
Definition attr_path (a : list string) : list string :=
  map dashes (removelast a) ++ [attr_name (List.last a "")].

End Add.

(** Following attribute names down the tree, as [cf.zones.dns_records]
    does. *)
Fixpoint descend (n : node) (names : list string) : option node :=
  match names with
  | [] => Some n
  | x :: rest =>
      match assoc x (node_attrs n) with
      | Some c => descend c rest
      | None => None
      end
  end.

(** ** [api_list] *)

(** [a <= b] in the order of [sorted]: code point by code point, which on
    UTF-8 text is byte by byte. *)
Fixpoint str_leb (a b : string) : bool :=
  match a, b with
  | EmptyString, _ => true
  | String _ _, EmptyString => false
  | String x a', String y b' =>
      if (byte_val x <? byte_val y)%N then true
      else if (byte_val y <? byte_val x)%N then false
      else str_leb a' b'
  end.

Fixpoint insert_sorted {A} (e : string * A) (l : list (string * A))
  : list (string * A) :=
  match l with
  | [] => [e]
  | e' :: rest =>
      if str_leb (fst e) (fst e') then e :: l else e' :: insert_sorted e rest
  end.

Fixpoint sort_by_name {A} (l : list (string * A)) : list (string * A) :=
  match l with
  | [] => []
  | e :: rest => insert_sorted e (sort_by_name rest)
  end.

(** [str(a)[1:-1]] for an endpoint object with the given parts. *)
Definition path_of (parts : list (option string)) : string :=
  "/" +:+ join "/:id/" (filter_none parts).

(** What the loop body appends for the attribute [a]: its own path when it
    is an endpoint object with [_parts] (an unused endpoint has
    [_parts_unused] instead and shows nothing). *)
Definition own_entry (k : kind) : list string :=
  match k with
  | EndpointObject VOID _ => []
  | EndpointObject _ parts => [path_of parts]
  | ClientObject => []
  end.

(** The loop of [_api_list] over the sorted names, given for each
    attribute what the recursive call on it returns.  The methods of the
    object are in [dir(m)] too, and are passed over: a bound method has no
    [_base]. *)
Fixpoint list_loop (entries : list (string * (kind * res (list string))))
  : res (list string) :=
  match entries with
  | [] => ok []
  | (n, (k, below)) :: rest =>
      match n with
      | EmptyString => raise IndexError
      | String _ _ =>
          if underscored n then list_loop rest
          else if mem n verbs then list_loop rest
          else
            match below with
            | inl e => inl e
            | inr sub =>
                match list_loop rest with
                | inl e => inl e
                | inr w => ok (own_entry k ++ sub ++ w)
                end
            end
      end
  end.

(** [self._api_list(m)] *)
Fixpoint _api_list (m : node) : res (list string) :=
  match m with
  | Node _ attrs =>
      list_loop
        (sort_by_name
           ((fix each (l : list (string * node)) :=
               match l with
               | [] => []
               | (n, a) :: rest => (n, (node_kind a, _api_list a)) :: each rest
               end) attrs))
  end.

Definition api_list (self : node) : res (list string) := _api_list self.

(** ** Notions the properties of the tree are stated with *)

(** A path element whose attribute name does not start with an underscore. *)
Definition plain (element : string) : Prop := underscored (dashes element) = false.

(** What the loop of [_api_list] sees of one attribute: its name, the
    object's kind and the listing of the object. *)
Definition entry (na : string * node) : string * (kind * res (list string)) :=
  (fst na, (node_kind (snd na), _api_list (snd na))).

(** An attribute name the loop does not pass over. *)
Definition shown (n : string) : bool := negb (underscored n) && negb (mem n verbs).

Definition good (e : string * (kind * res (list string))) : Prop :=
  fst e <> "" /\ (shown (fst e) = true -> exists sub, snd (snd e) = ok sub).

Definition lines (e : string * (kind * res (list string))) : list string :=
  if shown (fst e) then
    own_entry (fst (snd e)) ++ match snd (snd e) with inr sub => sub | inl _ => [] end
  else [].

Definition flat (entries : list (string * (kind * res (list string)))) : list string :=
  concat (map lines entries).

(** ** Keywords *)

(** Python's keywords, [keyword.kwlist]. *)
Definition kwlist : list string :=
  ["False"; "None"; "True"; "and"; "as"; "assert"; "async"; "await"; "break";
   "class"; "continue"; "def"; "del"; "elif"; "else"; "except"; "finally";
   "for"; "from"; "global"; "if"; "import"; "in"; "is"; "lambda"; "nonlocal";
   "not"; "or"; "pass"; "raise"; "return"; "try"; "while"; "with"; "yield"].

#[global] Instance python_keywords : Keywords := {|
  iskeyword := fun s => mem s kwlist
|}.

End Tree.

(* ===================================================================== *)
(** * Further notions and samples *)
(* ===================================================================== *)

Module More.
Import PyValues V4Base Endpoints Client Spec Demo Samples Tree.

(** A response with a Content-Type header. *)
Definition reply (header : string) (status : Z) (body : content) : response :=
  {| content_type_header := Some header; status_code := status;
     resp_content := body |}.

(** A content type the normaliser neither parses nor decodes. *)
Definition opaque (rtype : string) : Prop :=
  rtype <> "application/json" /\ rtype <> "text/plain"
  /\ rtype <> "application/octet-stream".

(** A content type whose body is decoded as UTF-8 and tried as JSON. *)
Definition parsed (rtype : string) : Prop :=
  rtype = "application/json" \/ rtype = "text/plain"
  \/ rtype = "application/octet-stream".

(** What [_call] returns for a response whose result is [r] and whose
    result_info, if any, is [info]. *)
Definition returned (self : v4base) (r : pyobj) (info : option pyobj) : pyobj :=
  if cfg_truthy (raw self) then
    PyDict (("result", r) ::
            match info with Some i => [("result_info", i)] | None => [] end)
  else r.

(** The error [_call] raises from the first entry [e] of an errors
    list. *)
Definition error_of (e : list (string * pyobj)) (chain : option pyobj) : exn :=
  CloudFlareAPIError
    (default (PyInt 99998) (dict_get "code" e))
    (match dict_get "message" e with
     | Some m => m
     | None => default (PyStr "") (dict_get "error" e)
     end)
    chain.

(** Identifiers written as the placeholder ':id' wherever the next
    segment of the path is present. *)
Definition placeholder (next : option string) : option string :=
  match next with
  | Some _ => Some ":id"
  | None => None
  end.

Definition placeholders (p1 p2 p3 p4 : option string) : list (option string) :=
  [placeholder p1; placeholder p2; placeholder p3; placeholder p4].

(** What the client holds for a field: the argument when one is given,
    else the value of the configuration file, a blank counting as None. *)
Definition held (arg : option string) (from_file : option cfgval) (d : cfgval)
  : cfgval :=
  match arg with
  | Some s => blank_to_none (VStr s)
  | None => default d (blank_to_none <$> from_file)
  end.

(** ** Samples *)

Definition one_request (sent : list request) : request :=
  match sent with
  | [r] => r
  | _ => request_of "" ∅ None "" (None, None)
  end.

Definition cert_config : gmap string cfgval :=
  {[ "certtoken" := VStr "v1.0-e24fd090"; "email" := VStr "user@example.com";
     "key" := VStr "c2547eb745079dac" ]}.

Definition cert_client : v4base := client cert_config (json_reply 200 "{}").

Definition certificates : list (option string) :=
  [Some "certificates"; None; None; None; None].

Definition cert_request : request :=
  one_request (snd (do_certauth cert_client "GET" certificates no_ids None None None [])).

Definition ips_request : request := one_request (snd (invoke ips Get no_args [])).

Definition offline_client : v4base :=
  client token_config (RequestException "Max retries exceeded").

Definition form : option pydata :=
  Some (DDict [("metadata", PyStr "{}")]).

Definition form_request : request :=
  one_request (snd (_call_network worker_client "POST" ∅ workers worker_ids None
                      form upload [])).

Definition html_404_client : v4base :=
  client token_config (typed_reply "text/html" 404 "<h1>Not found</h1>").

Definition pong_client : v4base :=
  client token_config (typed_reply "text/plain" 200 "pong").

Definition array_404_client : v4base := client token_config (json_reply 404 "[1,2]").

Definition bad_bytes : string := String (ascii_of_N 255) "".

Definition bad_bytes_client : v4base := client token_config (json_reply 200 bad_bytes).

(** [{"success":false,"errors":[{"code":10000,"message":"Authentication error"}]}] *)
Definition denied_body : string :=
  "{" +:+ q +:+ "success" +:+ q +:+ ":false," +:+ q +:+ "errors" +:+ q +:+ ":[{"
  +:+ q +:+ "code" +:+ q +:+ ":10000," +:+ q +:+ "message" +:+ q +:+ ":"
  +:+ q +:+ "Authentication error" +:+ q +:+ "}]}".

Definition denied_error : list (string * pyobj) :=
  [("code", PyInt 10000); ("message", PyStr "Authentication error")].

Definition denied : list (string * pyobj) :=
  [("success", PyBool false); ("errors", PyList [PyDict denied_error])].

Definition denied_client : v4base := client token_config (json_reply 403 denied_body).

Definition page : list (string * pyobj) :=
  [("success", PyBool true); ("errors", PyList []);
   ("result", PyList [PyDict [("id", PyStr "023e105f")]]);
   ("result_info", PyDict [("page", PyInt 1); ("count", PyInt 1)])].

Definition graphql_failure : list (string * pyobj) :=
  [("data", PyNone);
   ("errors", PyList [PyDict [("message", PyStr "unknown field");
                              ("path", PyList [PyStr "viewer"; PyStr "zones"]);
                              ("extensions", PyDict [("code", PyStr "bad")])]])].

Definition certificate_failure : list (string * pyobj) :=
  [("code", PyInt 1006); ("error", PyStr "certificate not found")].

(** The same failure with the causes in an error chain. *)
Definition chained_failure : list (string * pyobj) :=
  [("code", PyInt 1006); ("error", PyStr "certificate not found");
   ("error_chain", PyList [PyDict [("code", PyInt 1007);
                                   ("message", PyStr "no such zone")]])].

Definition file_with_email : gmap string cfgval :=
  {[ "email" := VStr "file@example.com"; "token" := VStr "from-file";
     "profile" := VStr "Cloudflare" ]}.

Definition override_args : init_args := {|
  arg_email := Some "arg@example.com"; arg_key := None; arg_token := None;
  arg_certtoken := None;
  arg_debug := Some false; arg_raw := Some false; arg_use_sessions := Some true;
  arg_profile := None; arg_base_url := None;
  arg_global_request_timeout := Some 5; arg_max_request_retries := Some 5
|}.

Definition blank_url_args : init_args := {|
  arg_email := None; arg_key := None; arg_token := None; arg_certtoken := None;
  arg_debug := Some false; arg_raw := Some false; arg_use_sessions := Some true;
  arg_profile := None; arg_base_url := Some "";
  arg_global_request_timeout := Some 5; arg_max_request_retries := Some 5
|}.

Definition or_client (r : res v4base) : v4base :=
  match r with
  | inr self => self
  | inl _ => client ∅ (json_reply 200 "{}")
  end.

Definition override_client : v4base :=
  or_client (CloudFlare_init (fun _ => json_reply 200 "{}") agent file_with_email
               override_args).

Definition blank_url_client : v4base :=
  or_client (CloudFlare_init (fun _ => json_reply 200 "{}") agent file_with_email
               blank_url_args).

(** Trees *)

Definition or_empty (r : loaded node) : node :=
  match r with
  | inr n => n
  | inl _ => empty_client
  end.

Definition with_zones : node :=
  or_empty (add "AUTH" (Some "zones") None None None None empty_client).

Definition with_dns : node :=
  or_empty (add "AUTH" (Some "zones") (Some "dns_records") None None None with_zones).

Definition with_import : node :=
  or_empty (add "AUTH" (Some "zones") (Some "dns_records/import") None None None
              with_dns).

End More.
(* ===================================================================== *)
(** * Basic facts: strings, dictionaries, configuration values *)
(* ===================================================================== *)

Module Basics.
Import PyValues V4Base Spec.

Lemma app_cons c (a b : string) : String c a +:+ b = String c (a +:+ b).
Proof. reflexivity. Qed.

Lemma app_empty_l (a : string) : "" +:+ a = a.
Proof. reflexivity. Qed.

Lemma app_assoc (a b c : string) : (a +:+ b) +:+ c = a +:+ (b +:+ c).
Proof.
  induction a as [|x a IH]; [done|]. rewrite !app_cons. by rewrite IH.
Qed.

Lemma app_empty_r (a : string) : a +:+ "" = a.
Proof. induction a as [|x a IH]; [done|]. rewrite app_cons. by rewrite IH. Qed.


Lemma str_eqb_refl k : str_eqb k k = true.
Proof. unfold str_eqb. by apply bool_decide_eq_true_2. Qed.

Lemma str_eqb_ne k k' : k <> k' -> str_eqb k k' = false.
Proof. unfold str_eqb. by apply bool_decide_eq_false_2. Qed.

Lemma str_eqb_eq k k' : str_eqb k k' = true -> k = k'.
Proof. unfold str_eqb. by intros ?%bool_decide_eq_true_1. Qed.

Lemma dict_get_set_eq k v d : dict_get k (dict_set k v d) = Some v.
Proof.
  induction d as [|[k' v'] d IH]; simpl.
  - by rewrite str_eqb_refl.
  - destruct (str_eqb k k') eqn:E; simpl; rewrite E; [done|exact IH].
Qed.

Lemma dict_get_set_ne k k' v d :
  k <> k' -> dict_get k (dict_set k' v d) = dict_get k d.
Proof.
  intros Hne. induction d as [|[k0 v0] d IH]; simpl.
  - by rewrite str_eqb_ne.
  - destruct (str_eqb k' k0) eqn:E; simpl.
    + apply str_eqb_eq in E as <-. by rewrite str_eqb_ne.
    + by rewrite IH.
Qed.

Lemma is_None_true v : is_None v = true <-> v = VNone.
Proof. destruct v; simpl; split; congruence. Qed.

Lemma is_None_false v : is_None v = false <-> v <> VNone.
Proof. destruct v; simpl; split; congruence. Qed.

Lemma truthy_nonblank o : nonblank o -> truthy o = is_some o.
Proof. destruct o as [[|]|]; simpl; unfold nonblank; congruence. Qed.

Lemma decoded_empty body : decoded body = ok "" -> body = CBytes "" \/ body = CStr "".
Proof.
  destruct body as [b|s]; simpl.
  - unfold decode_utf8. destruct (utf8_valid b); [|discriminate].
    intros [= ->]. by left.
  - intros [= ->]. by right.
Qed.

End Basics.

(* ===================================================================== *)
(** * Authentication headers *)
(* ===================================================================== *)

Module AuthTheory.
Import PyValues V4Base Spec Basics Demo Samples.
Local Open Scope py_scope.

Lemma credential_override self field method generic v :
  config self !! (field +:+ "." +:+ lower method) = Some v ->
  credential self field method generic = v.
Proof. unfold credential. by intros ->. Qed.

Lemma credential_generic self field method generic :
  config self !! (field +:+ "." +:+ lower method) = None ->
  credential self field method generic = generic.
Proof. unfold credential. by intros ->. Qed.

(** The authentication headers leave User-Agent and Content-Type alone. *)
Lemma auth_headers_keep self headers method headers' k :
  _add_auth_headers self headers method = ok headers' ->
  k <> "Authorization" -> k <> "X-Auth-Email" -> k <> "X-Auth-Key" ->
  headers' !! k = headers !! k.
Proof.
  unfold _add_auth_headers. intros Hr H1 H2 H3.
  repeat match type of Hr with
         | (if ?b then _ else _) = _ => destruct b
         end; try discriminate; injection Hr as <-;
    rewrite !lookup_insert_ne by congruence; reflexivity.
Qed.

Lemma certtoken_headers_keep self headers method headers' k :
  _add_certtoken_headers self headers method = ok headers' ->
  k <> "X-Auth-User-Service-Key" ->
  headers' !! k = headers !! k.
Proof.
  unfold _add_certtoken_headers. intros Hr H1.
  destruct (is_None _); [discriminate|]. injection Hr as <-.
  rewrite lookup_insert_ne by congruence. reflexivity.
Qed.

Section WithPython.
Context `{Python}.

Lemma do_auth_stops self method parts ids params data files tr e :
  _add_auth_headers self (_add_headers self ∅) method = raise e ->
  do_auth self method parts ids params data files tr = (raise e, tr).
Proof. intros Hr. unfold do_auth, mbind, mlift. by rewrite Hr. Qed.

Lemma do_auth_unwrapped_stops self method parts ids params data files tr e :
  _add_auth_headers self (_add_headers self ∅) method = raise e ->
  do_auth_unwrapped self method parts ids params data files tr = (raise e, tr).
Proof. intros Hr. unfold do_auth_unwrapped, mbind, mlift. by rewrite Hr. Qed.

Ltac none_cases :=
  repeat match goal with
  | H : ?v = VNone |- _ => rewrite H in *; clear H
  | H : ?v <> VNone |- _ => apply is_None_false in H; rewrite ?H
  end; simpl.

(** C3. Authentication resolution.  With [e], [k], [t] the email, key and
    token that resolve for the method (the value under ['<field>.<method>']
    when the configuration has that key, the generic value otherwise):
    nothing resolved fails with 'neither email/key or token defined'; a key
    together with a token fails with 'confused info'; an email alone fails
    with 'email defined however neither key or token defined'; a token alone
    gives [Authorization: Bearer <token>], a key alone
    [Authorization: Bearer <key>], an email with a key or with a token the
    X-Auth-Email / X-Auth-Key pair (the token standing for the key in the
    latter case).  When resolution fails, [do_auth] and [do_auth_unwrapped]
    raise the same error and the list of requests sent is unchanged. *)
Theorem auth_resolution_order (self : v4base) (method : string) (headers : headers_t) :
  let e := credential self "email" method (api_email self) in
  let k := credential self "key" method (api_key self) in
  let t := credential self "token" method (api_token self) in
  let resolve := _add_auth_headers self headers method in
  (forall field generic v,
      config self !! (field +:+ "." +:+ lower method) = Some v ->
      credential self field method generic = v)
  /\ (forall field generic,
      config self !! (field +:+ "." +:+ lower method) = None ->
      credential self field method generic = generic)
  /\ (e = VNone -> k = VNone -> t = VNone ->
      resolve = raise (api_error 0 "neither email/key or token defined"))
  /\ (k <> VNone -> t <> VNone ->
      resolve = raise (api_error 0 "confused info - both key and token defined"))
  /\ (e <> VNone -> k = VNone -> t = VNone ->
      resolve = raise (api_error 0 "email defined however neither key or token defined"))
  /\ (e = VNone -> k = VNone -> t <> VNone ->
      resolve = ok (<["Authorization" := VStr ("Bearer " +:+ percent_s t)]> headers))
  /\ (e = VNone -> k <> VNone -> t = VNone ->
      resolve = ok (<["Authorization" := VStr ("Bearer " +:+ percent_s k)]> headers))
  /\ (e <> VNone -> k <> VNone -> t = VNone ->
      resolve = ok (<["X-Auth-Key" := k]> (<["X-Auth-Email" := e]> headers)))
  /\ (e <> VNone -> k = VNone -> t <> VNone ->
      resolve = ok (<["X-Auth-Key" := t]> (<["X-Auth-Email" := e]> headers)))
  /\ (forall err parts ids params data files tr,
      _add_auth_headers self (_add_headers self ∅) method = raise err ->
      do_auth self method parts ids params data files tr = (raise err, tr)
      /\ do_auth_unwrapped self method parts ids params data files tr = (raise err, tr)).
Proof.
  intros e k t resolve. subst resolve. unfold _add_auth_headers.
  fold e k t.
  split; [intros; by apply credential_override|].
  split; [intros; by apply credential_generic|].
  repeat split; intros; none_cases; try reflexivity.
  - destruct (is_None e); reflexivity.
  - by apply do_auth_stops.
  - by apply do_auth_unwrapped_stops.
Qed.

End WithPython.

(** The PATCH token wins over the generic one, and no credential at all
    stops the call before the transport is reached. *)
Lemma auth_resolution_order_witness :
  _add_auth_headers (client patch_config (json_reply 200 "{}")) ∅ "PATCH"
    = ok {[ "Authorization" := VStr "Bearer p4tch" ]}
  /\ do_auth (client ∅ (json_reply 200 "{}")) "GET" zones no_ids None None None []
    = (raise (api_error 0 "neither email/key or token defined"), []).
Proof.
  split.
  - pose proof (auth_resolution_order (client patch_config (json_reply 200 "{}"))
                  "PATCH" ∅) as (_ & _ & _ & _ & _ & Htoken & _).
    rewrite Htoken; [reflexivity|vm_compute; reflexivity|vm_compute; reflexivity
                    |vm_compute; discriminate].
  - pose proof (auth_resolution_order (client ∅ (json_reply 200 "{}"))
                  "GET" ∅) as (_ & _ & _ & _ & _ & _ & _ & _ & _ & Hstop).
    apply Hstop. vm_compute. reflexivity.
Defined.

End AuthTheory.

(* ===================================================================== *)
(** * The constructor: blank configuration values *)
(* ===================================================================== *)

Module ClientTheory.
Import PyValues V4Base Client Spec Basics Demo Samples.
Local Open Scope py_scope.



Lemma sanitise_config_lookup config k :
  sanitise_config config !! k = blank_to_none <$> (config !! k).
Proof. unfold sanitise_config. apply lookup_fmap. Qed.

Lemma override_lookup_ne k k' x config :
  k <> k' -> override k x config !! k' = config !! k'.
Proof. intros Hne. destruct x; simpl; [by rewrite lookup_insert_ne|done]. Qed.

Lemma override_lookup_eq k v config :
  override k (Some v) config !! k = Some v.
Proof. simpl. apply lookup_insert_eq. Qed.



Lemma apply_args_email a config s :
  arg_email a = Some s -> apply_args a config !! "email" = Some (VStr s).
Proof.
  intros Ha. unfold apply_args.
  rewrite !override_lookup_ne by done. rewrite Ha. apply override_lookup_eq.
Qed.

Lemma apply_args_key a config s :
  arg_key a = Some s -> apply_args a config !! "key" = Some (VStr s).
Proof.
  intros Ha. unfold apply_args.
  rewrite !override_lookup_ne by done. rewrite Ha. apply override_lookup_eq.
Qed.

Lemma apply_args_token a config s :
  arg_token a = Some s -> apply_args a config !! "token" = Some (VStr s).
Proof.
  intros Ha. unfold apply_args.
  rewrite !override_lookup_ne by done. rewrite Ha. apply override_lookup_eq.
Qed.

Lemma v4base_init_fields transport agent config self :
  v4base_init transport agent config = ok self ->
  V4Base.config self = config
  /\ api_email self = get_or config "email" VNone
  /\ api_key self = get_or config "key" VNone
  /\ api_token self = get_or config "token" VNone.
Proof.
  unfold v4base_init, rbind, get.
  destruct (config !! "raw"); [|discriminate].
  destruct (config !! "use_sessions"); [|discriminate].
  destruct (config !! "profile"); [|discriminate].
  simpl. intros [= <-]. done.
Qed.


Section WithPython.
Context `{Python}.


End WithPython.




End ClientTheory.

(* ===================================================================== *)
(** * URL construction *)
(* ===================================================================== *)

Module UrlTheory.
Import PyValues V4Base Spec Basics Demo Samples.
Local Open Scope py_scope.


Lemma build_url_first_identifier self method p0 p1 rest i1 i2 i3 data :
  is_some p1 = true ->
  build_url self method (Some p0 :: p1 :: rest) [None; i1; i2; i3] data
  = raise (api_error 0 "You must specify first identifier").
Proof. intros Hp. unfold build_url. simpl. rewrite Hp. reflexivity. Qed.






End UrlTheory.

(* ===================================================================== *)
(** * The call pipeline: network, normalisation, sanitisation, raising *)
(* ===================================================================== *)

Module PipelineTheory.
Import PyValues V4Base Spec Basics Demo Samples.
Local Open Scope py_scope.

Section Pipeline.
Context `{Python}.

Variable self : v4base.
Variable method : string.
Variable headers : headers_t.
Variables parts identifiers : list (option string).
Variable params : option (list (string * string)).
Variable data : option pydata.
Variable files : option (list (string * pyfile)).

(** ** Composition of the stages *)

Lemma raw_after_network tr tr' rtype code body :
  _call_network self method headers parts identifiers params data files tr
    = (ok (rtype, code, body), tr') ->
  _raw self method headers parts identifiers params data files tr
    = (normalise rtype code body, tr').
Proof. intros Hn. unfold _raw, mbind, mlift. by rewrite Hn. Qed.

Lemma raw_network_raises tr tr' e :
  _call_network self method headers parts identifiers params data files tr
    = (raise e, tr') ->
  _raw self method headers parts identifiers params data files tr = (raise e, tr').
Proof. intros Hn. unfold _raw, mbind. by rewrite Hn. Qed.

Lemma call_after_raw tr tr' r :
  _raw self method headers parts identifiers params data files tr = (r, tr') ->
  _call self method headers parts identifiers params data files tr
    = (rbind r (after_raw self), tr').
Proof. intros Hr. unfold _call, mbind, mlift. rewrite Hr. by destruct r. Qed.

Lemma call_unwrapped_after_raw tr tr' r :
  _raw self method headers parts identifiers params data files tr = (r, tr') ->
  _call_unwrapped self method headers parts identifiers params data files tr = (r, tr').
Proof. intros Hr. unfold _call_unwrapped, mbind, mret. rewrite Hr. by destruct r. Qed.

Lemma call_network_reaches tr url fd :
  build_url self method parts identifiers data = ok url ->
  merge_files files data = ok fd ->
  _call_network self method headers parts identifiers params data files tr
  = (match network self (request_of method headers params url fd) with
     | RequestException e => raise (CloudFlareAPIError (PyInt 0) (PyStr e) None)
     | OtherException name => raise (TransportRaised name)
     | Responded response =>
         if (500 <=? status_code response) && (status_code response <=? 599)
         then raise (HTTPError (status_code response))
         else ok (response_type_of response, status_code response,
                  resp_content response)
     end, tr ++ [request_of method headers params url fd]).
Proof.
  intros Hu Hf. unfold _call_network, mbind, mlift, send, request_of.
  rewrite Hu, Hf. simpl.
  destruct (network self _) as [r| |]; try reflexivity.
  unfold mraise, mret. by destruct (_ && _).
Qed.

(** Whatever happens, at most one request is sent, and it carries the
    headers that were passed in. *)
Lemma call_network_trace tr :
  let out := _call_network self method headers parts identifiers params data files tr in
  snd out = tr
  \/ exists req, snd out = tr ++ [req] /\ req_headers req = headers.
Proof.
  simpl. unfold _call_network, mbind, mlift.
  destruct (build_url _ _ _ _ _) as [?|url]; [by left|].
  destruct (merge_files _ _) as [?|fd]; [by left|].
  right. eexists. unfold send.
  destruct (network self _) as [r| |]; simpl.
  - unfold mraise, mret. destruct (_ && _); simpl; split; reflexivity.
  - split; reflexivity.
  - split; reflexivity.
Qed.

Lemma raw_trace tr :
  snd (_raw self method headers parts identifiers params data files tr)
  = snd (_call_network self method headers parts identifiers params data files tr).
Proof.
  unfold _raw, mbind, mlift.
  destruct (_call_network _ _ _ _ _ _ _ _ _) as [[e|[[rt code] body]] tr']; reflexivity.
Qed.

Lemma call_trace tr :
  snd (_call self method headers parts identifiers params data files tr)
  = snd (_call_network self method headers parts identifiers params data files tr).
Proof.
  rewrite <- raw_trace. unfold _call, mbind, mlift.
  destruct (_raw _ _ _ _ _ _ _ _ _) as [[e|r] tr']; reflexivity.
Qed.

Lemma call_unwrapped_trace tr :
  snd (_call_unwrapped self method headers parts identifiers params data files tr)
  = snd (_call_network self method headers parts identifiers params data files tr).
Proof.
  rewrite <- raw_trace. unfold _call_unwrapped, mbind, mret.
  destruct (_raw _ _ _ _ _ _ _ _ _) as [[e|r] tr']; reflexivity.
Qed.

(** A response that gets past [_call_network] is not a 5xx one. *)
Lemma call_network_ok_status tr tr' rtype code body :
  _call_network self method headers parts identifiers params data files tr
    = (ok (rtype, code, body), tr') ->
  ~ (500 <= code <= 599).
Proof.
  unfold _call_network, mbind, mlift, send.
  destruct (build_url _ _ _ _ _) as [?|url]; [discriminate|].
  destruct (merge_files _ _) as [?|fd]; [discriminate|]. simpl.
  destruct (network self _) as [r| |]; try discriminate.
  unfold mraise, mret.
  destruct ((500 <=? status_code r) && (status_code r <=? 599)) eqn:E;
    [discriminate|].
  intros [= _ <- _ _]. lia.
Qed.

(** ** 5xx responses *)

(** C2. When the transport answers with a status in 500..599, the call
    raises the transport-level [HTTPError] of [raise_for_status] right
    after the response has come in: [_call_network] raises, and so do
    [_raw], [_call] and [_call_unwrapped], whatever the content type and
    the body; no normalised response is produced. *)
Theorem server_error_is_raised_unnormalised tr url fd r :
  build_url self method parts identifiers data = ok url ->
  merge_files files data = ok fd ->
  network self (request_of method headers params url fd) = Responded r ->
  500 <= status_code r <= 599 ->
  let failure :=
    (@raise pyobj (HTTPError (status_code r)),
     tr ++ [request_of method headers params url fd]) in
  _call_network self method headers parts identifiers params data files tr
    = (raise (HTTPError (status_code r)),
       tr ++ [request_of method headers params url fd])
  /\ _raw self method headers parts identifiers params data files tr = failure
  /\ _call self method headers parts identifiers params data files tr = failure
  /\ _call_unwrapped self method headers parts identifiers params data files tr
     = failure.
Proof.
  intros Hu Hf Hn Hs.
  assert (Hnet : _call_network self method headers parts identifiers params data
                   files tr
                 = (raise (HTTPError (status_code r)),
                    tr ++ [request_of method headers params url fd])).
  { rewrite (call_network_reaches tr url fd Hu Hf), Hn.
    assert ((500 <=? status_code r) && (status_code r <=? 599) = true) as -> by lia.
    reflexivity. }
  pose proof (raw_network_raises _ _ _ Hnet) as Hraw.
  simpl. repeat split; [done|done| |].
  - by rewrite (call_after_raw _ _ _ Hraw).
  - by rewrite (call_unwrapped_after_raw _ _ _ Hraw).
Qed.

(** ** Sanitisation *)

(** Sanitisation of an object without 'success' goes through for
    dictionaries only. *)
Lemma sanitise_ok_dict v v' :
  sanitise v = ok v' -> py_in "success" v = ok false -> exists d, v = PyDict d.
Proof.
  intros Hs Hin. destruct v as [| | | | |l|d|]; try discriminate; eauto.
  all: exfalso; unfold sanitise in Hs; rewrite Hin in Hs; simpl in Hs.
  all: repeat match type of Hs with
         | context [if ?b then _ else _] => destruct b; simpl in Hs
         end; discriminate.
Qed.

Lemma sanitise_keeps_success v :
  py_in "success" v = ok true -> sanitise v = ok v.
Proof. intros Hin. unfold sanitise. by rewrite Hin. Qed.

Lemma normalise_empty_json code body :
  json_loads "" = None -> decoded body = ok "" ->
  normalise "application/json" code body = ok (by_code code PyNone).
Proof.
  intros Hj Hd. unfold normalise. rewrite str_eqb_refl, Hd. simpl.
  rewrite Hj. reflexivity.
Qed.

(** C1 (as amended). Let [v] be the normalised response and [v'] its
    sanitised form.  When [v] carries no success field and sanitisation
    sets success to false, [v'] holds an errors list of exactly one
    (synthesised) entry.  When [v] already carries a success field,
    sanitisation leaves it as it is; in particular an empty
    application/json body at a status other than 200 yields
    [{success: false, code: status, result: null}], which has no errors
    list. *)
Theorem forced_failure_has_errors rtype code body v v' :
  normalise rtype code body = ok v ->
  sanitise v = ok v' ->
  (py_in "success" v = ok false ->
   py_getitem v' "success" = ok (PyBool false) ->
   exists e, py_getitem v' "errors" = ok (PyList [e]))
  /\ (py_in "success" v = ok true -> v' = v)
  /\ (rtype = "application/json" -> decoded body = ok "" ->
      json_loads "" = None -> code <> 200 ->
      v' = PyDict [("success", PyBool false); ("code", PyInt code);
                   ("result", PyNone)]
      /\ py_in "errors" v' = ok false).
Proof.
  intros Hn Hs. split; [|split].
  - intros Hin Hfalse.
    destruct (sanitise_ok_dict _ _ Hs Hin) as [d ->].
    unfold sanitise in Hs. rewrite Hin in Hs. simpl in Hs.
    destruct (dict_has "errors" d) eqn:He; simpl in Hs.
    + destruct (dict_get "errors" d) as [errs|] eqn:Hg; simpl in Hs; [|discriminate].
      destruct (is_none errs); simpl in Hs.
      * injection Hs as <-. simpl in Hfalse.
        rewrite dict_get_set_eq in Hfalse. discriminate.
      * destruct (py_add_str _ _) as [?|m]; simpl in Hs; [discriminate|].
        injection Hs as <-. eexists. simpl.
        rewrite dict_get_set_ne by done. rewrite dict_get_set_eq. reflexivity.
    + destruct (dict_has "result" d); simpl in Hs; injection Hs as <-.
      * simpl in Hfalse. rewrite dict_get_set_eq in Hfalse. discriminate.
      * exists PySelf. simpl. rewrite dict_get_set_ne by done.
        by rewrite dict_get_set_eq.
  - intros Hin. rewrite (sanitise_keeps_success _ Hin) in Hs. by injection Hs.
  - intros -> Hd Hj Hc.
    rewrite (normalise_empty_json code body Hj Hd) in Hn. injection Hn as <-.
    unfold by_code in Hs. rewrite (proj2 (Z.eqb_neq code codes_ok)) in Hs by done.
    injection Hs as <-. split; reflexivity.
Qed.

(** ** Newline-delimited JSON *)

(** C5 (as amended). For an application/json response whose non-empty
    text is not one JSON document, the text is split into lines and each
    line is parsed: when every line parses, the normalised response is
    the list of the parsed values itself, which [_call_unwrapped] returns
    as the result of the call; as soon as one line does not parse, the
    call fails with the error 'JSON parse failed - report to Cloudflare.' *)
Theorem ndjson_fallback tr tr' code body text :
  _call_network self method headers parts identifiers params data files tr
    = (ok ("application/json", code, body), tr') ->
  decoded body = ok text ->
  json_loads text = None ->
  text <> "" ->
  (forall values,
      Forall2 (fun line v => json_loads line = Some v) (splitlines text) values ->
      normalise "application/json" code body = ok (PyList values)
      /\ _call_unwrapped self method headers parts identifiers params data files tr
         = (ok (PyList values), tr'))
  /\ (Exists (fun line => json_loads line = None) (splitlines text) ->
      normalise "application/json" code body
        = raise (api_error 0 "JSON parse failed - report to Cloudflare.")
      /\ _call_unwrapped self method headers parts identifiers params data files tr
         = (raise (api_error 0 "JSON parse failed - report to Cloudflare."), tr')
      /\ _call self method headers parts identifiers params data files tr
         = (raise (api_error 0 "JSON parse failed - report to Cloudflare."), tr')).
Proof.
  intros Hnet Hd Hj Hne.
  assert (Hnorm : normalise "application/json" code body
                  = match mapM json_loads (splitlines text) with
                    | Some r => ok (PyList r)
                    | None => raise (api_error 0 "JSON parse failed - report to Cloudflare.")
                    end).
  { unfold normalise. rewrite str_eqb_refl, Hd. simpl. rewrite Hj.
    by rewrite str_eqb_ne. }
  pose proof (raw_after_network _ _ _ _ _ Hnet) as Hraw.
  split.
  - intros values Hall. apply mapM_Some_2 in Hall.
    rewrite Hnorm, Hall in *. split; [done|].
    by apply call_unwrapped_after_raw.
  - intros Hex. apply mapM_None_2 in Hex.
    rewrite Hnorm, Hex in *. split; [done|]. split.
    + by apply call_unwrapped_after_raw.
    + by rewrite (call_after_raw _ _ _ Hraw).
Qed.

(** ** Empty bodies *)

(** C6. An application/json response with an empty body (for which
    [json.loads] raises) normalises, at status 200, to
    [{success: true, result: null}] and, at status 404, to
    [{success: false, code: 404, result: null}]; in the [_call] flow the
    latter raises an API error with code 99998 and an empty message, and
    the former returns None (the envelope [{result: None}] in raw mode). *)
Theorem empty_json_body tr tr' body :
  json_loads "" = None ->
  decoded body = ok "" ->
  normalise "application/json" 200 body
    = ok (PyDict [("success", PyBool true); ("result", PyNone)])
  /\ normalise "application/json" 404 body
    = ok (PyDict [("success", PyBool false); ("code", PyInt 404); ("result", PyNone)])
  /\ (_call_network self method headers parts identifiers params data files tr
        = (ok ("application/json", 404, body), tr') ->
      _call self method headers parts identifiers params data files tr
        = (raise (api_error 99998 ""), tr'))
  /\ (_call_network self method headers parts identifiers params data files tr
        = (ok ("application/json", 200, body), tr') ->
      _call self method headers parts identifiers params data files tr
        = (ok (if cfg_truthy (raw self) then PyDict [("result", PyNone)] else PyNone),
           tr')).
Proof.
  intros Hj Hd.
  pose proof (normalise_empty_json 200 body Hj Hd) as H200.
  pose proof (normalise_empty_json 404 body Hj Hd) as H404.
  repeat split; [exact H200|exact H404| |].
  - intros Hnet. apply raw_after_network in Hnet. rewrite H404 in Hnet.
    rewrite (call_after_raw _ _ _ Hnet). reflexivity.
  - intros Hnet. apply raw_after_network in Hnet. rewrite H200 in Hnet.
    rewrite (call_after_raw _ _ _ Hnet). simpl.
    unfold after_raw, unwrap. simpl. by destruct (cfg_truthy (raw self)).
Qed.

(** ** The body [{"errors": null}] *)

(** C7 (as amended). For a response that is not a 5xx one and whose body,
    announced as application/json or text/plain, parses to the JSON object
    [{"errors": null}], sanitisation sets success to true and [_call]
    returns instead of raising: the object itself, success included, as
    it has no result key (wrapped as [{result: ...}] in raw mode). *)
Theorem errors_null_is_success tr tr' rtype code body text :
  _call_network self method headers parts identifiers params data files tr
    = (ok (rtype, code, body), tr') ->
  rtype = "application/json" \/ rtype = "text/plain" ->
  decoded body = ok text ->
  json_loads text = Some (PyDict [("errors", PyNone)]) ->
  let sanitised := PyDict [("errors", PyNone); ("success", PyBool true)] in
  ~ (500 <= code <= 599)
  /\ sanitise (PyDict [("errors", PyNone)]) = ok sanitised
  /\ _call self method headers parts identifiers params data files tr
     = (ok (if cfg_truthy (raw self) then PyDict [("result", sanitised)]
            else sanitised), tr').
Proof.
  intros Hnet Hty Hd Hj sanitised.
  split; [by eapply call_network_ok_status|]. split; [reflexivity|].
  assert (Hnorm : normalise rtype code body = ok (PyDict [("errors", PyNone)])).
  { unfold normalise. destruct Hty as [-> | ->].
    - rewrite str_eqb_refl, Hd. simpl. by rewrite Hj.
    - rewrite (str_eqb_ne "text/plain" "application/json") by done.
      rewrite (str_eqb_ne "text/plain" "application/octet-stream") by done.
      rewrite str_eqb_refl, Hd. simpl. by rewrite Hj. }
  apply raw_after_network in Hnet. rewrite Hnorm in Hnet.
  rewrite (call_after_raw _ _ _ Hnet). simpl.
  unfold after_raw, unwrap. simpl. by destruct (cfg_truthy (raw self)).
Qed.

End Pipeline.

(** ** Sample runs *)

Lemma server_error_is_raised_unnormalised_witness :
  500 <= status_code reply_503 <= 599
  /\ _call down_client "GET" ∅ zones no_ids None None None []
     = (raise (HTTPError 503), [request_of "GET" ∅ None zones_url (None, None)]).
Proof.
  assert (Hs : 500 <= status_code reply_503 <= 599) by (simpl; lia).
  split; [exact Hs|].
  pose proof (server_error_is_raised_unnormalised down_client "GET" ∅ zones no_ids
                None None None [] zones_url (None, None) reply_503
                eq_refl eq_refl eq_refl Hs) as (_ & _ & Hcall & _).
  exact Hcall.
Defined.

Lemma forced_failure_has_errors_witness :
  rbind (normalise "application/json" 400 (CBytes boom_body)) sanitise
    = ok boom_sanitised
  /\ exists e, py_getitem boom_sanitised "errors" = ok (PyList [e]).
Proof.
  split; [vm_compute; reflexivity|].
  refine (proj1 (forced_failure_has_errors "application/json" 400 (CBytes boom_body)
                   (PyDict [("errors", PyList [PyDict [("message", PyStr "boom")]])])
                   boom_sanitised _ _) _ _); vm_compute; reflexivity.
Defined.

(** C1, as stated, fails: an empty application/json body at status 404
    (below 500) comes out of normalisation and sanitisation with success
    false and without any errors list. *)
Lemma empty_404_has_no_errors_list :
  404 < 500
  /\ rbind (normalise "application/json" 404 (CBytes "")) sanitise
     = ok (PyDict [("success", PyBool false); ("code", PyInt 404);
                   ("result", PyNone)])
  /\ py_getitem (PyDict [("success", PyBool false); ("code", PyInt 404);
                         ("result", PyNone)]) "success" = ok (PyBool false)
  /\ py_in "errors" (PyDict [("success", PyBool false); ("code", PyInt 404);
                             ("result", PyNone)]) = ok false.
Proof. split; [lia|]. repeat split; vm_compute; reflexivity. Qed.

Lemma ndjson_fallback_witness :
  fst (_call_unwrapped ndjson_client "GET" ∅ zones no_ids None None None [])
  = ok (PyList [PyDict [("a", PyInt 1)]; PyDict [("a", PyInt 2)]]).
Proof.
  assert (Hnet : _call_network ndjson_client "GET" ∅ zones no_ids None None None []
                 = (ok ("application/json", 200, CBytes (a1 +:+ lf +:+ a2)),
                    [request_of "GET" ∅ None zones_url (None, None)]))
    by (vm_compute; reflexivity).
  assert (Hne : a1 +:+ lf +:+ a2 <> "") by (vm_compute; discriminate).
  pose proof (ndjson_fallback ndjson_client "GET" ∅ zones no_ids None None None
                [] _ 200 (CBytes (a1 +:+ lf +:+ a2)) (a1 +:+ lf +:+ a2)
                Hnet eq_refl eq_refl Hne) as [Hall _].
  destruct (Hall [PyDict [("a", PyInt 1)]; PyDict [("a", PyInt 2)]]) as [_ Hcall].
  - apply mapM_Some_1. vm_compute. reflexivity.
  - rewrite Hcall. reflexivity.
Defined.

(** C5, as stated, fails: the first line of the body parses, so not every
    line fails, and yet the call fails with the parse error; and in the
    [_call] flow a body of two lines that both parse does not become the
    result of the call. *)
Lemma one_bad_line_fails_the_call :
  json_loads a1 = Some (PyDict [("a", PyInt 1)])
  /\ fst (_call_unwrapped (client token_config (json_reply 200 (a1 +:+ lf +:+ "xyz")))
            "GET" ∅ zones no_ids None None None [])
     = raise (api_error 0 "JSON parse failed - report to Cloudflare.")
  /\ fst (_call ndjson_client "GET" ∅ zones no_ids None None None [])
     = raise TypeError.
Proof. repeat split; vm_compute; reflexivity. Qed.

Lemma empty_json_body_witness :
  json_loads "" = None
  /\ fst (_call empty_404_client "GET" ∅ zones no_ids None None None [])
     = raise (api_error 99998 "").
Proof.
  split; [reflexivity|].
  assert (Hnet : _call_network empty_404_client "GET" ∅ zones no_ids None None None []
                 = (ok ("application/json", 404, CBytes ""),
                    [request_of "GET" ∅ None zones_url (None, None)]))
    by (vm_compute; reflexivity).
  pose proof (empty_json_body empty_404_client "GET" ∅ zones no_ids None None None
                [] [request_of "GET" ∅ None zones_url (None, None)] (CBytes "")
                eq_refl eq_refl) as (_ & _ & H404 & _).
  rewrite (H404 Hnet). reflexivity.
Defined.

Lemma errors_null_is_success_witness :
  fst (_call graphql_client "POST" ∅ [Some "graphql"; None; None; None; None]
         no_ids None None None [])
  = ok (PyDict [("errors", PyNone); ("success", PyBool true)]).
Proof.
  assert (Hnet : _call_network graphql_client "POST" ∅
                   [Some "graphql"; None; None; None; None] no_ids None None None []
                 = (ok ("application/json", 400, CBytes errors_null_body),
                    [request_of "POST" ∅ None
                       "https://api.cloudflare.com/client/v4/graphql" (None, None)]))
    by (vm_compute; reflexivity).
  pose proof (errors_null_is_success graphql_client "POST" ∅
                [Some "graphql"; None; None; None; None] no_ids None None None
                [] _ "application/json" 400 (CBytes errors_null_body)
                errors_null_body Hnet (or_introl eq_refl) eq_refl eq_refl)
    as (_ & _ & Hcall).
  rewrite Hcall. reflexivity.
Defined.

(** C7, as stated, fails: at status 503 the call raises the transport
    error, and at status 404 with content type application/octet-stream
    the same body is wrapped as a failure and the call raises an API
    error. *)
Lemma errors_null_can_still_raise :
  fst (_call down_client "GET" ∅ zones no_ids None None None [])
    = raise (HTTPError 503)
  /\ fst (_call (client token_config
                   (typed_reply "application/octet-stream" 404 errors_null_body))
            "GET" ∅ zones no_ids None None None [])
     = raise (api_error 99998 "").
Proof. split; vm_compute; reflexivity. Qed.

End PipelineTheory.

(* ===================================================================== *)
(** * Headers of the requests sent *)
(* ===================================================================== *)

Module HeadersTheory.
Import PyValues V4Base Spec Basics AuthTheory PipelineTheory Demo Samples.
Local Open Scope py_scope.

Lemma add_headers_user_agent self headers :
  _add_headers self headers !! "User-Agent" = Some (VStr (user_agent self)).
Proof.
  unfold _add_headers. rewrite lookup_insert_ne by done. apply lookup_insert_eq.
Qed.

Lemma add_headers_content_type self headers :
  _add_headers self headers !! "Content-Type" = Some (VStr "application/json").
Proof. unfold _add_headers. apply lookup_insert_eq. Qed.

Lemma content_type_for_user_agent data files (headers : headers_t) :
  content_type_for data files headers !! "User-Agent" = headers !! "User-Agent".
Proof.
  unfold content_type_for.
  destruct (files_truthy files), (is_script data);
    by rewrite ?lookup_delete_ne, ?lookup_insert_ne.
Qed.

Lemma content_type_for_content_type data files (headers : headers_t) :
  headers !! "Content-Type" = Some (VStr "application/json") ->
  content_type_for data files headers !! "Content-Type"
  = if files_truthy files then None
    else if is_script data then Some (VStr "application/javascript")
    else Some (VStr "application/json").
Proof.
  intros Hh. unfold content_type_for.
  destruct (files_truthy files), (is_script data);
    by rewrite ?lookup_delete_eq, ?lookup_insert_eq.
Qed.

Lemma nothing_sent {A} (tr : list A) (x : A) : tr <> tr ++ [x].
Proof.
  intros Heq. apply (f_equal length) in Heq.
  rewrite length_app in Heq. simpl in Heq. lia.
Qed.

(** From "the trace is unchanged or grew by the request [r]" and "the
    trace grew by [req]": [r] is [req]. *)
Ltac the_request Hs Ht r :=
  first [ rewrite Ht in Hs; exfalso; exact (nothing_sent _ _ Hs)
        | rewrite Ht in Hs; apply app_inj_tail in Hs as [_ <-] ].

Section WithPython.
Context `{Python}.

Variable self : v4base.
Variable method : string.
Variables parts identifiers : list (option string).
Variable params : option (list (string * string)).
Variable data : option pydata.
Variable files : option (list (string * pyfile)).

(** The headers of the request an entry point sends, if it sends one. *)
Lemma do_auth_trace tr :
  let out := do_auth self method parts identifiers params data files tr in
  snd out = tr
  \/ exists req, snd out = tr ++ [req]
     /\ exists hdrs, _add_auth_headers self (_add_headers self ∅) method = ok hdrs
        /\ req_headers req = content_type_for data files hdrs.
Proof.
  simpl. unfold do_auth, mbind, mlift.
  destruct (_add_auth_headers _ _ _) as [e|hdrs] eqn:Ha; [by left|].
  rewrite call_trace.
  destruct (call_network_trace self method (content_type_for data files hdrs)
              parts identifiers params data files tr) as [Hn|(req & Hn & Hh)];
    [by left|right]. exists req. split; [done|]. by exists hdrs.
Qed.

Lemma do_auth_unwrapped_trace tr :
  let out := do_auth_unwrapped self method parts identifiers params data files tr in
  snd out = tr
  \/ exists req, snd out = tr ++ [req]
     /\ exists hdrs, _add_auth_headers self (_add_headers self ∅) method = ok hdrs
        /\ req_headers req = content_type_for data files hdrs.
Proof.
  simpl. unfold do_auth_unwrapped, mbind, mlift.
  destruct (_add_auth_headers _ _ _) as [e|hdrs] eqn:Ha; [by left|].
  rewrite call_unwrapped_trace.
  destruct (call_network_trace self method (content_type_for data files hdrs)
              parts identifiers params data files tr) as [Hn|(req & Hn & Hh)];
    [by left|right]. exists req. split; [done|]. by exists hdrs.
Qed.

Lemma do_no_auth_trace tr :
  let out := do_no_auth self method parts identifiers params data files tr in
  snd out = tr
  \/ exists req, snd out = tr ++ [req] /\ req_headers req = _add_headers self ∅.
Proof. simpl. unfold do_no_auth. rewrite call_trace. apply call_network_trace. Qed.

Lemma do_certauth_trace tr :
  let out := do_certauth self method parts identifiers params data files tr in
  snd out = tr
  \/ exists req, snd out = tr ++ [req]
     /\ exists hdrs, _add_certtoken_headers self (_add_headers self ∅) method = ok hdrs
        /\ req_headers req = hdrs.
Proof.
  simpl. unfold do_certauth, mbind, mlift.
  destruct (_add_certtoken_headers _ _ _) as [e|hdrs] eqn:Ha; [by left|].
  rewrite call_trace.
  destruct (call_network_trace self method hdrs
              parts identifiers params data files tr) as [Hn|(req & Hn & Hh)];
    [by left|right]. exists req. split; [done|]. by exists hdrs.
Qed.

Lemma authenticated_headers hdrs req :
  _add_auth_headers self (_add_headers self ∅) method = ok hdrs ->
  req_headers req = content_type_for data files hdrs ->
  req_headers req !! "User-Agent" = Some (VStr (user_agent self))
  /\ content_type req
     = if files_truthy files then None
       else if is_script data then Some (VStr "application/javascript")
       else Some (VStr "application/json").
Proof.
  intros Ha Hh. unfold content_type. rewrite Hh. split.
  - rewrite content_type_for_user_agent.
    rewrite (auth_headers_keep _ _ _ _ "User-Agent" Ha) by done.
    apply add_headers_user_agent.
  - apply content_type_for_content_type.
    rewrite (auth_headers_keep _ _ _ _ "Content-Type" Ha) by done.
    apply add_headers_content_type.
Qed.

(** C9 (as amended). Every request an entry point hands to the transport
    carries the client's User-Agent header.  On the authenticated paths
    ([do_auth], [do_auth_unwrapped]) its Content-Type is application/json
    by default and application/javascript when the body is a script
    string, and when files are attached the Content-Type header is
    removed from the request altogether, whatever the body; on the other
    two paths ([do_no_auth], [do_certauth]) the Content-Type is always
    application/json, also when the body is a script string or files are
    attached. *)
Theorem outbound_headers tr req :
  (snd (do_auth self method parts identifiers params data files tr) = tr ++ [req]
   \/ snd (do_auth_unwrapped self method parts identifiers params data files tr)
      = tr ++ [req] ->
   req_headers req !! "User-Agent" = Some (VStr (user_agent self))
   /\ content_type req
      = if files_truthy files then None
        else if is_script data then Some (VStr "application/javascript")
        else Some (VStr "application/json"))
  /\ (snd (do_no_auth self method parts identifiers params data files tr) = tr ++ [req]
      \/ snd (do_certauth self method parts identifiers params data files tr)
         = tr ++ [req] ->
      req_headers req !! "User-Agent" = Some (VStr (user_agent self))
      /\ content_type req = Some (VStr "application/json")).
Proof.
  split.
  - intros [Hs|Hs].
    + destruct (do_auth_trace tr) as [Ht|(r & Ht & hdrs & Ha & Hh)];
        the_request Hs Ht r. by eapply authenticated_headers.
    + destruct (do_auth_unwrapped_trace tr) as [Ht|(r & Ht & hdrs & Ha & Hh)];
        the_request Hs Ht r. by eapply authenticated_headers.
  - intros [Hs|Hs].
    + destruct (do_no_auth_trace tr) as [Ht|(r & Ht & Hh)]; the_request Hs Ht r.
      unfold content_type. rewrite Hh. split.
      * apply add_headers_user_agent.
      * apply add_headers_content_type.
    + destruct (do_certauth_trace tr) as [Ht|(r & Ht & hdrs & Ha & Hh)];
        the_request Hs Ht r.
      unfold content_type. rewrite Hh. split.
      * rewrite (certtoken_headers_keep _ _ _ _ "User-Agent" Ha) by done.
        apply add_headers_user_agent.
      * rewrite (certtoken_headers_keep _ _ _ _ "Content-Type" Ha) by done.
        apply add_headers_content_type.
Qed.

End WithPython.

Lemma outbound_headers_witness :
  (req_headers script_request !! "User-Agent" = Some (VStr agent)
   /\ content_type script_request = Some (VStr "application/javascript"))
  /\ (req_headers origin_ca_request !! "User-Agent" = Some (VStr agent)
      /\ content_type origin_ca_request = Some (VStr "application/json")).
Proof.
  split.
  - pose proof (outbound_headers worker_client "PUT" workers worker_ids None script
                  None [] script_request) as [Hauth _].
    apply Hauth. left. vm_compute. reflexivity.
  - pose proof (outbound_headers origin_ca_client "POST" workers worker_ids None
                  None upload [] origin_ca_request) as [_ Hcert].
    apply Hcert. right. vm_compute. reflexivity.
Defined.

(** With files attached, the headers [do_auth] hands to the transport
    hold no Content-Type entry (lines 128-132 set it and delete it again,
    which leaves the multipart type to the transport). *)
Lemma upload_has_no_content_type :
  content_type <$>
    snd (do_auth worker_client "POST" workers worker_ids None None upload [])
  = [None].
Proof. vm_compute. reflexivity. Qed.

(** C9, as stated, fails: a script string sent through [do_certauth]
    goes out with Content-Type application/json, not
    application/javascript; the request carries the script as its body
    and no files. *)
Lemma script_on_certauth_is_sent_as_json :
  is_script script = true
  /\ (fun r => (req_data r, req_files r, content_type r))
       <$> snd (do_certauth origin_ca_client "PUT" workers worker_ids None script
                  None [])
     = [(script, None, Some (VStr "application/json"))].
Proof. split; vm_compute; reflexivity. Qed.

End HeadersTheory.

(* ===================================================================== *)
(** * Verbs an endpoint does not offer *)
(* ===================================================================== *)

Module EndpointsTheory.
Import PyValues V4Base Endpoints Spec Basics Demo Samples.
Local Open Scope py_scope.

Section WithPython.
Context `{Python}.

(** A permitted verb is forwarded to the entry point of the endpoint's
    class, with the endpoint's parts and the caller's identifiers. *)
Lemma permitted_verb_forwards (e : endpoint) (v : verb) (a : call_args) :
  permits (ep_policy e) v = true ->
  invoke e v a
  = match ep_policy e with
    | OPEN => do_no_auth (_base e) "GET"
    | AUTH => do_auth (_base e) (verb_method v)
    | AUTH_UNWRAPPED => do_auth_unwrapped (_base e) (verb_method v)
    | _ => do_certauth (_base e) (verb_method v)
    end (_parts e) (identifiers_of a) (params a) (data a)
        (match ep_policy e with OPEN => None | _ => files_of v a end).
Proof.
  unfold invoke. destruct (ep_policy e), v; simpl; try discriminate; reflexivity.
Qed.

(** C8 (as amended). Invoking a verb that the endpoint's policy does not
    permit raises an API error with code 0 and sends no request: on an
    endpoint without authentication the message is
    '<verb>() call not available for this endpoint', which names the verb
    (and not the endpoint path); on an unused endpoint it is 'not found'
    for every verb. *)
Theorem disallowed_verb_raises (e : endpoint) (v : verb) (a : call_args)
    (tr : list request) :
  permits (ep_policy e) v = false ->
  exists msg,
    invoke e v a tr = (raise (api_error 0 msg), tr)
    /\ (ep_policy e = OPEN ->
        msg = verb_name v +:+ "() call not available for this endpoint"
        /\ str_contains (verb_name v) msg = true)
    /\ (ep_policy e = VOID -> msg = "not found").
Proof.
  intros Hp. unfold invoke.
  destruct (ep_policy e) eqn:Hpol; simpl in Hp; try discriminate.
  - exists "not found". split; [reflexivity|]. split; [discriminate|done].
  - exists (verb_name v +:+ "() call not available for this endpoint").
    destruct v; try discriminate;
      (split; [reflexivity|]; split; [intros _; split; reflexivity|discriminate]).
Qed.

End WithPython.

Lemma disallowed_verb_raises_witness :
  permits (ep_policy ips) Post = false
  /\ exists msg, invoke ips Post no_args [] = (raise (api_error 0 msg), []).
Proof.
  split; [reflexivity|].
  destruct (disallowed_verb_raises ips Post no_args [] eq_refl) as (msg & Hi & _).
  exists msg. exact Hi.
Defined.

(** C8, as stated, fails: the message raised by [post] on the read-only
    endpoint /ips names the verb but not the endpoint path, and the
    message of an unused endpoint names neither. *)
Lemma message_does_not_name_the_path :
  endpoint_path ips = "/ips"
  /\ invoke ips Post no_args []
     = (raise (api_error 0 "post() call not available for this endpoint"), [])
  /\ str_contains "ips" "post() call not available for this endpoint" = false
  /\ invoke unused Post no_args [] = (raise (api_error 0 "not found"), [])
  /\ str_contains "post" "not found" = false.
Proof. repeat split; vm_compute; reflexivity. Qed.

End EndpointsTheory.

(* ===================================================================== *)
(** * The endpoint tree *)
(* ===================================================================== *)

Module TreeTheory.
Import PyValues V4Base Endpoints Tree More Basics.

Lemma assoc_set_eq x n attrs : assoc x (set_attr x n attrs) = Some n.
Proof.
  induction attrs as [|[y m] attrs IH]; simpl.
  - by rewrite str_eqb_refl.
  - destruct (str_eqb x y) eqn:E; simpl; rewrite E; [done|exact IH].
Qed.

Lemma assoc_set_ne x y n attrs :
  x <> y -> assoc x (set_attr y n attrs) = assoc x attrs.
Proof.
  intros Hne. induction attrs as [|[z m] attrs IH]; simpl.
  - by rewrite str_eqb_ne.
  - destruct (str_eqb y z) eqn:E; simpl.
    + apply str_eqb_eq in E as <-. by rewrite str_eqb_ne.
    + by rewrite IH.
Qed.

Lemma getattr_child obj x c : getattr obj x = Child c -> assoc x (node_attrs obj) = Some c.
Proof.
  unfold getattr. destruct (assoc x (node_attrs obj)); [by intros [= ->]|].
  by destruct (mem _ _).
Qed.

Lemma getattr_missing obj x : getattr obj x = Missing -> assoc x (node_attrs obj) = None.
Proof. unfold getattr. by destruct (assoc x (node_attrs obj)). Qed.

Lemma getattr_assoc obj x c : assoc x (node_attrs obj) = Some c -> getattr obj x = Child c.
Proof. unfold getattr. by intros ->. Qed.

Section WithKeywords.
Context `{Keywords}.

(** ** What a successful walk leaves behind *)

Lemma attach_ok a name t parts branch branch' :
  attach a name t parts branch = inr branch' ->
  exists p,
    policy_of_tag t = Some p
    /\ assoc (attr_name name) (node_attrs branch) = None
    /\ branch' = Node (node_kind branch)
                   (set_attr (attr_name name) (Node (EndpointObject p parts) [])
                      (node_attrs branch)).
Proof.
  unfold attach. destruct (underscored _); [discriminate|].
  destruct (getattr branch (attr_name name)) eqn:Hg; try discriminate.
  destruct (policy_of_tag t) as [p|]; [|discriminate].
  intros [= <-]. exists p. split; [done|]. split; [|done].
  by apply getattr_missing.
Qed.

Lemma walk_step a element rest name t parts branch branch' :
  walk a (element :: rest) name t parts branch = inr branch' ->
  exists c c',
    assoc (dashes element) (node_attrs branch) = Some c
    /\ walk a rest name t parts c = inr c'
    /\ branch' = Node (node_kind branch)
                   (set_attr (dashes element) c' (node_attrs branch)).
Proof.
  simpl. destruct (underscored _); [discriminate|].
  destruct (getattr branch (dashes element)) as [c| |] eqn:Hg; try discriminate.
  destruct (walk a rest name t parts c) as [e|c'] eqn:Hw; [discriminate|].
  intros [= <-]. exists c, c'. split; [by apply getattr_child|done].
Qed.

Lemma walk_descend a rest name t parts branch branch' :
  walk a rest name t parts branch = inr branch' ->
  exists p,
    policy_of_tag t = Some p
    /\ descend branch' (map dashes rest ++ [attr_name name])
       = Some (Node (EndpointObject p parts) []).
Proof.
  revert branch branch'. induction rest as [|element rest IH]; intros branch branch' Hw.
  - apply attach_ok in Hw as (p & Hp & _ & ->). exists p. split; [done|].
    simpl. by rewrite assoc_set_eq.
  - apply walk_step in Hw as (c & c' & Hc & Hw & ->).
    destruct (IH _ _ Hw) as (p & Hp & Hd). exists p. split; [done|].
    simpl. by rewrite assoc_set_eq.
Qed.

Lemma walk_kind a rest name t parts branch branch' :
  walk a rest name t parts branch = inr branch' ->
  node_kind branch' = node_kind branch.
Proof.
  destruct rest as [|element rest]; intros Hw.
  - by apply attach_ok in Hw as (p & _ & _ & ->).
  - by apply walk_step in Hw as (c & c' & _ & _ & ->).
Qed.

Lemma walk_keeps a rest name t parts branch branch' :
  walk a rest name t parts branch = inr branch' ->
  forall names n,
    descend branch names = Some n ->
    exists n', descend branch' names = Some n' /\ node_kind n' = node_kind n.
Proof.
  revert branch branch'. induction rest as [|element rest IH];
    intros branch branch' Hw names n Hd.
  - apply attach_ok in Hw as (p & Hp & Hnew & ->).
    destruct names as [|y names]; simpl in *.
    + injection Hd as <-. eauto.
    + destruct (assoc y (node_attrs branch)) as [c|] eqn:Hy; [|discriminate].
      rewrite assoc_set_ne by congruence. rewrite Hy. eauto.
  - pose proof (walk_kind _ _ _ _ _ _ _ Hw) as Hk.
    apply walk_step in Hw as (c & c' & Hc & Hw & ->).
    destruct names as [|y names]; simpl in *.
    + injection Hd as <-. eauto.
    + destruct (decide (y = dashes element)) as [->|Hne].
      * rewrite assoc_set_eq. rewrite Hc in Hd. by eapply IH.
      * rewrite assoc_set_ne by done.
        destruct (assoc y (node_attrs branch)); [eauto|discriminate].
Qed.

Lemma walk_again a rest name t parts branch branch' :
  walk a rest name t parts branch = inr branch' ->
  forall a2 t2 parts2,
    walk a2 rest name t2 parts2 branch' = inl (duplicate_error a2 name).
Proof.
  revert branch branch'. induction rest as [|element rest IH];
    intros branch branch' Hw a2 t2 parts2.
  - pose proof Hw as Hw'. simpl in Hw'. unfold attach in Hw'.
    destruct (underscored (attr_name name)) eqn:Hu; [discriminate|]. clear Hw'.
    apply attach_ok in Hw as (p & Hp & Hnew & ->).
    simpl. unfold attach. rewrite Hu.
    rewrite (getattr_assoc _ _ (Node (EndpointObject p parts) [])); [done|].
    simpl. apply assoc_set_eq.
  - pose proof Hw as Hw'. simpl in Hw'.
    destruct (underscored (dashes element)) eqn:Hu; [discriminate|]. clear Hw'.
    apply walk_step in Hw as (c & c' & Hc & Hw & ->).
    simpl. rewrite Hu.
    rewrite (getattr_assoc _ _ c'); [|simpl; apply assoc_set_eq].
    by rewrite (IH _ _ Hw).
Qed.

Lemma add_walk t p1 p2 p3 p4 p5 self self' :
  add t p1 p2 p3 p4 p5 self = inr self' ->
  let a := elements [p1; p2; p3; p4; p5] in
  a <> []
  /\ walk a (removelast a) (List.last a "") t [p1; p2; p3; p4; p5] self = inr self'.
Proof.
  unfold add. simpl. destruct (elements [p1; p2; p3; p4; p5]) eqn:Ha; [discriminate|].
  intros Hw. split; [done|exact Hw].
Qed.

(** X23. An endpoint that [add] has added is found by following, from the
    client, the attribute names of its path (dashes replaced by
    underscores, a keyword followed by an underscore for the last name);
    the object found is a fresh endpoint object of the class chosen by the
    tag, holding the five parts as given, with no children. *)
Theorem add_then_descend t p1 p2 p3 p4 p5 self self' :
  add t p1 p2 p3 p4 p5 self = inr self' ->
  exists p,
    policy_of_tag t = Some p
    /\ descend self' (attr_path (elements [p1; p2; p3; p4; p5]))
       = Some (Node (EndpointObject p [p1; p2; p3; p4; p5]) []).
Proof.
  intros Ha. apply add_walk in Ha as [_ Hw]. by apply walk_descend in Hw.
Qed.

(** X24. Once a path has been added, adding the same path again, with
    whatever tag and parts that split into the same elements, raises the
    'duplicate name found' error. *)
Theorem add_twice_is_refused t p1 p2 p3 p4 p5 self self' t2 q1 q2 q3 q4 q5 :
  add t p1 p2 p3 p4 p5 self = inr self' ->
  elements [q1; q2; q3; q4; q5] = elements [p1; p2; p3; p4; p5] ->
  add t2 q1 q2 q3 q4 q5 self'
  = inl (duplicate_error (elements [p1; p2; p3; p4; p5])
           (List.last (elements [p1; p2; p3; p4; p5]) "")).
Proof.
  intros Ha Hq. apply add_walk in Ha as [Hne Hw].
  unfold add. rewrite Hq.
  destruct (elements [p1; p2; p3; p4; p5]) eqn:He; [done|].
  by apply (walk_again _ _ _ _ _ _ _ Hw).
Qed.

(** X25. [add] never removes or changes what is already in the tree:
    every object reachable by attribute names before the call is still
    reachable by the same names afterwards and is of the same kind (same
    class, same parts). *)
Theorem add_keeps_endpoints t p1 p2 p3 p4 p5 self self' names n :
  add t p1 p2 p3 p4 p5 self = inr self' ->
  descend self names = Some n ->
  exists n', descend self' names = Some n' /\ node_kind n' = node_kind n.
Proof.
  intros Ha Hd. apply add_walk in Ha as [_ Hw]. by eapply walk_keeps.
Qed.

(** ** Walks that stop *)

(** A walk that has come down to the object [n] ends as the walk from
    [n] ends, when that is with an error. *)
Lemma walk_prefix a pre rest name t parts branch n e :
  Forall plain pre ->
  descend branch (map dashes pre) = Some n ->
  walk a rest name t parts n = inl e ->
  walk a (pre ++ rest) name t parts branch = inl e.
Proof.
  intros Hpl. revert branch. induction Hpl as [|element pre Hu _ IH];
    intros branch Hd Hw; simpl in *.
  - by injection Hd as ->.
  - rewrite Hu.
    destruct (assoc (dashes element) (node_attrs branch)) as [c|] eqn:Hc;
      [|discriminate].
    rewrite (getattr_assoc _ _ _ Hc). by rewrite (IH _ Hd Hw).
Qed.

Lemma walk_missing a rest name t parts n element :
  plain element ->
  getattr n (dashes element) = Missing ->
  walk a (element :: rest) name t parts n = inl (missing_error element a).
Proof. intros Hel Hg. simpl. unfold plain in Hel. by rewrite Hel, Hg. Qed.

Lemma removelast_snoc {A} (l : list A) (x : A) : removelast (l ++ [x]) = l.
Proof. apply removelast_last. Qed.

Lemma last_snoc {A} (l : list A) (x d : A) : List.last (l ++ [x]) d = x.
Proof. apply last_last. Qed.

Lemma add_as_walk t p1 p2 p3 p4 p5 self front name :
  elements [p1; p2; p3; p4; p5] = front ++ [name] ->
  add t p1 p2 p3 p4 p5 self
  = walk (front ++ [name]) front name t [p1; p2; p3; p4; p5] self.
Proof.
  intros He. unfold add. rewrite He.
  rewrite removelast_snoc, last_snoc.
  destruct (front ++ [name]) eqn:E; [|done].
  by destruct front.
Qed.

(** X26. When the walk of [add] comes, after the elements [pre], to an
    object that has no attribute for the next element of the path, the
    call raises 'element ... missing when adding path ...', naming that
    element (as written in the path) and the whole path; parents are never
    created on the way. *)
Theorem add_needs_the_parents t p1 p2 p3 p4 p5 self pre element rest name n :
  elements [p1; p2; p3; p4; p5] = pre ++ element :: rest ++ [name] ->
  Forall plain pre -> plain element ->
  descend self (map dashes pre) = Some n ->
  getattr n (dashes element) = Missing ->
  add t p1 p2 p3 p4 p5 self
  = inl (missing_error element (elements [p1; p2; p3; p4; p5])).
Proof.
  intros He Hpre Hel Hd Hg.
  assert (He' : elements [p1; p2; p3; p4; p5] = (pre ++ element :: rest) ++ [name])
    by (rewrite He; by rewrite <- List.app_assoc).
  rewrite (add_as_walk t p1 p2 p3 p4 p5 self (pre ++ element :: rest) name He').
  rewrite <- He'.
  apply (walk_prefix _ pre (element :: rest) _ _ _ _ n); [done|done|].
  by apply walk_missing.
Qed.

(** X27. A name that the object at the end of the walk already answers
    to -- a child added before, or one of the methods of its class (get,
    patch, post, put, delete on an endpoint; add, api_list, api_from_web,
    api_from_openapi on the client) -- is refused with 'duplicate name
    found', whatever the tag. *)
Theorem add_refuses_taken_names t p1 p2 p3 p4 p5 self front name n :
  elements [p1; p2; p3; p4; p5] = front ++ [name] ->
  Forall plain front ->
  underscored (attr_name name) = false ->
  descend self (map dashes front) = Some n ->
  getattr n (attr_name name) <> Missing ->
  add t p1 p2 p3 p4 p5 self
  = inl (duplicate_error (elements [p1; p2; p3; p4; p5]) name).
Proof.
  intros He Hfront Hu Hd Hg.
  rewrite (add_as_walk t p1 p2 p3 p4 p5 self front name He), <- He.
  rewrite <- (app_nil_r front) at 1.
  apply (walk_prefix _ front [] _ _ _ _ n); [done|done|].
  simpl. unfold attach. rewrite Hu.
  by destruct (getattr n (attr_name name)).
Qed.

Lemma dashes_length s : String.length (dashes s) = String.length s.
Proof. induction s as [|c s IH]; simpl; [done|by rewrite IH]. Qed.

Lemma str_app_length (a b : string) :
  String.length (a +:+ b) = (String.length a + String.length b)%nat.
Proof. induction a as [|c a IH]; [done|]. rewrite app_cons. simpl. by rewrite IH. Qed.

(** X28. An endpoint whose last name is a Python keyword is stored under
    that name followed by an underscore, but the walk through it looks the
    name up as it is: once the endpoint [name] has been added to an object
    that has no attribute [name], adding [name/x] below it raises the
    'element ... missing' error. *)
Theorem keyword_endpoints_take_no_children t t2 name x self self' :
  iskeyword name = true ->
  elements [Some name; None; None; None; None] = [name] ->
  elements [Some name; Some x; None; None; None] = [name; x] ->
  plain name ->
  getattr self (dashes name) = Missing ->
  add t (Some name) None None None None self = inr self' ->
  add t2 (Some name) (Some x) None None None self'
  = inl (missing_error name [name; x]).
Proof.
  intros Hk He1 He2 Hpl Hg Ha.
  apply add_walk in Ha as [_ Hw]. simpl in Hw. rewrite He1 in Hw. simpl in Hw.
  apply attach_ok in Hw as (p & Hp & Hnew & ->).
  rewrite (add_as_walk t2 (Some name) (Some x) None None None _ [name] x He2).
  apply walk_missing; [done|].
  unfold getattr in *. simpl.
  assert (Hne : dashes name <> attr_name name).
  { unfold attr_name. rewrite Hk. intros Heq.
    apply (f_equal String.length) in Heq.
    rewrite dashes_length, str_app_length in Heq. simpl in Heq. lia. }
  rewrite assoc_set_ne by done.
  destruct (assoc (dashes name) (node_attrs self)); [done|].
  by destruct self.
Qed.

(** ** The listing *)

Lemma api_list_unfold k attrs :
  _api_list (Node k attrs) = list_loop (sort_by_name (map entry attrs)).
Proof.
  simpl. do 2 f_equal.
  induction attrs as [|[n a] attrs IH]; [done|]. simpl. by rewrite IH.
Qed.

Lemma flat_cons e entries : flat (e :: entries) = lines e ++ flat entries.
Proof. reflexivity. Qed.

Lemma good_hidden n kb : n <> "" -> shown n = false -> good (n, kb).
Proof. intros Hn Hs. split; [done|]. simpl. rewrite Hs. discriminate. Qed.

Lemma good_shown n k sub : n <> "" -> good (n, (k, ok sub)).
Proof. intros Hn. split; [done|]. intros _. by exists sub. Qed.

Lemma list_loop_cons n k below entries :
  n <> "" ->
  list_loop ((n, (k, below)) :: entries)
  = if shown n then
      match below with
      | inl e => inl e
      | inr sub =>
          match list_loop entries with
          | inl e => inl e
          | inr w => ok (own_entry k ++ sub ++ w)
          end
      end
    else list_loop entries.
Proof.
  intros Hn. destruct n as [|c n]; [done|]. unfold shown.
  cbv beta iota delta [list_loop]. fold list_loop.
  destruct (underscored (String c n)); [done|].
  by destruct (mem (String c n) verbs).
Qed.

Lemma list_loop_ok entries w :
  list_loop entries = ok w <-> Forall good entries /\ w = flat entries.
Proof.
  revert w. induction entries as [|[n [k below]] entries IH]; intros w.
  - simpl. unfold ok. split; [intros [= <-]; by split|by intros [_ ->]].
  - rewrite flat_cons.
    destruct (decide (n = "")) as [->|Hn].
    { split; [discriminate|intros [Hf _]].
      apply Forall_cons in Hf as [[Hn _] _]. by destruct Hn. }
    rewrite (list_loop_cons _ _ _ _ Hn). unfold lines. simpl fst. simpl snd.
    destruct (shown n) eqn:Hs.
    + destruct below as [e|sub].
      { split; [discriminate|intros [Hf _]].
        apply Forall_cons in Hf as [[_ Hsub] _]. simpl in Hsub.
        destruct (Hsub Hs) as [? ?]. discriminate. }
      destruct (list_loop entries) as [e|w0] eqn:Hl.
      { split; [discriminate|intros [Hf _]].
        apply Forall_cons in Hf as [_ Hf].
        assert (Hc : @inl exn (list string) e = ok (flat entries)) by (by apply IH).
        discriminate. }
      destruct (proj1 (IH w0) eq_refl) as [Hf ->].
      unfold ok. split.
      * intros [= <-]. split; [|by rewrite <- List.app_assoc].
        constructor; [|done]. by apply good_shown.
      * intros [_ ->]. by rewrite <- List.app_assoc.
    + rewrite IH. split; intros [Hf ->]; (split; [|done]).
      * constructor; [|done]. by apply good_hidden.
      * by apply Forall_cons in Hf as [_ Hf].
Qed.

Lemma insert_sorted_perm {A} (e : string * A) l : insert_sorted e l ≡ₚ e :: l.
Proof.
  induction l as [|e' l IH]; simpl; [done|].
  destruct (str_leb (fst e) (fst e')); [done|].
  rewrite IH. apply Permutation_swap.
Qed.

Lemma sort_by_name_perm {A} (l : list (string * A)) : sort_by_name l ≡ₚ l.
Proof.
  induction l as [|e l IH]; simpl; [done|].
  by rewrite insert_sorted_perm, IH.
Qed.

Lemma flat_perm l l' : l ≡ₚ l' -> flat l ≡ₚ flat l'.
Proof. intros Hp. unfold flat. by rewrite Hp. Qed.

(** The listing of an object, up to the order of the entries. *)
Lemma api_list_ok k attrs w :
  _api_list (Node k attrs) = ok w ->
  Forall good (map entry attrs) /\ w ≡ₚ flat (map entry attrs).
Proof.
  rewrite api_list_unfold. intros Hl. apply list_loop_ok in Hl as [Hf ->].
  split.
  - by rewrite <- (sort_by_name_perm (map entry attrs)).
  - apply flat_perm, sort_by_name_perm.
Qed.

Lemma api_list_good k attrs :
  Forall good (map entry attrs) ->
  exists w, _api_list (Node k attrs) = ok w /\ w ≡ₚ flat (map entry attrs).
Proof.
  intros Hf. rewrite api_list_unfold. eexists. split.
  - apply list_loop_ok. split; [|reflexivity].
    by rewrite (sort_by_name_perm (map entry attrs)).
  - apply flat_perm, sort_by_name_perm.
Qed.

Lemma set_attr_new x n attrs :
  assoc x attrs = None -> set_attr x n attrs = attrs ++ [(x, n)].
Proof.
  induction attrs as [|[y m] attrs IH]; simpl; [done|].
  destruct (str_eqb x y); [discriminate|]. intros Hx. by rewrite IH.
Qed.

Lemma set_attr_split x c n attrs :
  assoc x attrs = Some c ->
  exists l1 l2, attrs = l1 ++ (x, c) :: l2 /\ set_attr x n attrs = l1 ++ (x, n) :: l2.
Proof.
  induction attrs as [|[y m] attrs IH]; simpl; [discriminate|].
  destruct (str_eqb x y) eqn:E.
  - apply str_eqb_eq in E as <-. intros [= ->]. by exists [], attrs.
  - intros Hx. destruct (IH Hx) as (l1 & l2 & -> & ->).
    by exists ((y, m) :: l1), l2.
Qed.

Lemma flat_app l1 l2 : flat (l1 ++ l2) = flat l1 ++ flat l2.
Proof. unfold flat. by rewrite map_app, concat_app. Qed.

Lemma lines_shown n k sub :
  shown n = true -> lines (n, (k, ok sub)) = own_entry k ++ sub.
Proof. intros Hs. unfold lines. simpl fst. by rewrite Hs. Qed.

Lemma entry_leaf x k : entry (x, Node k []) = (x, (k, ok [])).
Proof. reflexivity. Qed.

Lemma walk_listing a rest name t parts branch branch' w p :
  walk a rest name t parts branch = inr branch' ->
  policy_of_tag t = Some p ->
  Forall (fun x => mem x verbs = false) (map dashes rest ++ [attr_name name]) ->
  attr_name name <> "" ->
  _api_list branch = ok w ->
  exists w', _api_list branch' = ok w'
             /\ w' ≡ₚ own_entry (EndpointObject p parts) ++ w.
Proof.
  revert branch branch' w. induction rest as [|element rest IH];
    intros [k attrs] branch' w Hw Hp Hv Hne Hl.
  - pose proof Hw as Hw'. simpl in Hw'. unfold attach in Hw'.
    destruct (underscored (attr_name name)) eqn:Hu; [discriminate|]. clear Hw'.
    apply attach_ok in Hw as (p' & Hp' & Hnew & ->).
    assert (p' = p) as -> by congruence.
    apply Forall_inv in Hv.
    assert (Hshown : shown (attr_name name) = true)
      by (unfold shown; by rewrite Hu, Hv).
    apply api_list_ok in Hl as [Hf Hperm].
    change (node_attrs (Node k attrs)) with attrs in *.
    change (node_kind (Node k attrs)) with k.
    rewrite (set_attr_new _ _ _ Hnew).
    destruct (api_list_good k (attrs ++ [(attr_name name, Node (EndpointObject p parts) [])]))
      as (w' & Hw' & Hperm').
    { rewrite map_app. apply Forall_app. split; [done|].
      constructor; [|done]. rewrite entry_leaf. by apply good_shown. }
    exists w'. split; [done|].
    rewrite Hperm', Hperm, map_app, flat_app.
    change (map entry [(attr_name name, Node (EndpointObject p parts) [])])
      with [entry (attr_name name, Node (EndpointObject p parts) [])].
    rewrite entry_leaf. rewrite flat_cons, (lines_shown _ _ _ Hshown).
    change (flat []) with (@nil string). rewrite !app_nil_r.
    apply Permutation_app_comm.
  - pose proof Hw as Hw'. simpl in Hw'.
    destruct (underscored (dashes element)) eqn:Hu; [discriminate|]. clear Hw'.
    apply walk_step in Hw as (c & c' & Hc & Hw & ->).
    change (node_attrs (Node k attrs)) with attrs in *.
    change (node_kind (Node k attrs)) with k.
    change (map dashes (element :: rest) ++ [attr_name name])
      with (dashes element :: (map dashes rest ++ [attr_name name])) in Hv.
    apply Forall_cons in Hv as [Hv0 Hv].
    pose proof (walk_kind _ _ _ _ _ _ _ Hw) as Hk.
    assert (Hshown : shown (dashes element) = true)
      by (unfold shown; by rewrite Hu, Hv0).
    destruct (set_attr_split _ _ c' _ Hc) as (l1 & l2 & -> & ->).
    apply api_list_ok in Hl as [Hf Hperm].
    rewrite map_app in Hf. apply Forall_app in Hf as [Hf1 Hf2].
    change (map entry ((dashes element, c) :: l2))
      with (entry (dashes element, c) :: map entry l2) in Hf2.
    apply Forall_cons in Hf2 as [[Hn Hsub] Hf2].
    destruct (Hsub Hshown) as [sub Hsubeq].
    change (snd (snd (entry (dashes element, c)))) with (_api_list c) in Hsubeq.
    destruct (IH _ _ _ Hw Hp Hv Hne Hsubeq) as (sub' & Hsub' & Hpsub).
    destruct (api_list_good k (l1 ++ (dashes element, c') :: l2)) as (w' & Hw' & Hperm').
    { rewrite map_app. apply Forall_app. split; [done|].
      constructor; [|done]. unfold entry. simpl fst. simpl snd. rewrite Hsub'.
      by apply good_shown. }
    exists w'. split; [done|].
    rewrite Hperm', Hperm, !map_app, !flat_app.
    change (map entry ((dashes element, c') :: l2))
      with (entry (dashes element, c') :: map entry l2).
    change (map entry ((dashes element, c) :: l2))
      with (entry (dashes element, c) :: map entry l2).
    rewrite !flat_cons.
    change (entry (dashes element, c'))
      with (dashes element, (node_kind c', _api_list c')).
    change (entry (dashes element, c))
      with (dashes element, (node_kind c, _api_list c)).
    rewrite Hsub', Hsubeq, Hk.
    rewrite !(lines_shown _ _ _ Hshown). rewrite Hpsub.
    set (A := flat (map entry l1)). set (B := flat (map entry l2)).
    set (O := own_entry (EndpointObject p parts)). set (K := own_entry (node_kind c)).
    rewrite (Permutation_app_comm A), (Permutation_app_comm A (_ ++ B)).
    rewrite <- !List.app_assoc.
    rewrite (Permutation_app_swap_app K O).
    rewrite (Permutation_app_swap_app O K). done.
Qed.

(** X29. After [add], [api_list] returns, order apart, the entries it
    returned before and in addition the path of the new endpoint (its
    non-empty parts joined by '/:id/', after a '/'), unless the endpoint is
    of the unused class, which is never shown; this for a path none of
    whose attribute names is one of the five verbs and whose last name is
    not empty. *)
Theorem add_extends_the_listing t p1 p2 p3 p4 p5 self self' w p :
  add t p1 p2 p3 p4 p5 self = inr self' ->
  policy_of_tag t = Some p ->
  Forall (fun x => mem x verbs = false) (attr_path (elements [p1; p2; p3; p4; p5])) ->
  attr_name (List.last (elements [p1; p2; p3; p4; p5]) "") <> "" ->
  api_list self = ok w ->
  exists w',
    api_list self' = ok w'
    /\ w' ≡ₚ (match p with VOID => [] | _ => [path_of [p1; p2; p3; p4; p5]] end) ++ w.
Proof.
  intros Ha Hp Hv Hne Hl. apply add_walk in Ha as [_ Hw].
  destruct (walk_listing _ _ _ _ _ _ _ _ _ Hw Hp Hv Hne Hl) as (w' & Hw' & Hperm).
  exists w'. split; [done|]. rewrite Hperm. by destruct p.
Qed.

End WithKeywords.

(** ** Sample runs *)

Lemma with_dns_built :
  add "AUTH" (Some "zones") (Some "dns_records") None None None with_zones
  = inr with_dns.
Proof. vm_compute. reflexivity. Qed.

Lemma with_import_built :
  add "AUTH" (Some "zones") (Some "dns_records/import") None None None with_dns
  = inr with_import.
Proof. vm_compute. reflexivity. Qed.

Lemma add_then_descend_witness :
  descend with_dns ["zones"; "dns_records"]
  = Some (Node (EndpointObject AUTH [Some "zones"; Some "dns_records"; None; None; None])
            []).
Proof.
  destruct (add_then_descend _ _ _ _ _ _ _ _ with_dns_built) as (p & Hp & Hd).
  vm_compute in Hp. injection Hp as <-. exact Hd.
Defined.

Lemma add_twice_is_refused_witness :
  add "OPEN" (Some "zones/dns_records") None None None None with_dns
  = inl (Raised (api_error 0 "api load: duplicate name found: zones/**dns_records**")).
Proof.
  rewrite (add_twice_is_refused _ _ _ _ _ _ _ _ "OPEN" (Some "zones/dns_records")
             None None None None with_dns_built eq_refl).
  reflexivity.
Defined.

Lemma add_keeps_endpoints_witness :
  exists n, descend with_import ["zones"; "dns_records"] = Some n
            /\ node_kind n
               = EndpointObject AUTH [Some "zones"; Some "dns_records"; None; None; None].
Proof.
  assert (Hd : descend with_dns ["zones"; "dns_records"]
               = Some (Node (EndpointObject AUTH
                               [Some "zones"; Some "dns_records"; None; None; None]) []))
    by (vm_compute; reflexivity).
  exact (add_keeps_endpoints _ _ _ _ _ _ _ _ ["zones"; "dns_records"] _
           with_import_built Hd).
Defined.

Lemma add_needs_the_parents_witness :
  add "AUTH" (Some "accounts") (Some "load-balancers/pools") None None None with_dns
  = inl (Raised (api_error 0
           "api load: element **accounts** missing when adding path /accounts/load-balancers/pools")).
Proof.
  rewrite (add_needs_the_parents "AUTH" (Some "accounts") (Some "load-balancers/pools")
             None None None with_dns [] "accounts" ["load-balancers"] "pools" with_dns
             eq_refl ltac:(constructor) eq_refl eq_refl eq_refl).
  reflexivity.
Defined.

Lemma add_refuses_taken_names_witness :
  add "AUTH" (Some "zones") (Some "get") None None None with_dns
  = inl (Raised (api_error 0 "api load: duplicate name found: zones/**get**")).
Proof.
  assert (Hd : descend with_dns (map dashes ["zones"])
               = Some (or_empty (inr (Node (EndpointObject AUTH
                                              [Some "zones"; None; None; None; None])
                                        (node_attrs (default empty_client
                                           (descend with_dns ["zones"])))))))
    by (vm_compute; reflexivity).
  rewrite (add_refuses_taken_names "AUTH" (Some "zones") (Some "get") None None None
             with_dns ["zones"] "get" _ eq_refl
             ltac:(repeat constructor) eq_refl Hd ltac:(vm_compute; discriminate)).
  reflexivity.
Defined.

Lemma keyword_endpoints_take_no_children_witness :
  add "AUTH" (Some "import") (Some "status") None None None
    (or_empty (add "AUTH" (Some "import") None None None None empty_client))
  = inl (Raised (api_error 0
           "api load: element **import** missing when adding path /import/status")).
Proof.
  assert (Ha : add "AUTH" (Some "import") None None None None empty_client
               = inr (or_empty (add "AUTH" (Some "import") None None None None
                                  empty_client))) by (vm_compute; reflexivity).
  assert (Hk : iskeyword "import" = true) by (vm_compute; reflexivity).
  rewrite (keyword_endpoints_take_no_children "AUTH" "AUTH" "import" "status"
             empty_client _ Hk eq_refl eq_refl eq_refl eq_refl Ha).
  reflexivity.
Defined.

Lemma add_extends_the_listing_witness :
  exists w, api_list with_dns = ok w /\ w ≡ₚ ["/zones/:id/dns_records"; "/zones"].
Proof.
  assert (Hl : api_list with_zones = ok ["/zones"]) by (vm_compute; reflexivity).
  destruct (add_extends_the_listing _ _ _ _ _ _ _ _ _ AUTH with_dns_built eq_refl
              ltac:(repeat constructor) ltac:(vm_compute; discriminate) Hl)
    as (w & Hw & Hperm).
  exists w. split; [exact Hw|exact Hperm].
Defined.

End TreeTheory.

(* ===================================================================== *)
(** * More on requests: certificates, open endpoints, the transport *)
(* ===================================================================== *)

Module RequestTheory.
Import PyValues V4Base Endpoints Spec Demo Samples More Basics AuthTheory PipelineTheory
  HeadersTheory.
Local Open Scope py_scope.

Lemma sent_request {A} (tr : list A) (x y : A) : tr ++ [x] = tr ++ [y] -> x = y.
Proof. by intros [_ ->]%app_inj_tail. Qed.

Section WithPython.
Context `{Python}.

Variable self : v4base.
Variable method : string.
Variables parts identifiers : list (option string).
Variable params : option (list (string * string)).
Variable data : option pydata.
Variable files : option (list (string * pyfile)).

(** ** One request, and which *)

Lemma call_network_sends headers tr :
  let out := _call_network self method headers parts identifiers params data files tr in
  (exists e, out = (raise e, tr)
             /\ (build_url self method parts identifiers data = raise e
                 \/ merge_files files data = raise e))
  \/ (exists url fd,
        build_url self method parts identifiers data = ok url
        /\ merge_files files data = ok fd
        /\ snd out = tr ++ [request_of method headers params url fd]).
Proof.
  simpl.
  destruct (build_url self method parts identifiers data) as [e|url] eqn:Hu.
  { left. exists e. split; [|by left].
    unfold _call_network, mbind, mlift. by rewrite Hu. }
  destruct (merge_files files data) as [e|fd] eqn:Hf.
  { left. exists e. split; [|by right].
    unfold _call_network, mbind, mlift. by rewrite Hu, Hf. }
  right. exists url, fd. split; [done|]. split; [done|].
  by rewrite (call_network_reaches self method headers parts identifiers params
                data files tr url fd Hu Hf).
Qed.

(** X3. A call sends at most one request.  It sends none exactly when
    the URL cannot be built or body and files cannot be merged, and the
    call then raises that error; otherwise the one request carries the
    method, the headers and the query parameters it was given and the URL
    that was built -- in the wrapped and in the unwrapped flow alike. *)
Theorem one_request_per_call headers tr :
  (exists e,
      (build_url self method parts identifiers data = raise e
       \/ merge_files files data = raise e)
      /\ _call self method headers parts identifiers params data files tr
         = (raise e, tr)
      /\ _call_unwrapped self method headers parts identifiers params data files tr
         = (raise e, tr))
  \/ (exists url fd,
        build_url self method parts identifiers data = ok url
        /\ merge_files files data = ok fd
        /\ snd (_call self method headers parts identifiers params data files tr)
           = tr ++ [request_of method headers params url fd]
        /\ snd (_call_unwrapped self method headers parts identifiers params data
                  files tr)
           = tr ++ [request_of method headers params url fd]).
Proof.
  destruct (call_network_sends headers tr) as [(e & Hn & He)|(url & fd & Hu & Hf & Hs)].
  - left. exists e. split; [done|].
    pose proof (raw_network_raises _ _ _ _ _ _ _ _ _ _ _ Hn) as Hraw. split.
    + by rewrite (call_after_raw _ _ _ _ _ _ _ _ _ _ _ Hraw).
    + by rewrite (call_unwrapped_after_raw _ _ _ _ _ _ _ _ _ _ _ Hraw).
  - right. exists url, fd. split; [done|]. split; [done|].
    by rewrite call_trace, call_unwrapped_trace.
Qed.

(** X4. What the transport raises: a [requests.RequestException] comes
    out of every flow as an API error with code 0 and the exception as
    message; any other exception comes out unchanged.  Either way the
    request has been handed to the transport. *)
Theorem transport_exceptions headers tr url fd :
  build_url self method parts identifiers data = ok url ->
  merge_files files data = ok fd ->
  let req := request_of method headers params url fd in
  (forall msg, network self req = RequestException msg ->
     _call self method headers parts identifiers params data files tr
       = (raise (CloudFlareAPIError (PyInt 0) (PyStr msg) None), tr ++ [req])
     /\ _call_unwrapped self method headers parts identifiers params data files tr
       = (raise (CloudFlareAPIError (PyInt 0) (PyStr msg) None), tr ++ [req]))
  /\ (forall name, network self req = OtherException name ->
     _call self method headers parts identifiers params data files tr
       = (raise (TransportRaised name), tr ++ [req])
     /\ _call_unwrapped self method headers parts identifiers params data files tr
       = (raise (TransportRaised name), tr ++ [req])).
Proof.
  intros Hu Hf req.
  pose proof (call_network_reaches self method headers parts identifiers params
                data files tr url fd Hu Hf) as Hn. fold req in Hn.
  split; intros x Hx; rewrite Hx in Hn;
    pose proof (raw_network_raises _ _ _ _ _ _ _ _ _ _ _ Hn) as Hraw; split.
  - by rewrite (call_after_raw _ _ _ _ _ _ _ _ _ _ _ Hraw).
  - by rewrite (call_unwrapped_after_raw _ _ _ _ _ _ _ _ _ _ _ Hraw).
  - by rewrite (call_after_raw _ _ _ _ _ _ _ _ _ _ _ Hraw).
  - by rewrite (call_unwrapped_after_raw _ _ _ _ _ _ _ _ _ _ _ Hraw).
Qed.

(** ** Body and files *)

(** X5. When files and a non-empty body are both given, the request
    carries no body: for a mapping the fields of the body follow the files
    in one multipart tuple, each file with its file name and each body
    field without one; for a script the call raises TypeError and sends
    nothing.  In every other case files and body go out as given. *)
Theorem files_and_body_are_merged headers tr :
  (files_truthy files = true -> data_truthy data = true ->
     (forall d, data = Some (DDict d) ->
        forall req,
          snd (_call_network self method headers parts identifiers params data files tr)
            = tr ++ [req] ->
          req_data req = None
          /\ req_files req
             = Some (FilesTuple
                       (map (fun f => (fst f, (Some (file_name (snd f)), PartFile (snd f))))
                            (default [] files)
                        ++ map (fun kv => (fst kv, (None, PartValue (snd kv)))) d)))
     /\ (forall s, data = Some (DStr s) ->
          exists e,
            _call_network self method headers parts identifiers params data files tr
              = (raise e, tr)
            /\ (forall url,
                  build_url self method parts identifiers data = ok url ->
                  e = TypeError)))
  /\ (files_truthy files && data_truthy data = false ->
      forall req,
        snd (_call_network self method headers parts identifiers params data files tr)
          = tr ++ [req] ->
        req_data req = data /\ req_files req = FilesDict <$> files).
Proof.
  split.
  - intros Hft Hdt. split.
    + intros d Hd req Hs.
      destruct (call_network_sends headers tr) as [(e & Hn & _)|(url & fd & Hu & Hf & Hs')].
      { rewrite Hn in Hs. simpl in Hs. by apply nothing_sent in Hs. }
      rewrite Hs' in Hs. apply sent_request in Hs as <-.
      unfold merge_files in Hf. rewrite Hft, Hdt, Hd in Hf. simpl in Hf.
      by injection Hf as <-.
    + intros s Hd.
      destruct (call_network_sends headers tr) as [(e & Hn & He)|(url & fd & Hu & Hf & Hs')].
      * exists e. split; [done|]. intros url Hu.
        destruct He as [He|He]; [rewrite Hu in He; discriminate|].
        unfold merge_files in He. rewrite Hft, Hdt, Hd in He. simpl in He.
        by injection He as <-.
      * unfold merge_files in Hf. rewrite Hft, Hdt, Hd in Hf. discriminate.
  - intros Hno req Hs.
    destruct (call_network_sends headers tr) as [(e & Hn & _)|(url & fd & Hu & Hf & Hs')].
    { rewrite Hn in Hs. simpl in Hs. by apply nothing_sent in Hs. }
    rewrite Hs' in Hs. apply sent_request in Hs as <-.
    unfold merge_files in Hf. rewrite Hno in Hf. by injection Hf as <-.
Qed.

(** ** Credentials on the wire *)

(** X1. The certificate token resolves like the other credentials (the
    value for the method, else the generic one).  Without one,
    [do_certauth] raises 'no cert token defined' and sends nothing; with
    one, the request it sends carries exactly three headers -- User-Agent,
    Content-Type and X-Auth-User-Service-Key with the token -- and so none
    of Authorization, X-Auth-Email and X-Auth-Key, whatever email, key or
    token the client is configured with. *)
Theorem cert_token_resolution tr :
  let c := credential self "certtoken" method (api_certtoken self) in
  (c = VNone ->
     do_certauth self method parts identifiers params data files tr
     = (raise (api_error 0 "no cert token defined"), tr))
  /\ (c <> VNone ->
      forall req,
        snd (do_certauth self method parts identifiers params data files tr)
          = tr ++ [req] ->
        req_headers req
          = <["X-Auth-User-Service-Key" := c]> (_add_headers self ∅)
        /\ req_headers req !! "Authorization" = None
        /\ req_headers req !! "X-Auth-Email" = None
        /\ req_headers req !! "X-Auth-Key" = None).
Proof.
  intros c. split.
  - intros Hc. unfold do_certauth, mbind, mlift, _add_certtoken_headers.
    fold c. by rewrite Hc.
  - intros Hc req Hs.
    assert (Hh : req_headers req
                 = <["X-Auth-User-Service-Key" := c]> (_add_headers self ∅)).
    { destruct (do_certauth_trace self method parts identifiers params data files tr)
        as [Ht|(r & Ht & hdrs & Ha & Hr)].
      - rewrite Ht in Hs. by apply nothing_sent in Hs.
      - rewrite Ht in Hs. apply sent_request in Hs as ->.
        rewrite Hr. unfold _add_certtoken_headers in Ha. fold c in Ha.
        apply is_None_false in Hc. rewrite Hc in Ha. by injection Ha as <-. }
    split; [exact Hh|]. rewrite Hh. unfold _add_headers.
    by rewrite !lookup_insert_ne.
Qed.

End WithPython.

Section Open.
Context `{Python}.

(** X2. On an endpoint without authentication only [get] reaches the
    network, and the request it sends is a GET that carries exactly the
    User-Agent and the application/json Content-Type headers: no
    credential of the client is ever sent, and no files. *)
Theorem open_endpoints_send_no_credentials (e : endpoint) (v : verb)
    (a : call_args) (tr : list request) (req : request) :
  ep_policy e = OPEN ->
  snd (invoke e v a tr) = tr ++ [req] ->
  v = Get
  /\ req_method req = "GET"
  /\ req_headers req
     = {[ "Content-Type" := VStr "application/json";
          "User-Agent" := VStr (user_agent (_base e)) ]}
  /\ req_headers req !! "Authorization" = None
  /\ req_headers req !! "X-Auth-Key" = None
  /\ req_files req = None.
Proof.
  intros Hp Hs. unfold invoke in Hs. rewrite Hp in Hs.
  destruct v; try (simpl in Hs; by apply nothing_sent in Hs).
  split; [done|]. unfold do_no_auth in Hs. rewrite call_trace in Hs.
  destruct (call_network_sends (_base e) "GET" (_parts e) (identifiers_of a)
              (params a) (data a) None (_add_headers (_base e) ∅) tr)
    as [(err & Hn & _)|(url & fd & Hu & Hf & Hs')].
  { rewrite Hn in Hs. simpl in Hs. by apply nothing_sent in Hs. }
  rewrite Hs' in Hs. apply sent_request in Hs as <-.
  unfold merge_files in Hf. simpl in Hf. injection Hf as <-.
  assert (Hh : _add_headers (_base e) ∅
               = {[ "Content-Type" := VStr "application/json";
                    "User-Agent" := VStr (user_agent (_base e)) ]}).
  { unfold _add_headers. by rewrite insert_empty. }
  simpl. rewrite Hh. repeat split;
    by rewrite lookup_insert_ne, lookup_singleton_ne.
Qed.

End Open.

(** ** The declared content type *)

Lemma before_last_none c s : has_char c s = false -> before_last c s = None.
Proof.
  induction s as [|x s IH]; simpl; [done|].
  intros [Hx Hs]%orb_false_iff. rewrite (IH Hs). by rewrite Hx.
Qed.

Lemma before_last_app c t p :
  has_char c p = false ->
  before_last c (t +:+ String c p) = Some t.
Proof.
  intros Hp. induction t as [|x t IH].
  - rewrite app_empty_l. simpl. rewrite (before_last_none _ _ Hp).
    by rewrite bool_decide_eq_true_2.
  - rewrite app_cons. simpl. by rewrite IH.
Qed.

Lemma lower_ascii_semicolon x :
  bool_decide (lower_ascii x = ";"%char) = bool_decide (x = ";"%char).
Proof. destruct x as [[] [] [] [] [] [] [] []]; reflexivity. Qed.

Lemma lower_ascii_space x : is_space (lower_ascii x) = is_space x.
Proof. destruct x as [[] [] [] [] [] [] [] []]; reflexivity. Qed.

Lemma lower_ascii_idem x : lower_ascii (lower_ascii x) = lower_ascii x.
Proof. destruct x as [[] [] [] [] [] [] [] []]; reflexivity. Qed.

Lemma lower_idem s : lower (lower s) = lower s.
Proof. induction s as [|x s IH]; simpl; [done|]. by rewrite lower_ascii_idem, IH. Qed.

Lemma before_last_lower t :
  before_last ";" (lower t) = lower <$> before_last ";" t.
Proof.
  induction t as [|x t IH]; simpl; [done|]. rewrite IH.
  destruct (before_last ";" t); simpl; [done|].
  rewrite lower_ascii_semicolon. by destruct (bool_decide _).
Qed.

Lemma lstrip_lower s : lstrip (lower s) = lower (lstrip s).
Proof.
  induction s as [|x s IH]; simpl; [done|]. rewrite lower_ascii_space.
  by destruct (is_space x).
Qed.

Lemma rstrip_lower s : rstrip (lower s) = lower (rstrip s).
Proof.
  induction s as [|x s IH]; simpl; [done|]. rewrite IH, lower_ascii_space.
  destruct (rstrip s); simpl; [by destruct (is_space x)|done].
Qed.

(** X6. The type a response is handled as: application/octet-stream when
    the Content-Type header is missing; otherwise the header in lower case
    and without surrounding white space, cut at its last ';' -- so one
    parameter (a charset, say) is dropped -- and the same whatever the case
    the header is written in. *)
Theorem content_type_parameters_and_case (status : Z) (body : content) :
  response_type_of {| content_type_header := None; status_code := status;
                      resp_content := body |}
    = "application/octet-stream"
  /\ (forall t p, has_char ";" p = false ->
        response_type_of (reply (t +:+ ";" +:+ p) status body) = lower (strip t))
  /\ (forall t, has_char ";" t = false ->
        response_type_of (reply t status body) = lower (strip t))
  /\ (forall t t', lower t = lower t' ->
        response_type_of (reply t status body)
        = response_type_of (reply t' status body)).
Proof.
  split; [reflexivity|]. split; [|split].
  - intros t p Hp. unfold response_type_of, reply. simpl.
    change (t +:+ ";" +:+ p) with (t +:+ String ";" p).
    by rewrite before_last_app.
  - intros t Ht. unfold response_type_of, reply. simpl.
    by rewrite before_last_none.
  - assert (Hl : forall t, response_type_of (reply t status body)
                           = response_type_of (reply (lower t) status body)).
    { intros t. unfold response_type_of, reply. simpl.
      rewrite before_last_lower.
      destruct (before_last ";" t) as [q|]; simpl;
        unfold strip; by rewrite lstrip_lower, rstrip_lower, lower_idem. }
    intros t t' Heq. by rewrite (Hl t), (Hl t'), Heq.
Qed.

(** ** Sample runs *)

Lemma cert_token_resolution_witness :
  req_headers cert_request !! "X-Auth-User-Service-Key" = Some (VStr "v1.0-e24fd090")
  /\ req_headers cert_request !! "X-Auth-Key" = None
  /\ req_headers cert_request !! "X-Auth-Email" = None.
Proof.
  pose proof (cert_token_resolution cert_client "GET" certificates no_ids None None
                None []) as [_ Hsome].
  assert (Hs : snd (do_certauth cert_client "GET" certificates no_ids None None None [])
               = [] ++ [cert_request]) by (vm_compute; reflexivity).
  assert (Hc : credential cert_client "certtoken" "GET" (api_certtoken cert_client)
               <> VNone) by (vm_compute; discriminate).
  destruct (Hsome Hc cert_request Hs) as (Hh & _ & He & Hk).
  split; [|by split]. rewrite Hh. vm_compute. reflexivity.
Defined.

Lemma open_endpoints_send_no_credentials_witness :
  ep_policy ips = OPEN
  /\ req_method ips_request = "GET"
  /\ req_headers ips_request !! "Authorization" = None.
Proof.
  split; [reflexivity|].
  assert (Hs : snd (invoke ips Get no_args []) = [] ++ [ips_request])
    by (vm_compute; reflexivity).
  destruct (open_endpoints_send_no_credentials ips Get no_args [] ips_request
              eq_refl Hs) as (_ & Hm & _ & Ha & _).
  by split.
Defined.

Lemma transport_exceptions_witness :
  _call offline_client "GET" ∅ zones no_ids None None None []
  = (raise (CloudFlareAPIError (PyInt 0) (PyStr "Max retries exceeded") None),
     [request_of "GET" ∅ None zones_url (None, None)]).
Proof.
  pose proof (transport_exceptions offline_client "GET" zones no_ids None None None
                ∅ [] zones_url (None, None) eq_refl eq_refl) as [Hreq _].
  by destruct (Hreq "Max retries exceeded" eq_refl) as [Hcall _].
Defined.

Lemma files_and_body_are_merged_witness :
  req_data form_request = None
  /\ req_files form_request
     = Some (FilesTuple
               [("file", (Some "worker.wasm",
                          PartFile {| file_name := "worker.wasm"; file_bytes := "abc" |}));
                ("metadata", (None, PartValue (PyStr "{}")))]).
Proof.
  pose proof (files_and_body_are_merged worker_client "POST" workers worker_ids
                None form upload ∅ []) as [Hboth _].
  destruct (Hboth eq_refl eq_refl) as [Hdict _].
  assert (Hs : snd (_call_network worker_client "POST" ∅ workers worker_ids None
                      form upload []) = [] ++ [form_request])
    by (vm_compute; reflexivity).
  exact (Hdict _ eq_refl form_request Hs).
Defined.

Lemma content_type_parameters_and_case_witness :
  response_type_of (reply ("Application/JSON" +:+ ";" +:+ " charset=UTF-8") 200
                      (CBytes "{}"))
  = "application/json".
Proof.
  pose proof (content_type_parameters_and_case 200 (CBytes "{}")) as (_ & Hp & _).
  rewrite Hp; [reflexivity|reflexivity].
Defined.

End RequestTheory.

(* ===================================================================== *)
(** * More on responses: normalisation, sanitisation, raising, unwrapping *)
(* ===================================================================== *)

Module ResponseTheory.
Import PyValues V4Base Spec Demo Samples More Basics PipelineTheory.
Local Open Scope py_scope.

Lemma dict_has_set_eq k v d : dict_has k (dict_set k v d) = true.
Proof. unfold dict_has. by rewrite dict_get_set_eq. Qed.

Lemma dict_has_set_ne k k' v d : k <> k' -> dict_has k (dict_set k' v d) = dict_has k d.
Proof. intros Hne. unfold dict_has. by rewrite dict_get_set_ne. Qed.

Lemma dict_has_get k d : dict_has k d = false -> dict_get k d = None.
Proof. unfold dict_has. by destruct (dict_get k d). Qed.

Lemma dict_get_has k d v : dict_get k d = Some v -> dict_has k d = true.
Proof. unfold dict_has. by intros ->. Qed.

Lemma splitlines_go_nonempty cur s :
  cur <> "" \/ s <> "" -> splitlines_go cur s <> [].
Proof.
  revert cur. induction s as [|c s IH]; intros cur Hne.
  - simpl. destruct cur; [by destruct Hne|done].
  - assert (Hcur : cur +:+ String c "" <> "")
      by (destruct cur; [done|by rewrite app_cons]).
    simpl. repeat case_match; try done; apply IH; by left.
Qed.

Lemma splitlines_nonempty s : s <> "" -> splitlines s <> [].
Proof. intros Hs. apply splitlines_go_nonempty. by right. Qed.

Section WithPython.
Context `{Python}.

(** ** The shape of a normalised response *)

(** X7. Whatever the content type, the status and the body, a normalised
    response is a dictionary -- except for an application/json body read as
    newline-delimited JSON, which is a non-empty list. *)
Theorem normalise_shape rtype code body v :
  normalise rtype code body = ok v ->
  is_dict v = true
  \/ (rtype = "application/json" /\ exists l, v = PyList l /\ l <> []).
Proof.
  unfold normalise, by_code.
  destruct (str_eqb rtype "application/json") eqn:Hj.
  - apply str_eqb_eq in Hj as ->.
    destruct (decoded body) as [e|text]; simpl; [discriminate|].
    destruct (json_loads text) as [j|].
    + intros [= <-]. left. by destruct (is_dict j) eqn:E.
    + destruct (str_eqb text "") eqn:Ht.
      * intros [= <-]. left. by destruct (code =? codes_ok).
      * destruct (mapM json_loads (splitlines text)) as [r|] eqn:Hm; [|discriminate].
        intros [= <-]. right. split; [done|]. exists r. split; [done|].
        intros ->. apply mapM_Some_1 in Hm. apply Forall2_nil_inv_r in Hm.
        apply (splitlines_nonempty text); [|done].
        intros ->. by rewrite str_eqb_refl in Ht.
  - intros Hn. left.
    repeat match type of Hn with
           | (if ?b then _ else _) = _ => destruct b
           | rbind ?m _ = _ => destruct m; simpl in Hn
           | match ?o with Some _ => _ | None => _ end = _ => destruct o
           end; try discriminate; injection Hn as <-;
      repeat match goal with
             | |- context [if ?b then _ else _] => destruct b eqn:?
             end; try done.
    all: match goal with
         | Hd : dict_without_success ?p = false |- _ => by destruct p
         end.
Qed.

(** X8. In the [_call] flow a response that is a list (newline-delimited
    JSON) always ends in a TypeError: the sanitisation and the success
    test index it with a string. *)
Theorem list_response_breaks_call (self : v4base) (l : list pyobj) :
  after_raw self (PyList l) = raise TypeError.
Proof.
  unfold after_raw, sanitise. simpl.
  destruct (existsb (is_the_str "success") l); simpl; [done|].
  destruct (existsb (is_the_str "errors") l); simpl; [done|].
  by destruct (existsb (is_the_str "result") l).
Qed.

(** ** Bodies that are wrapped by status *)

Lemma after_raw_by_code self code r :
  after_raw self (by_code code r)
  = if code =? codes_ok then ok (returned self r None)
    else raise (api_error 99998 "").
Proof.
  unfold by_code, after_raw, returned.
  destruct (code =? codes_ok); [|reflexivity].
  simpl. unfold unwrap. simpl. by destruct (cfg_truthy (raw self)).
Qed.

Lemma normalise_opaque rtype code body :
  opaque rtype ->
  normalise rtype code body = ok (by_code code (PyStr (str_of_content body))).
Proof.
  intros (Hj & Hp & Ho). unfold normalise.
  rewrite (str_eqb_ne _ _ Hj), (str_eqb_ne _ _ Hp), (str_eqb_ne _ _ Ho). simpl.
  by repeat case_match.
Qed.

Variable self : v4base.
Variable method : string.
Variable headers : headers_t.
Variables parts identifiers : list (option string).
Variable params : option (list (string * string)).
Variable data : option pydata.
Variable files : option (list (string * pyfile)).

Lemma call_after_network tr tr' rtype code body :
  _call_network self method headers parts identifiers params data files tr
    = (ok (rtype, code, body), tr') ->
  _call self method headers parts identifiers params data files tr
    = (rbind (normalise rtype code body) (after_raw self), tr').
Proof.
  intros Hn. apply raw_after_network in Hn.
  by rewrite (call_after_raw _ _ _ _ _ _ _ _ _ _ _ Hn).
Qed.

Lemma call_unwrapped_after_network tr tr' rtype code body :
  _call_network self method headers parts identifiers params data files tr
    = (ok (rtype, code, body), tr') ->
  _call_unwrapped self method headers parts identifiers params data files tr
    = (normalise rtype code body, tr').
Proof.
  intros Hn. apply raw_after_network in Hn.
  by rewrite (call_unwrapped_after_raw _ _ _ _ _ _ _ _ _ _ _ Hn).
Qed.

(** X9. A body whose declared type is none of application/json,
    text/plain and application/octet-stream (a script, HTML, anything
    else) is never decoded nor parsed: it is taken as [str(body)] and
    wrapped by status.  [_call] then returns that text at status 200, and
    at any other status raises an API error with code 99998 and an empty
    message, the text being dropped. *)
Theorem opaque_body tr tr' rtype code body :
  _call_network self method headers parts identifiers params data files tr
    = (ok (rtype, code, body), tr') ->
  opaque rtype ->
  normalise rtype code body = ok (by_code code (PyStr (str_of_content body)))
  /\ (code = 200 ->
      _call self method headers parts identifiers params data files tr
      = (ok (returned self (PyStr (str_of_content body)) None), tr'))
  /\ (code <> 200 ->
      _call self method headers parts identifiers params data files tr
      = (raise (api_error 99998 ""), tr')).
Proof.
  intros Hn Ho. pose proof (normalise_opaque rtype code body Ho) as Hnorm.
  split; [done|].
  rewrite (call_after_network _ _ _ _ _ Hn), Hnorm. simpl.
  rewrite after_raw_by_code. split.
  - by intros ->.
  - intros Hc. by rewrite (proj2 (Z.eqb_neq code codes_ok)).
Qed.

(** X10. A text/plain or application/octet-stream body that is not JSON
    is kept as text: [_call] returns it at status 200 and raises the API
    error 99998 with an empty message at any other status. *)
Theorem text_body_that_is_not_json tr tr' rtype code body text :
  _call_network self method headers parts identifiers params data files tr
    = (ok (rtype, code, body), tr') ->
  rtype = "text/plain" \/ rtype = "application/octet-stream" ->
  decoded body = ok text ->
  json_loads text = None ->
  normalise rtype code body = ok (by_code code (PyStr text))
  /\ (code = 200 ->
      _call self method headers parts identifiers params data files tr
      = (ok (returned self (PyStr text) None), tr'))
  /\ (code <> 200 ->
      _call self method headers parts identifiers params data files tr
      = (raise (api_error 99998 ""), tr')).
Proof.
  intros Hn Hty Hd Hj.
  assert (Hnorm : normalise rtype code body = ok (by_code code (PyStr text))).
  { unfold normalise. destruct Hty as [-> | ->].
    - rewrite (str_eqb_ne "text/plain" "application/json") by done.
      rewrite (str_eqb_ne "text/plain" "application/octet-stream") by done.
      rewrite str_eqb_refl, Hd. simpl. by rewrite Hj.
    - rewrite (str_eqb_ne "application/octet-stream" "application/json") by done.
      rewrite str_eqb_refl.
      destruct (is_bytes body); simpl; rewrite ?Hd; simpl; rewrite ?Hj; done. }
  split; [done|].
  rewrite (call_after_network _ _ _ _ _ Hn), Hnorm. simpl.
  rewrite after_raw_by_code. split.
  - by intros ->.
  - intros Hc. by rewrite (proj2 (Z.eqb_neq code codes_ok)).
Qed.

(** X11. An application/json or text/plain body that parses to a JSON
    value other than an object (an array, a string, a number, null) is
    wrapped as a success whatever the status: [_call] returns the value
    even at status 404. *)
Theorem bare_json_is_success tr tr' rtype code body text v :
  _call_network self method headers parts identifiers params data files tr
    = (ok (rtype, code, body), tr') ->
  rtype = "application/json" \/ rtype = "text/plain" ->
  decoded body = ok text ->
  json_loads text = Some v ->
  is_dict v = false ->
  normalise rtype code body = ok (PyDict [("success", PyBool true); ("result", v)])
  /\ _call self method headers parts identifiers params data files tr
     = (ok (returned self v None), tr').
Proof.
  intros Hn Hty Hd Hj Hv.
  assert (Hnorm : normalise rtype code body
                  = ok (PyDict [("success", PyBool true); ("result", v)])).
  { unfold normalise. destruct Hty as [-> | ->].
    - rewrite str_eqb_refl, Hd. simpl. by rewrite Hj, Hv.
    - rewrite (str_eqb_ne "text/plain" "application/json") by done.
      rewrite (str_eqb_ne "text/plain" "application/octet-stream") by done.
      rewrite str_eqb_refl, Hd. simpl. by rewrite Hj, Hv. }
  split; [done|].
  rewrite (call_after_network _ _ _ _ _ Hn), Hnorm. simpl.
  unfold after_raw, returned, unwrap. simpl. by destruct (cfg_truthy (raw self)).
Qed.

(** X12. Bytes that are not well-formed UTF-8, under a content type that
    is decoded (application/json, text/plain, application/octet-stream),
    make the call raise UnicodeDecodeError, in the wrapped and in the
    unwrapped flow. *)
Theorem invalid_utf8_raises tr tr' rtype code b :
  _call_network self method headers parts identifiers params data files tr
    = (ok (rtype, code, CBytes b), tr') ->
  parsed rtype ->
  utf8_valid b = false ->
  _call self method headers parts identifiers params data files tr
    = (raise UnicodeDecodeError, tr')
  /\ _call_unwrapped self method headers parts identifiers params data files tr
    = (raise UnicodeDecodeError, tr').
Proof.
  intros Hn Hty Hb.
  assert (Hnorm : normalise rtype code (CBytes b) = raise UnicodeDecodeError).
  { unfold normalise, decoded, decode_utf8. rewrite Hb.
    destruct Hty as [-> | [-> | ->]].
    - by rewrite str_eqb_refl.
    - rewrite (str_eqb_ne "text/plain" "application/json") by done.
      rewrite (str_eqb_ne "text/plain" "application/octet-stream") by done.
      by rewrite str_eqb_refl.
    - rewrite (str_eqb_ne "application/octet-stream" "application/json") by done.
      by rewrite str_eqb_refl. }
  split.
  - by rewrite (call_after_network _ _ _ _ _ Hn), Hnorm.
  - by rewrite (call_unwrapped_after_network _ _ _ _ _ Hn), Hnorm.
Qed.

(** X18. The unwrapped flow returns the parsed object of an
    application/json or text/plain body as it is: nothing is added to it,
    and no error is raised even when it says success false. *)
Theorem unwrapped_returns_body_as_is tr tr' rtype code body text d :
  _call_network self method headers parts identifiers params data files tr
    = (ok (rtype, code, body), tr') ->
  rtype = "application/json" \/ rtype = "text/plain" ->
  decoded body = ok text ->
  json_loads text = Some (PyDict d) ->
  _call_unwrapped self method headers parts identifiers params data files tr
    = (ok (PyDict d), tr').
Proof.
  intros Hn Hty Hd Hj.
  rewrite (call_unwrapped_after_network _ _ _ _ _ Hn). f_equal.
  unfold normalise. destruct Hty as [-> | ->].
  - rewrite str_eqb_refl, Hd. simpl. by rewrite Hj.
  - rewrite (str_eqb_ne "text/plain" "application/json") by done.
    rewrite (str_eqb_ne "text/plain" "application/octet-stream") by done.
    rewrite str_eqb_refl, Hd. simpl. by rewrite Hj.
Qed.

(** ** After normalisation *)

(** X13. A sanitised response always has a success field, sanitising
    it again changes nothing, and sanitisation touches no field other
    than success and errors. *)
Theorem sanitise_is_idempotent v v' :
  sanitise v = ok v' ->
  py_in "success" v' = ok true
  /\ sanitise v' = ok v'
  /\ (forall k, k <> "success" -> k <> "errors" ->
        py_getitem v' k = py_getitem v k).
Proof.
  intros Hs.
  assert (Hin : py_in "success" v' = ok true
                /\ (forall k, k <> "success" -> k <> "errors" ->
                      py_getitem v' k = py_getitem v k)).
  { destruct (py_in "success" v) as [e|[|]] eqn:Hv.
    - unfold sanitise in Hs. by rewrite Hv in Hs.
    - rewrite (sanitise_keeps_success _ Hv) in Hs. by injection Hs as <-.
    - destruct (sanitise_ok_dict _ _ Hs Hv) as [d ->].
      unfold sanitise in Hs. rewrite Hv in Hs. simpl in Hs.
      destruct (dict_has "errors" d); simpl in Hs.
      + destruct (dict_get "errors" d) as [errs|]; simpl in Hs; [|discriminate].
        destruct (is_none errs); simpl in Hs.
        * injection Hs as <-. simpl. rewrite dict_has_set_eq. split; [done|].
          intros k Hk _. by rewrite dict_get_set_ne.
        * destruct (py_add_str _ _) as [?|m]; simpl in Hs; [discriminate|].
          injection Hs as <-. simpl. rewrite dict_has_set_eq. split; [done|].
          intros k Hk Hk'. by rewrite !dict_get_set_ne.
      + destruct (dict_has "result" d); simpl in Hs; injection Hs as <-; simpl;
          rewrite dict_has_set_eq; (split; [done|]); intros k Hk Hk';
          by rewrite !dict_get_set_ne. }
  destruct Hin as [Hin Hkeep]. split; [done|]. split; [|done].
  by apply sanitise_keeps_success.
Qed.

(** X14. A response whose success field is anything but the JSON
    literal false is a success: [_call] returns its result field, or the
    whole response when it has none; in raw mode it returns an envelope
    with just that result and the result_info field, if there is one. *)
Theorem success_unwraps (d : list (string * pyobj)) (s : pyobj) :
  dict_get "success" d = Some s ->
  is_False s = false ->
  after_raw self (PyDict d)
  = ok (returned self (default (PyDict d) (dict_get "result" d))
          (dict_get "result_info" d)).
Proof.
  intros Hs Hf. unfold after_raw, sanitise. simpl.
  rewrite (dict_get_has _ _ _ Hs). simpl.
  unfold raise_if_failed. simpl. rewrite Hs. simpl. rewrite Hf. simpl.
  unfold unwrap, returned. simpl.
  destruct (cfg_truthy (raw self)); [|by destruct (dict_get "result" d)].
  unfold dict_has.
  destruct (dict_get "result_info" d) as [i|]; simpl;
    by destruct (dict_get "result" d).
Qed.

Lemma for_each_silent (items : list pyobj) :
  for_each (fun _ : pyobj => @ok unit tt) items = ok tt.
Proof. induction items as [|x items IH]; simpl; [done|by rewrite IH]. Qed.

Lemma raise_from_entry (e : list (string * pyobj)) :
  logger self = false \/ dict_get "error_chain" e = None ->
  (forall chain, dict_get "error_chain" e = Some chain ->
                 exists items, py_iter chain = ok items) ->
  (has_code <-? py_in "code" (PyDict e) ;;
   code <-? (if has_code then py_getitem (PyDict e) "code" else ok (PyInt 99998)) ;;
   has_message <-? py_in "message" (PyDict e) ;;
   message <-?
     (if has_message then py_getitem (PyDict e) "message"
      else
        has_error <-? py_in "error" (PyDict e) ;;
        if has_error then py_getitem (PyDict e) "error" else ok (PyStr "")) ;;
   has_chain <-? py_in "error_chain" (PyDict e) ;;
   if has_chain then
     error_chain <-? py_getitem (PyDict e) "error_chain" ;;
     items <-? py_iter error_chain ;;
     _ <-? for_each
             (fun error =>
                if logger self then
                  _ <-? py_getitem error "code" ;;
                  _ <-? py_getitem error "message" ;;
                  ok tt
                else ok tt)
             items ;;
     raise (CloudFlareAPIError code message (Some error_chain))
   else
     raise (CloudFlareAPIError code message None))
  = @raise unit (error_of e (dict_get "error_chain" e)).
Proof.
  intros Hlog Hiter. unfold error_of. simpl. unfold dict_has.
  destruct (dict_get "code" e) as [c|]; simpl;
    destruct (dict_get "message" e) as [m|]; simpl;
    destruct (dict_get "error" e) as [er|]; simpl;
    destruct (dict_get "error_chain" e) as [chain|]; simpl; try done.
  all: destruct (Hiter chain eq_refl) as [items ->]; simpl.
  all: destruct Hlog as [->|?]; [|done].
  all: by rewrite for_each_silent.
Qed.

(** X15. A response with success false whose errors list starts with an
    object raises an API error made from that first entry alone: its code
    (99998 when it has none), its message (else its error field, else the
    empty string) and its error chain when it has one (here with logging
    off and a chain that can be iterated). *)
Theorem failure_raises_first_error (d e : list (string * pyobj)) (more : list pyobj) :
  dict_get "success" d = Some (PyBool false) ->
  dict_get "errors" d = Some (PyList (PyDict e :: more)) ->
  logger self = false \/ dict_get "error_chain" e = None ->
  (forall chain, dict_get "error_chain" e = Some chain ->
                 exists items, py_iter chain = ok items) ->
  after_raw self (PyDict d) = raise (error_of e (dict_get "error_chain" e)).
Proof.
  intros Hs He Hlog Hiter. unfold after_raw, sanitise. simpl.
  rewrite (dict_get_has _ _ _ Hs). simpl.
  unfold raise_if_failed. simpl. rewrite Hs. simpl.
  rewrite (dict_get_has _ _ _ He), He. simpl.
  pose proof (raise_from_entry e Hlog Hiter) as Hr.
  simpl in Hr. by rewrite Hr.
Qed.

(** X16. A response with success false and an empty errors list does
    not raise an API error: indexing the list raises IndexError. *)
Theorem empty_errors_list_raises_index_error (d : list (string * pyobj)) :
  dict_get "success" d = Some (PyBool false) ->
  dict_get "errors" d = Some (PyList []) ->
  after_raw self (PyDict d) = raise IndexError.
Proof.
  intros Hs He. unfold after_raw, sanitise. simpl.
  rewrite (dict_get_has _ _ _ Hs). simpl.
  unfold raise_if_failed. simpl. rewrite Hs. simpl.
  by rewrite (dict_get_has _ _ _ He), He.
Qed.

(** X17. A response without success field whose errors list starts
    with an object is a failure with code 99999, whatever code the entry
    has: the message is the entry's message, ' - ', its location as text,
    ' - ', and its path joined by '>' (each of the last two empty when
    missing or unusable); a message that is not a string raises TypeError
    instead. *)
Theorem graphql_errors_are_collapsed (d e : list (string * pyobj)) (more : list pyobj) :
  dict_has "success" d = false ->
  dict_get "errors" d = Some (PyList (PyDict e :: more)) ->
  let message := default (PyStr "") (dict_get "message" e) in
  let location :=
    match dict_get "location" e with Some l => py_str l | None => "" end in
  let path :=
    match dict_get "path" e with
    | Some p => try_or (py_join ">" p) ""
    | None => ""
    end in
  (forall m, message = PyStr m ->
     after_raw self (PyDict d)
     = raise (CloudFlareAPIError (PyInt 99999)
                (PyStr (m +:+ " - " +:+ location +:+ " - " +:+ path)) None))
  /\ (as_str message = None -> after_raw self (PyDict d) = raise TypeError).
Proof.
  intros Hs He message location path.
  assert (Hm : try_or (first_error_field (PyList (PyDict e :: more)) "message")
                 (PyStr "") = message).
  { unfold first_error_field, message. simpl. by destruct (dict_get "message" e). }
  assert (Hl : try_or (v <-? first_error_field (PyList (PyDict e :: more)) "location" ;;
                       ok (py_str v)) "" = location).
  { unfold first_error_field, location. simpl. by destruct (dict_get "location" e). }
  assert (Hp : try_or (v <-? first_error_field (PyList (PyDict e :: more)) "path" ;;
                       py_join ">" v) "" = path).
  { unfold first_error_field, path. simpl. by destruct (dict_get "path" e). }
  assert (Hsan : sanitise (PyDict d)
                 = (m <-? py_add_str message " - " ;;
                    ok (PyDict (dict_set "success" (PyBool false)
                                  (dict_set "errors"
                                     (PyList [PyDict [("code", PyInt 99999);
                                        ("message",
                                         PyStr (m +:+ location +:+ " - " +:+ path))]])
                                     d))))).
  { unfold sanitise. simpl. rewrite Hs. simpl.
    rewrite (dict_get_has _ _ _ He), He. simpl.
    rewrite Hm, Hl, Hp. by destruct (py_add_str message " - "). }
  split.
  - intros m Hmsg. unfold after_raw. rewrite Hsan, Hmsg. simpl.
    unfold raise_if_failed. simpl.
    rewrite dict_get_set_eq. simpl.
    rewrite dict_has_set_ne, dict_has_set_eq by done.
    rewrite dict_get_set_ne, dict_get_set_eq by done. simpl.
    by rewrite app_assoc.
  - intros Hno. unfold after_raw. rewrite Hsan.
    by destruct message.
Qed.

(** X19. A response with none of success, errors and result is itself
    taken as the error: [_call] raises an API error with the response's
    own code (99998 when it has none), its own message (else its error
    field, else the empty string) and its own error chain when it has one
    (here with logging off and a chain that can be iterated). *)
Theorem body_as_error (d : list (string * pyobj)) :
  dict_has "success" d = false ->
  dict_has "errors" d = false ->
  dict_has "result" d = false ->
  logger self = false \/ dict_get "error_chain" d = None ->
  (forall chain, dict_get "error_chain" d = Some chain ->
                 exists items, py_iter chain = ok items) ->
  after_raw self (PyDict d) = raise (error_of d (dict_get "error_chain" d)).
Proof.
  intros Hs He Hr Hlog Hiter. unfold after_raw, sanitise. simpl.
  rewrite Hs, He, Hr. simpl.
  unfold raise_if_failed. simpl.
  rewrite dict_get_set_eq. simpl.
  rewrite dict_has_set_ne, dict_has_set_eq by done.
  rewrite dict_get_set_ne, dict_get_set_eq by done. simpl.
  unfold error_of.
  rewrite !dict_has_set_ne by done.
  rewrite !(dict_get_set_ne "code"), !(dict_get_set_ne "message"),
    !(dict_get_set_ne "error"), !(dict_get_set_ne "error_chain") by done.
  unfold dict_has.
  destruct (dict_get "code" d) as [c|]; simpl;
    destruct (dict_get "message" d) as [m|]; simpl;
    destruct (dict_get "error" d) as [er|]; simpl;
    destruct (dict_get "error_chain" d) as [chain|]; simpl; try done.
  all: destruct (Hiter chain eq_refl) as [items ->]; simpl.
  all: destruct Hlog as [->|?]; [|done].
  all: by rewrite for_each_silent.
Qed.

End WithPython.

(** ** Sample runs *)

Lemma normalise_shape_witness :
  is_dict (PyList [PyDict [("a", PyInt 1)]; PyDict [("a", PyInt 2)]]) = true
  \/ ("application/json" = "application/json"
      /\ exists l, PyList [PyDict [("a", PyInt 1)]; PyDict [("a", PyInt 2)]] = PyList l
                   /\ l <> []).
Proof.
  assert (Hn : normalise "application/json" 200 (CBytes (a1 +:+ lf +:+ a2))
               = ok (PyList [PyDict [("a", PyInt 1)]; PyDict [("a", PyInt 2)]]))
    by (vm_compute; reflexivity).
  exact (normalise_shape _ _ _ _ Hn).
Defined.

Lemma opaque_body_witness :
  _call html_404_client "GET" ∅ zones no_ids None None None []
  = (raise (api_error 99998 ""), [request_of "GET" ∅ None zones_url (None, None)]).
Proof.
  assert (Hn : _call_network html_404_client "GET" ∅ zones no_ids None None None []
               = (ok ("text/html", 404, CBytes "<h1>Not found</h1>"),
                  [request_of "GET" ∅ None zones_url (None, None)]))
    by (vm_compute; reflexivity).
  assert (Ho : opaque "text/html") by (repeat split; discriminate).
  destruct (opaque_body html_404_client "GET" ∅ zones no_ids None None None
              [] _ _ _ _ Hn Ho) as (_ & _ & H404).
  apply H404. discriminate.
Defined.

Lemma text_body_that_is_not_json_witness :
  fst (_call pong_client "GET" ∅ zones no_ids None None None []) = ok (PyStr "pong").
Proof.
  assert (Hn : _call_network pong_client "GET" ∅ zones no_ids None None None []
               = (ok ("text/plain", 200, CBytes "pong"),
                  [request_of "GET" ∅ None zones_url (None, None)]))
    by (vm_compute; reflexivity).
  assert (Hj : json_loads "pong" = None) by (vm_compute; reflexivity).
  destruct (text_body_that_is_not_json pong_client "GET" ∅ zones no_ids None None
              None [] _ _ _ _ "pong" Hn (or_introl eq_refl) eq_refl Hj)
    as (_ & H200 & _).
  rewrite (H200 eq_refl). reflexivity.
Defined.

Lemma bare_json_is_success_witness :
  fst (_call array_404_client "GET" ∅ zones no_ids None None None [])
  = ok (PyList [PyInt 1; PyInt 2]).
Proof.
  assert (Hn : _call_network array_404_client "GET" ∅ zones no_ids None None None []
               = (ok ("application/json", 404, CBytes "[1,2]"),
                  [request_of "GET" ∅ None zones_url (None, None)]))
    by (vm_compute; reflexivity).
  assert (Hj : json_loads "[1,2]" = Some (PyList [PyInt 1; PyInt 2]))
    by (vm_compute; reflexivity).
  destruct (bare_json_is_success array_404_client "GET" ∅ zones no_ids None None
              None [] _ _ _ _ "[1,2]" _ Hn (or_introl eq_refl) eq_refl Hj eq_refl)
    as (_ & Hcall).
  rewrite Hcall. reflexivity.
Defined.

Lemma invalid_utf8_raises_witness :
  utf8_valid bad_bytes = false
  /\ fst (_call bad_bytes_client "GET" ∅ zones no_ids None None None [])
     = raise UnicodeDecodeError.
Proof.
  split; [reflexivity|].
  assert (Hn : _call_network bad_bytes_client "GET" ∅ zones no_ids None None None []
               = (ok ("application/json", 200, CBytes bad_bytes),
                  [request_of "GET" ∅ None zones_url (None, None)]))
    by (vm_compute; reflexivity).
  destruct (invalid_utf8_raises bad_bytes_client "GET" ∅ zones no_ids None None
              None [] _ _ _ _ Hn (or_introl eq_refl) eq_refl) as (Hcall & _).
  rewrite Hcall. reflexivity.
Defined.

Lemma unwrapped_returns_body_as_is_witness :
  fst (_call_unwrapped denied_client "GET" ∅ zones no_ids None None None [])
  = ok (PyDict denied).
Proof.
  assert (Hn : _call_network denied_client "GET" ∅ zones no_ids None None None []
               = (ok ("application/json", 403, CBytes denied_body),
                  [request_of "GET" ∅ None zones_url (None, None)]))
    by (vm_compute; reflexivity).
  assert (Hj : json_loads denied_body = Some (PyDict denied))
    by (vm_compute; reflexivity).
  rewrite (unwrapped_returns_body_as_is denied_client "GET" ∅ zones no_ids None
             None None [] _ _ _ _ denied_body denied Hn (or_introl eq_refl)
             eq_refl Hj).
  reflexivity.
Defined.

Lemma sanitise_is_idempotent_witness :
  sanitise (PyDict [("result", PyInt 1)])
    = ok (PyDict [("result", PyInt 1); ("success", PyBool true)])
  /\ sanitise (PyDict [("result", PyInt 1); ("success", PyBool true)])
     = ok (PyDict [("result", PyInt 1); ("success", PyBool true)]).
Proof.
  assert (Hs : sanitise (PyDict [("result", PyInt 1)])
               = ok (PyDict [("result", PyInt 1); ("success", PyBool true)]))
    by reflexivity.
  split; [exact Hs|].
  exact (proj1 (proj2 (sanitise_is_idempotent _ _ Hs))).
Defined.

Lemma success_unwraps_witness :
  after_raw dns_client (PyDict page)
  = ok (PyList [PyDict [("id", PyStr "023e105f")]]).
Proof.
  rewrite (success_unwraps dns_client page (PyBool true) eq_refl eq_refl).
  reflexivity.
Defined.

Lemma failure_raises_first_error_witness :
  after_raw dns_client (PyDict denied)
  = raise (CloudFlareAPIError (PyInt 10000) (PyStr "Authentication error") None).
Proof.
  rewrite (failure_raises_first_error dns_client denied denied_error []
             eq_refl eq_refl (or_introl eq_refl)); [reflexivity|].
  intros chain Hc. discriminate.
Defined.

Lemma empty_errors_list_raises_index_error_witness :
  after_raw dns_client (PyDict [("success", PyBool false); ("errors", PyList [])])
  = raise IndexError.
Proof.
  exact (empty_errors_list_raises_index_error dns_client
           [("success", PyBool false); ("errors", PyList [])] eq_refl eq_refl).
Defined.

Lemma graphql_errors_are_collapsed_witness :
  after_raw dns_client (PyDict graphql_failure)
  = raise (CloudFlareAPIError (PyInt 99999)
             (PyStr "unknown field -  - viewer>zones") None).
Proof.
  destruct (graphql_errors_are_collapsed dns_client graphql_failure
              [("message", PyStr "unknown field");
               ("path", PyList [PyStr "viewer"; PyStr "zones"]);
               ("extensions", PyDict [("code", PyStr "bad")])] []
              eq_refl eq_refl) as [Hm _].
  rewrite (Hm "unknown field" eq_refl). reflexivity.
Defined.

Lemma body_as_error_witness :
  after_raw dns_client (PyDict certificate_failure)
  = raise (CloudFlareAPIError (PyInt 1006) (PyStr "certificate not found") None)
  /\ after_raw dns_client (PyDict chained_failure)
     = raise (CloudFlareAPIError (PyInt 1006) (PyStr "certificate not found")
                (Some (PyList [PyDict [("code", PyInt 1007);
                                       ("message", PyStr "no such zone")]]))).
Proof.
  assert (Hlog : logger dns_client = false) by reflexivity.
  split.
  - rewrite (body_as_error dns_client certificate_failure eq_refl eq_refl eq_refl
               (or_introl Hlog)); [reflexivity|].
    intros chain Hc. vm_compute in Hc. discriminate.
  - rewrite (body_as_error dns_client chained_failure eq_refl eq_refl eq_refl
               (or_introl Hlog)); [reflexivity|].
    intros chain Hc. vm_compute in Hc. injection Hc as <-. by eexists.
Defined.

End ResponseTheory.

(* ===================================================================== *)
(** * More on the constructor and on paths *)
(* ===================================================================== *)

Module ConstructorTheory.
Import PyValues V4Base Endpoints Client Spec Demo Samples More Basics ClientTheory Tree.
Local Open Scope py_scope.

Lemma init_base_url transport agent config self :
  v4base_init transport agent config = ok self ->
  base_url self = get_or config "base_url" (VStr BASE_URL)
  /\ api_certtoken self = get_or config "certtoken" VNone.
Proof.
  unfold v4base_init, rbind, get.
  destruct (config !! "raw"); [|discriminate].
  destruct (config !! "use_sessions"); [|discriminate].
  destruct (config !! "profile"); [|discriminate].
  simpl. intros [= <-]. done.
Qed.

Lemma apply_args_certtoken a config :
  apply_args a config !! "certtoken"
  = match arg_certtoken a with Some s => Some (VStr s) | None => config !! "certtoken" end.
Proof.
  unfold apply_args. rewrite !override_lookup_ne by done.
  destruct (arg_certtoken a); simpl; [apply lookup_insert_eq|].
  by rewrite !override_lookup_ne.
Qed.

Lemma apply_args_base_url a config :
  apply_args a config !! "base_url"
  = match arg_base_url a with Some s => Some (VStr s) | None => config !! "base_url" end.
Proof.
  unfold apply_args. rewrite !override_lookup_ne by done.
  destruct (arg_base_url a); simpl; [apply lookup_insert_eq|].
  by rewrite !override_lookup_ne.
Qed.

Lemma apply_args_email_none a config :
  arg_email a = None -> apply_args a config !! "email" = config !! "email".
Proof.
  intros Ha. unfold apply_args. rewrite !override_lookup_ne by done. by rewrite Ha.
Qed.

Lemma apply_args_key_none a config :
  arg_key a = None -> apply_args a config !! "key" = config !! "key".
Proof.
  intros Ha. unfold apply_args. rewrite !override_lookup_ne by done. rewrite Ha.
  simpl. by rewrite !override_lookup_ne.
Qed.

Lemma apply_args_token_none a config :
  arg_token a = None -> apply_args a config !! "token" = config !! "token".
Proof.
  intros Ha. unfold apply_args. rewrite !override_lookup_ne by done. rewrite Ha.
  simpl. by rewrite !override_lookup_ne.
Qed.

(** X20. Arguments of the constructor override the configuration file:
    email, key, token, certtoken and base_url of the client are the
    argument when one is given and the value of the file otherwise, a
    blank value counting as None; without any base_url the client talks to
    https://api.cloudflare.com/client/v4. *)
Theorem arguments_override_the_file transport agent file_config a self :
  CloudFlare_init transport agent file_config a = ok self ->
  api_email self = held (arg_email a) (file_config !! "email") VNone
  /\ api_key self = held (arg_key a) (file_config !! "key") VNone
  /\ api_token self = held (arg_token a) (file_config !! "token") VNone
  /\ api_certtoken self = held (arg_certtoken a) (file_config !! "certtoken") VNone
  /\ base_url self = held (arg_base_url a) (file_config !! "base_url") (VStr BASE_URL).
Proof.
  intros Hinit. unfold CloudFlare_init in Hinit.
  pose proof (v4base_init_fields _ _ _ _ Hinit) as (_ & He & Hk & Ht).
  pose proof (init_base_url _ _ _ _ Hinit) as (Hb & Hc).
  rewrite He, Hk, Ht, Hb, Hc. unfold get_or, held.
  rewrite !sanitise_config_lookup.
  rewrite apply_args_certtoken, apply_args_base_url.
  repeat split.
  - destruct (arg_email a) as [s|] eqn:Ha.
    + by rewrite (apply_args_email _ _ _ Ha).
    + by rewrite (apply_args_email_none _ _ Ha).
  - destruct (arg_key a) as [s|] eqn:Ha.
    + by rewrite (apply_args_key _ _ _ Ha).
    + by rewrite (apply_args_key_none _ _ Ha).
  - destruct (arg_token a) as [s|] eqn:Ha.
    + by rewrite (apply_args_token _ _ _ Ha).
    + by rewrite (apply_args_token_none _ _ Ha).
  - by destruct (arg_certtoken a).
  - by destruct (arg_base_url a).
Qed.

Lemma build_url_needs_base self method parts identifiers data url :
  build_url self method parts identifiers data = ok url ->
  exists b, base_url self = VStr b.
Proof.
  intros Hu. destruct (base_url self) as [|b| |] eqn:Hb; eauto; exfalso.
  all: assert (Hs : base_slash self = raise TypeError)
         by (unfold base_slash; by rewrite Hb).
  all: unfold build_url, rbind in Hu; rewrite Hs in Hu; unfold raise, ok in Hu.
  all: repeat case_match; simplify_eq.
Qed.

Section WithPython.
Context `{Python}.

(** X21. A base URL given as the empty string is not replaced by the
    default one: it becomes None, and every call of the client then raises
    while building the URL, without sending anything. *)
Theorem blank_base_url_sends_nothing transport agent file_config a self
    method headers parts identifiers params data files tr :
  CloudFlare_init transport agent file_config a = ok self ->
  arg_base_url a = Some "" ->
  base_url self = VNone
  /\ exists e,
       _call self method headers parts identifiers params data files tr
         = (raise e, tr)
       /\ _call_unwrapped self method headers parts identifiers params data files tr
         = (raise e, tr).
Proof.
  intros Hinit Ha.
  assert (Hb : base_url self = VNone).
  { unfold CloudFlare_init in Hinit.
    destruct (init_base_url _ _ _ _ Hinit) as [-> _].
    unfold get_or. by rewrite sanitise_config_lookup, apply_args_base_url, Ha. }
  split; [done|].
  destruct (build_url self method parts identifiers data) as [e|url] eqn:Hu.
  - exists e.
    assert (Hn : _call_network self method headers parts identifiers params data
                   files tr = (raise e, tr))
      by (unfold _call_network, mbind, mlift; by rewrite Hu).
    pose proof (PipelineTheory.raw_network_raises _ _ _ _ _ _ _ _ _ _ _ Hn) as Hraw.
    split.
    + by rewrite (PipelineTheory.call_after_raw _ _ _ _ _ _ _ _ _ _ _ Hraw).
    + by rewrite (PipelineTheory.call_unwrapped_after_raw _ _ _ _ _ _ _ _ _ _ _ Hraw).
  - apply build_url_needs_base in Hu as [b Hb']. congruence.
Qed.

End WithPython.

(** X22. For an endpoint whose parts are a first segment followed by
    further segments without a gap (a part is absent only when all later
    ones are), none of them the empty string, on a client whose base URL is
    a string: the path that [api_list] shows for the endpoint -- its parts
    joined by '/:id/' after a '/' -- is, after the base URL, the URL of a
    call to it without body in which ':id' is given as the identifier
    before each part after the first and no identifier is given after the
    last part. *)
Theorem listed_path_is_the_url self method b p0 p1 p2 p3 p4 :
  base_url self = VStr b ->
  Forall nonblank [Some p0; p1; p2; p3; p4] ->
  (p1 = None -> p2 = None) -> (p2 = None -> p3 = None) -> (p3 = None -> p4 = None) ->
  build_url self method [Some p0; p1; p2; p3; p4] (placeholders p1 p2 p3 p4) None
  = ok (b +:+ path_of [Some p0; p1; p2; p3; p4]).
Proof.
  intros Hb Hnb H12 H23 H34.
  repeat match goal with
         | H : Forall _ (_ :: _) |- _ => apply Forall_cons in H as [? H]
         end.
  unfold build_url, base_slash, placeholders, path_of. rewrite Hb. simpl.
  destruct p1 as [s1|]; [|rewrite (H12 eq_refl), (H23 (H12 eq_refl)),
                            (H34 (H23 (H12 eq_refl)))].
  - destruct p2 as [s2|]; [|rewrite (H23 eq_refl), (H34 (H23 eq_refl))].
    + destruct p3 as [s3|]; [|rewrite (H34 eq_refl)].
      * destruct p4 as [s4|]; simpl; rewrite ?truthy_nonblank by done; simpl;
          destruct p0, s1, s2, s3; try done; try destruct s4; try done;
          simpl; rewrite ?Basics.app_assoc, ?app_cons, ?app_empty_l, ?app_empty_r;
          reflexivity.
      * simpl. rewrite ?truthy_nonblank by done. simpl.
        destruct p0, s1, s2; try done;
          simpl; rewrite ?Basics.app_assoc, ?app_cons, ?app_empty_l, ?app_empty_r;
          reflexivity.
    + simpl. rewrite ?truthy_nonblank by done. simpl.
      destruct p0, s1; try done;
        simpl; rewrite ?Basics.app_assoc, ?app_cons, ?app_empty_l, ?app_empty_r;
        reflexivity.
  - simpl. destruct p0; try done;
      simpl; rewrite ?Basics.app_assoc, ?app_cons, ?app_empty_l, ?app_empty_r;
      reflexivity.
Qed.

(** ** Sample runs *)

Lemma arguments_override_the_file_witness :
  api_email override_client = VStr "arg@example.com"
  /\ api_token override_client = VStr "from-file"
  /\ base_url override_client = VStr BASE_URL.
Proof.
  assert (Hinit : CloudFlare_init (fun _ => json_reply 200 "{}") agent file_with_email
                    override_args = ok override_client) by (vm_compute; reflexivity).
  destruct (arguments_override_the_file _ _ _ _ _ Hinit) as (He & _ & Ht & _ & Hb).
  rewrite He, Ht, Hb. repeat split; vm_compute; reflexivity.
Defined.

Lemma blank_base_url_sends_nothing_witness :
  base_url blank_url_client = VNone
  /\ snd (_call blank_url_client "GET" ∅ zones no_ids None None None []) = [].
Proof.
  assert (Hinit : CloudFlare_init (fun _ => json_reply 200 "{}") agent file_with_email
                    blank_url_args = ok blank_url_client) by (vm_compute; reflexivity).
  destruct (blank_base_url_sends_nothing _ _ _ _ blank_url_client "GET" ∅ zones
              no_ids None None None [] Hinit eq_refl) as (Hb & e & Hcall & _).
  split; [exact Hb|]. by rewrite Hcall.
Defined.

Lemma listed_path_is_the_url_witness :
  build_url dns_client "GET" [Some "zones"; Some "dns_records"; None; None; None]
    [Some ":id"; None; None; None] None
  = ok "https://api.cloudflare.com/client/v4/zones/:id/dns_records".
Proof.
  assert (Hb : base_url dns_client = VStr BASE_URL) by (vm_compute; reflexivity).
  assert (Hnb : Forall nonblank [Some "zones"; Some "dns_records"; None; None; None])
    by (repeat constructor; discriminate).
  exact (listed_path_is_the_url dns_client "GET" BASE_URL "zones"
           (Some "dns_records") None None None Hb Hnb
           ltac:(discriminate) (fun _ => eq_refl) (fun _ => eq_refl)).
Defined.

End ConstructorTheory.
